(** * divminder-crawler: a shallow embedding of the dividend scrapers,
      the API clients, the file cache and the batch runner.

    The Go sources are embedded function by function.  Go strings are byte
    strings ([string] of [ascii]); [time.Time] values are instants counted in
    nanoseconds from 0001-01-01T00:00:00Z (Go's zero [Time]) and read in UTC;
    [float64] is the kernel's binary64 ([PrimFloat.float]); files live in a
    finite map from paths to contents. *)

From Stdlib Require Import ZArith List String Ascii Bool Lia Floats DecimalString.
From stdpp Require Import gmap strings sorting.

#[local] Set Warnings "-inexact-float,-register-all".

Local Open Scope string_scope.
Local Open Scope list_scope.
Local Open Scope Z_scope.

(** ** Go's [time] package, as far as the crawler uses it *)

Module GoTime.

(** An instant: nanoseconds since 0001-01-01T00:00:00Z. *)
Definition Time : Type := Z.

Definition nsPerSecond : Z := 1000000000.
Definition secondsPerDay : Z := 86400.
Definition nsPerDay : Z := secondsPerDay * nsPerSecond.
Definition daysPer400Years : Z := 146097.
Definition daysPer100Years : Z := 36524.
Definition daysPer4Years : Z := 1461.

Definition zeroTime : Time := 0.

Definition isLeap (year : Z) : bool :=
  (year mod 4 =? 0) && (negb (year mod 100 =? 0) || (year mod 400 =? 0)).

(** [daysBefore m] is the number of days in a non-leap year before month
    [m + 1] (Go's [daysBefore] table, indices 0..12). *)
Definition daysBefore (m : Z) : Z :=
  match m with
  | 0 => 0 | 1 => 31 | 2 => 59 | 3 => 90 | 4 => 120 | 5 => 151 | 6 => 181
  | 7 => 212 | 8 => 243 | 9 => 273 | 10 => 304 | 11 => 334 | _ => 365
  end.

Definition daysIn (month year : Z) : Z :=
  if (month =? 2) && isLeap year then 29
  else daysBefore month - daysBefore (month - 1).

(** Days from 0001-01-01 to January 1 of [year]. *)
Definition daysSinceEpoch (year : Z) : Z :=
  let y := year - 1 in
  let n400 := y / 400 in
  let y := y - 400 * n400 in
  let n100 := y / 100 in
  let y := y - 100 * n100 in
  let n4 := y / 4 in
  let y := y - 4 * n4 in
  daysPer400Years * n400 + daysPer100Years * n100 + daysPer4Years * n4 + 365 * y.

(** [time.Date(year, month, day, hour, min, sec, nsec, time.UTC)]: month and
    day may be out of range and are normalised; [dateDays] is the day number
    it computes on the way. *)
Definition dateDays (year month day : Z) : Z :=
  let m := month - 1 in
  let year := year + m / 12 in
  let month := m mod 12 + 1 in
  let d := daysSinceEpoch year + daysBefore (month - 1) in
  let d := if isLeap year && (3 <=? month) then d + 1 else d in
  d + (day - 1).

Definition Date (year month day hour min sec nsec : Z) : Time :=
  let d := dateDays year month day in
  (d * secondsPerDay + hour * 3600 + min * 60 + sec) * nsPerSecond + nsec.

(** Go's [absDate]: the civil date of a day number. *)
Definition absDate (days : Z) : Z * Z * Z :=
  let n := days / daysPer400Years in
  let y := 400 * n in
  let d := days - daysPer400Years * n in
  let n := d / daysPer100Years in
  let n := n - n / 4 in
  let y := y + 100 * n in
  let d := d - daysPer100Years * n in
  let n := d / daysPer4Years in
  let y := y + 4 * n in
  let d := d - daysPer4Years * n in
  let n := d / 365 in
  let n := n - n / 4 in
  let y := y + n in
  let d := d - 365 * n in
  let year := y + 1 in
  if isLeap year && (d =? 31 + 29 - 1) then (year, 2, 29)
  else
    let day := if isLeap year && (31 + 29 - 1 <? d) then d - 1 else d in
    let month := day / 31 in
    let end_ := daysBefore (month + 1) in
    if end_ <=? day then (year, month + 2, day - end_ + 1)
    else (year, month + 1, day - daysBefore month + 1).

Definition civil (t : Time) : Z * Z * Z := absDate (t / nsPerDay).

(** A check of one day number, and of all day numbers below a bound. *)
Definition checkDay (n : Z) : bool :=
  let '(y, m, d) := absDate n in
  (dateDays y m d =? n) && (1 <=? m) && (m <=? 12) && (1 <=? d) && (d <=? daysIn m y).

Fixpoint allFrom (P : Z -> bool) (i : Z) (n : nat) : bool :=
  match n with
  | O => true
  | S k => P i && allFrom P (i + 1) k
  end.

Definition Year (t : Time) : Z := fst (fst (civil t)).
Definition Month (t : Time) : Z := snd (fst (civil t)).
Definition Day (t : Time) : Z := snd (civil t).

(** [t.AddDate(years, months, days)]. *)
Definition AddDate (t : Time) (years months days : Z) : Time :=
  let '(year, month, day) := civil t in
  Date (year + years) (month + months) (day + days) 0 0 0 (t mod nsPerDay).

Definition After (t u : Time) : bool := u <? t.
Definition Before (t u : Time) : bool := t <? u.
Definition IsZero (t : Time) : bool := t =? 0.

(** *** Layouts and [time.Parse] *)

(** The layout elements that occur in the crawler's layouts. *)
Inductive chunk : Type :=
| stdLongMonth   (* January *)
| stdMonth       (* Jan *)
| stdNumMonth    (* 1 *)
| stdZeroMonth   (* 01 *)
| stdDay         (* 2 *)
| stdZeroDay     (* 02 *)
| stdLongYear    (* 2006 *)
| stdYear        (* 06 *)
| lit (c : ascii).

(** Go's [nextStdChunk] on layouts built from the elements above and the
    separators ['/'], ['-'], [','] and single spaces, which is what every
    layout of the crawler is: any other byte stands for itself. *)
Fixpoint chunks (layout : string) : list chunk :=
  match layout with
  | "" => []
  | String "J" (String "a" (String "n" (String "u" (String "a" (String "r" (String "y" rest)))))) =>
      stdLongMonth :: chunks rest
  | String "J" (String "a" (String "n" rest)) => stdMonth :: chunks rest
  | String "0" (String "1" rest) => stdZeroMonth :: chunks rest
  | String "0" (String "2" rest) => stdZeroDay :: chunks rest
  | String "0" (String "6" rest) => stdYear :: chunks rest
  | String "2" (String "0" (String "0" (String "6" rest))) => stdLongYear :: chunks rest
  | String "1" rest => stdNumMonth :: chunks rest
  | String "2" rest => stdDay :: chunks rest
  | String c rest => lit c :: chunks rest
  end.

Definition isDigit (c : ascii) : bool :=
  let n := nat_of_ascii c in (48 <=? n)%nat && (n <=? 57)%nat.

Definition digitVal (c : ascii) : Z := Z.of_nat (nat_of_ascii c) - 48.

(** [getnum(s, fixed)]: one or two leading digits; exactly two when [fixed]. *)
Definition getnum (s : string) (fixed : bool) : option (Z * string) :=
  match s with
  | String a rest =>
      if isDigit a then
        match rest with
        | String b rest' =>
            if isDigit b then Some (digitVal a * 10 + digitVal b, rest')
            else if fixed then None else Some (digitVal a, rest)
        | "" => if fixed then None else Some (digitVal a, rest)
        end
      else None
  | "" => None
  end.

(** [atoi] on a two-byte field: an optional sign, then only digits. *)
Definition atoi2 (a b : ascii) : option Z :=
  if isDigit a then
    if isDigit b then Some (digitVal a * 10 + digitVal b) else None
  else if Ascii.eqb a "+" then (if isDigit b then Some (digitVal b) else None)
  else if Ascii.eqb a "-" then (if isDigit b then Some (- digitVal b) else None)
  else None.

Definition lower (c : ascii) : ascii :=
  ascii_of_N (N.lor (N_of_ascii c) 32).

(** [match(s1, s2)]: equal up to the case of ASCII letters. *)
Definition matchChar (c1 c2 : ascii) : bool :=
  if Ascii.eqb c1 c2 then true
  else
    let l1 := lower c1 in
    Ascii.eqb l1 (lower c2) && (97 <=? nat_of_ascii l1)%nat && (nat_of_ascii l1 <=? 122)%nat.

Fixpoint matchPrefix (name value : string) : option string :=
  match name with
  | "" => Some value
  | String n name' =>
      match value with
      | String v value' => if matchChar v n then matchPrefix name' value' else None
      | "" => None
      end
  end.

(** [lookup(tab, val)]: the first name of the table that [val] starts with. *)
Fixpoint lookup (tab : list string) (i : Z) (val : string) : option (Z * string) :=
  match tab with
  | [] => None
  | name :: tab' =>
      match matchPrefix name val with
      | Some rest => Some (i, rest)
      | None => lookup tab' (i + 1) val
      end
  end.

Definition shortMonthNames : list string :=
  ["Jan"; "Feb"; "Mar"; "Apr"; "May"; "Jun"; "Jul"; "Aug"; "Sep"; "Oct"; "Nov"; "Dec"].

Definition longMonthNames : list string :=
  ["January"; "February"; "March"; "April"; "May"; "June"; "July"; "August";
   "September"; "October"; "November"; "December"].

Fixpoint cutspace (s : string) : string :=
  match s with
  | String " " s' => cutspace s'
  | _ => s
  end.

(** The fields [time.Parse] collects; [-1] is "not set". *)
Record fields : Type := { f_year : Z; f_month : Z; f_day : Z }.

Definition fields0 : fields := {| f_year := 0; f_month := -1; f_day := -1 |}.

(** One step of the parse loop: consume the text of one layout element. *)
Definition parseChunk (c : chunk) (f : fields) (value : string) : option (fields * string) :=
  match c with
  | lit " " =>
      match value with
      | "" => Some (f, value)
      | String v _ => if Ascii.eqb v " " then Some (f, cutspace value) else None
      end
  | lit p =>
      match value with
      | String v value' => if Ascii.eqb v p then Some (f, value') else None
      | "" => None
      end
  | stdYear =>
      match value with
      | String a (String b value') =>
          match atoi2 a b with
          | Some y =>
              let y := if 69 <=? y then y + 1900 else y + 2000 in
              Some ({| f_year := y; f_month := f_month f; f_day := f_day f |}, value')
          | None => None
          end
      | _ => None
      end
  | stdLongYear =>
      match value with
      | String a (String b (String c (String d value'))) =>
          if isDigit a && isDigit b && isDigit c && isDigit d then
            let y := ((digitVal a * 10 + digitVal b) * 10 + digitVal c) * 10 + digitVal d in
            Some ({| f_year := y; f_month := f_month f; f_day := f_day f |}, value')
          else None
      | _ => None
      end
  | stdMonth =>
      match lookup shortMonthNames 0 value with
      | Some (i, value') =>
          Some ({| f_year := f_year f; f_month := i + 1; f_day := f_day f |}, value')
      | None => None
      end
  | stdLongMonth =>
      match lookup longMonthNames 0 value with
      | Some (i, value') =>
          Some ({| f_year := f_year f; f_month := i + 1; f_day := f_day f |}, value')
      | None => None
      end
  | stdNumMonth | stdZeroMonth =>
      match getnum value (match c with stdZeroMonth => true | _ => false end) with
      | Some (m, value') =>
          if (m <=? 0) || (12 <? m) then None
          else Some ({| f_year := f_year f; f_month := m; f_day := f_day f |}, value')
      | None => None
      end
  | stdDay | stdZeroDay =>
      match getnum value (match c with stdZeroDay => true | _ => false end) with
      | Some (d, value') =>
          Some ({| f_year := f_year f; f_month := f_month f; f_day := d |}, value')
      | None => None
      end
  end.

Fixpoint parseChunks (cs : list chunk) (f : fields) (value : string) : option fields :=
  match cs with
  | [] => match value with "" => Some f | _ => None end
  | c :: cs' =>
      match parseChunk c f value with
      | Some (f', value') => parseChunks cs' f' value'
      | None => None
      end
  end.

(** [time.Parse(layout, value)]: [None] stands for a non-nil error. *)
Definition Parse (layout value : string) : option Time :=
  match parseChunks (chunks layout) fields0 value with
  | Some f =>
      let month := if f_month f <? 0 then 1 else f_month f in
      let day := if f_day f <? 0 then 1 else f_day f in
      if (day <? 1) || (daysIn month (f_year f) <? day) then None
      else Some (Date (f_year f) month day 0 0 0 0)
  | None => None
  end.

End GoTime.


(** ** Go's [strings], [regexp] and [strconv], as far as the scrapers use them *)

Module GoStrings.

Definition bytes (l : list nat) : string :=
  fold_right (fun n s => String (ascii_of_nat n) s) "" l.

(** [unicode.IsSpace]: the UTF-8 encodings of the White_Space runes. *)
Definition spaceRunes : list string :=
  map bytes
    [[9]; [10]; [11]; [12]; [13]; [32]; [194; 133]; [194; 160]; [225; 154; 128];
     [226; 128; 128]; [226; 128; 129]; [226; 128; 130]; [226; 128; 131];
     [226; 128; 132]; [226; 128; 133]; [226; 128; 134]; [226; 128; 135];
     [226; 128; 136]; [226; 128; 137]; [226; 128; 138]; [226; 128; 168];
     [226; 128; 169]; [226; 128; 175]; [226; 129; 159]; [227; 128; 128]]%nat.

Fixpoint stripPrefix (p s : string) : option string :=
  match p with
  | "" => Some s
  | String a p' =>
      match s with
      | String b s' => if Ascii.eqb a b then stripPrefix p' s' else None
      | "" => None
      end
  end.

(** The rest of [s] after one leading rune of [runes], if it starts with one. *)
Fixpoint stripOne (runes : list string) (s : string) : option string :=
  match runes with
  | [] => None
  | r :: runes' =>
      match stripPrefix r s with
      | Some s' => Some s'
      | None => stripOne runes' s
      end
  end.

Fixpoint trimLeftFuel (fuel : nat) (runes : list string) (s : string) : string :=
  match fuel with
  | O => s
  | S fuel' =>
      match stripOne runes s with
      | Some s' => trimLeftFuel fuel' runes s'
      | None => s
      end
  end.

Definition TrimLeftSpace (s : string) : string :=
  trimLeftFuel (String.length s) spaceRunes s.

Definition rev (s : string) : string :=
  string_of_list_ascii (List.rev (list_ascii_of_string s)).

Definition TrimRightSpace (s : string) : string :=
  rev (trimLeftFuel (String.length s) (map rev spaceRunes) (rev s)).

(** [strings.TrimSpace]. *)
Definition TrimSpace (s : string) : string := TrimRightSpace (TrimLeftSpace s).

(** [strings.TrimPrefix]. *)
Definition TrimPrefix (s prefix : string) : string :=
  match stripPrefix prefix s with
  | Some s' => s'
  | None => s
  end.

(** [strings.ReplaceAll(s, string(c), "")] for a single byte [c]. *)
Fixpoint removeAll (c : ascii) (s : string) : string :=
  match s with
  | "" => ""
  | String a s' => if Ascii.eqb a c then removeAll c s' else String a (removeAll c s')
  end.

Definition isDigit : ascii -> bool := GoTime.isDigit.

Fixpoint takeDigits (s : string) : string * string :=
  match s with
  | String a s' =>
      if isDigit a then let '(d, r) := takeDigits s' in (String a d, r) else ("", s)
  | "" => ("", "")
  end.

(** The first submatch of the scraper's amount pattern (one or more digits, an
    optional dot, any digits): the leftmost digit starts the match, which
    takes the digits, then a dot if one follows, then the digits after it. *)
Fixpoint findNumber (s : string) : option string :=
  match s with
  | "" => None
  | String a s' =>
      if isDigit a then
        let '(d1, r) := takeDigits s in
        match r with
        | String "." r' => let '(d2, _) := takeDigits r' in Some (d1 +:+ "." +:+ d2)
        | _ => Some d1
        end
      else findNumber s'
  end.

(** [regexp.MustCompile(`[^0-9.]`).ReplaceAllString(s, "")]: every byte of a
    rune other than a digit or a dot is outside the class, so the bytes that
    stay are the digits and the dots. *)
Fixpoint keepNumeric (s : string) : string :=
  match s with
  | "" => ""
  | String a s' =>
      if isDigit a || Ascii.eqb a "." then String a (keepNumeric s') else keepNumeric s'
  end.

Fixpoint hasPrefix (p s : string) : bool :=
  match p with
  | "" => true
  | String a p' =>
      match s with
      | String b s' => Ascii.eqb a b && hasPrefix p' s'
      | "" => false
      end
  end.

(** [strings.Contains]. *)
Fixpoint Contains (s sub : string) : bool :=
  hasPrefix sub s ||
  match s with
  | "" => false
  | String _ s' => Contains s' sub
  end.

(** [strings.HasSuffix]. *)
Definition HasSuffix (s suffix : string) : bool := hasPrefix (rev suffix) (rev s).

(** [strings.ToLower] on ASCII text (the case mapping of other runes is not
    modelled; the vendor's pages use ASCII letters). *)
Fixpoint ToLower (s : string) : string :=
  match s with
  | "" => ""
  | String a s' =>
      let n := nat_of_ascii a in
      String (if (65 <=? n)%nat && (n <=? 90)%nat then ascii_of_nat (n + 32) else a) (ToLower s')
  end.

End GoStrings.

Module GoFloat.

Definition float64 : Type := PrimFloat.float.

(** The decimal digits of [s] as a number, or [None] when a byte is no digit. *)
Fixpoint digitsValue (acc : Z) (s : string) : option Z :=
  match s with
  | "" => Some acc
  | String a s' =>
      if GoTime.isDigit a then digitsValue (acc * 10 + GoTime.digitVal a) s' else None
  end.

Fixpoint splitDot (s : string) : string * option string :=
  match s with
  | "" => ("", None)
  | String "." s' => ("", Some s')
  | String a s' => let '(i, f) := splitDot s' in (String a i, f)
  end.

(** The binary64 nearest to [num / den] (ties to even), for [0 < num] and
    [0 < den]; [None] when it is beyond the largest finite value. *)
Definition roundRatio (num den : Z) : option float64 :=
  let e0 := Z.log2 num - Z.log2 den - 52 in
  let scaled (e : Z) : Z * Z :=
    if 0 <=? e then (num, den * 2 ^ e) else (num * 2 ^ (- e), den) in
  let quot (e : Z) : Z := let '(n, d) := scaled e in n / d in
  let e := if 2 ^ 53 <=? quot e0 then e0 + 1
           else if quot e0 <? 2 ^ 52 then e0 - 1 else e0 in
  let e := Z.max e (-1074) in
  let '(n, d) := scaled e in
  let q := n / d in
  let r := n - q * d in
  let q := if (d <? 2 * r) || ((d =? 2 * r) && Z.odd q) then q + 1 else q in
  let '(q, e) := if q =? 2 ^ 53 then (2 ^ 52, e + 1) else (q, e) in
  if 1023 <? e + 52 then None
  else Some (Z.ldexp (PrimFloat.of_uint63 (Uint63.of_Z q)) e).

(** [strconv.ParseFloat(s, 64)] on the strings the scrapers pass to it, which
    hold digits and dots only: an optional integer part, an optional dot and
    fraction, at least one digit.  [None] is a non-nil error (bad syntax, or
    a value out of range). *)
Definition ParseFloat (s : string) : option float64 :=
  let '(ip, fp) := splitDot s in
  let fp := match fp with Some f => f | None => "" end in
  if ((String.length ip + String.length fp)%nat =? 0)%nat then None
  else
    match digitsValue 0 ip, digitsValue 0 fp with
    | Some i, Some f =>
        let den := 10 ^ Z.of_nat (String.length fp) in
        let num := i * den + f in
        if num =? 0 then Some 0%float else roundRatio num den
    | _, _ => None
    end.

Definition zero : float64 := 0%float.

Definition gt (a b : float64) : bool := PrimFloat.ltb b a.
Definition lt (a b : float64) : bool := PrimFloat.ltb a b.

End GoFloat.

(** ** [crypto/md5] and the [%x] verb *)

Module MD5.

Definition mask32 (x : Z) : Z := Z.land x 4294967295.

Definition rotl (x n : Z) : Z :=
  mask32 (Z.lor (Z.shiftl x n) (Z.shiftr x (32 - n))).

Definition sineTable : list Z :=
  [3614090360; 3905402710; 606105819; 3250441966; 4118548399; 1200080426;
   2821735955; 4249261313; 1770035416; 2336552879; 4294925233; 2304563134;
   1804603682; 4254626195; 2792965006; 1236535329; 4129170786; 3225465664;
   643717713; 3921069994; 3593408605; 38016083; 3634488961; 3889429448;
   568446438; 3275163606; 4107603335; 1163531501; 2850285829; 4243563512;
   1735328473; 2368359562; 4294588738; 2272392833; 1839030562; 4259657740;
   2763975236; 1272893353; 4139469664; 3200236656; 681279174; 3936430074;
   3572445317; 76029189; 3654602809; 3873151461; 530742520; 3299628645;
   4096336452; 1126891415; 2878612391; 4237533241; 1700485571; 2399980690;
   4293915773; 2240044497; 1873313359; 4264355552; 2734768916; 1309151649;
   4149444226; 3174756917; 718787259; 3951481745].

Definition shifts : list Z :=
  [7; 12; 17; 22; 7; 12; 17; 22; 7; 12; 17; 22; 7; 12; 17; 22;
   5; 9; 14; 20; 5; 9; 14; 20; 5; 9; 14; 20; 5; 9; 14; 20;
   4; 11; 16; 23; 4; 11; 16; 23; 4; 11; 16; 23; 4; 11; 16; 23;
   6; 10; 15; 21; 6; 10; 15; 21; 6; 10; 15; 21; 6; 10; 15; 21].

Definition nthZ (l : list Z) (i : nat) : Z := nth i l 0.

Record digestState : Type := { sA : Z; sB : Z; sC : Z; sD : Z }.

Definition init : digestState :=
  {| sA := 1732584193; sB := 4023233417; sC := 2562383102; sD := 271733878 |}.

(** One of the 64 operations of a block. *)
Definition step (M : list Z) (st : digestState) (i : nat) : digestState :=
  let '(Build_digestState a b c d) := st in
  let zi := Z.of_nat i in
  let '(f, g) :=
    if zi <? 16 then (Z.lor (Z.land b c) (Z.land (Z.lxor b 4294967295) d), zi)
    else if zi <? 32 then (Z.lor (Z.land d b) (Z.land (Z.lxor d 4294967295) c), (5 * zi + 1) mod 16)
    else if zi <? 48 then (Z.lxor (Z.lxor b c) d, (3 * zi + 5) mod 16)
    else (Z.lxor c (Z.lor b (Z.lxor d 4294967295)), (7 * zi) mod 16) in
  let f := mask32 (f + a + nthZ sineTable i + nthZ M (Z.to_nat g)) in
  {| sA := d; sB := mask32 (b + rotl f (nthZ shifts i)); sC := b; sD := c |}.

Definition block (st : digestState) (M : list Z) : digestState :=
  let st' := fold_left (step M) (seq 0 64) st in
  {| sA := mask32 (sA st + sA st'); sB := mask32 (sB st + sB st');
     sC := mask32 (sC st + sC st'); sD := mask32 (sD st + sD st') |}.

Definition byteOf (c : ascii) : Z := Z.of_N (N_of_ascii c).

(** The [n] low bytes of [x], least significant first. *)
Fixpoint leBytes (n : nat) (x : Z) : list Z :=
  match n with
  | O => []
  | S n' => Z.land x 255 :: leBytes n' (Z.shiftr x 8)
  end.

Definition padded (msg : list Z) : list Z :=
  let len := Z.of_nat (length msg) in
  let zeros := Z.to_nat ((55 - len) mod 64) in
  msg ++ 128 :: repeat 0 zeros ++ leBytes 8 (8 * len).

Fixpoint leWord (bs : list Z) : Z :=
  match bs with
  | [] => 0
  | b :: bs' => b + 256 * leWord bs'
  end.

(** The little-endian 32-bit words of a byte sequence. *)
Fixpoint words (fuel : nat) (bs : list Z) : list Z :=
  match fuel with
  | O => []
  | S fuel' =>
      match bs with
      | [] => []
      | _ => leWord (firstn 4 bs) :: words fuel' (skipn 4 bs)
      end
  end.

Fixpoint blocks (fuel : nat) (ws : list Z) (st : digestState) : digestState :=
  match fuel with
  | O => st
  | S fuel' =>
      match ws with
      | [] => st
      | _ => blocks fuel' (skipn 16 ws) (block st (firstn 16 ws))
      end
  end.

(** [md5.Sum]: the 16 bytes of the digest. *)
Definition Sum (data : string) : list Z :=
  let bs := padded (map byteOf (list_ascii_of_string data)) in
  let ws := words (length bs) bs in
  let st := blocks (length ws) ws init in
  leBytes 4 (sA st) ++ leBytes 4 (sB st) ++ leBytes 4 (sC st) ++ leBytes 4 (sD st).

Definition hexDigit (n : Z) : ascii :=
  if n <? 10 then ascii_of_N (Z.to_N (48 + n)) else ascii_of_N (Z.to_N (87 + n)).

(** [fmt.Sprintf("%x", bytes)]: two lowercase hexadecimal digits per byte. *)
Fixpoint hex (bs : list Z) : string :=
  match bs with
  | [] => ""
  | b :: bs' => String (hexDigit (b / 16)) (String (hexDigit (b mod 16)) (hex bs'))
  end.

End MD5.

(** ** internal/models: the records shared by the scrapers and the clients *)

Module Models.

Import GoTime GoFloat.

Record DividendEvent : Type := {
  Symbol : string;
  ExDate : Time;
  PayDate : Time;
  DeclareDate : Time;
  Amount : float64;
  Group : string;
  Frequency : string;
  Yield : float64
}.

Record DividendStats : Type := {
  TotalPayments : Z;
  AverageAmount : float64;
  LastAmount : float64;
  YearToDateTotal : float64;
  TrailingYearTotal : float64;
  ChangePercent : float64
}.

Definition zeroStats : DividendStats :=
  {| TotalPayments := 0; AverageAmount := zero; LastAmount := zero;
     YearToDateTotal := zero; TrailingYearTotal := zero; ChangePercent := zero |}.

Record DividendHistory : Type := {
  hSymbol : string;
  hName : string;
  hGroup : string;
  hFrequency : string;
  Events : list DividendEvent;
  Stats : DividendStats;
  UpdatedAt : Time
}.

End Models.

(** ** internal/cache/file_cache.go *)

Module Cache.

Import GoTime.

(** The values [encoding/json] decodes into an [interface{}]. *)
Inductive json : Type :=
| JNull
| JBool (b : bool)
| JNumber (x : GoFloat.float64)
| JString (s : string)
| JArray (l : list json)
| JObject (fields : list (string * json)).

(** The Go types a [Get] target may point to, as far as decoding tells them
    apart. *)
Inductive goType : Type :=
| TAny                     (* interface{} *)
| TBool
| TFloat64
| TString
| TSlice (elem : goType).

(** Whether [json.Unmarshal] of the encoding of [j] into a value of type [t]
    returns a nil error.  A JSON null leaves any target as it is. *)
Fixpoint unmarshals (t : goType) (j : json) {struct j} : bool :=
  match j with
  | JNull => true
  | JBool _ => match t with TAny | TBool => true | _ => false end
  | JNumber _ => match t with TAny | TFloat64 => true | _ => false end
  | JString _ => match t with TAny | TString => true | _ => false end
  | JArray l =>
      match t with
      | TAny => true
      | TSlice elem => forallb (unmarshals elem) l
      | _ => false
      end
  | JObject _ => match t with TAny => true | _ => false end
  end.

Record CacheEntry : Type := {
  Data : json;
  CreatedAt : Time;
  ExpiresAt : Time;
  Key : string
}.

(** What a cache file holds: the JSON text of an entry, or bytes that the JSON
    decoder rejects (an empty or truncated file, for one). *)
Inductive content : Type :=
| Encoded (e : CacheEntry)
| Undecodable (raw : string).

(** A file; [accessible] is false when opening it fails (its mode forbids it). *)
Record file : Type := { body : content; accessible : bool }.

Record FileCache : Type := { cacheDir : string; ttl : Z }.

Inductive error : Type :=
| ErrCreate (path : string)
| ErrEncode
| ErrOpen (path : string)
| ErrUnmarshal.

(** [filepath.Join(fc.cacheDir, key)], for a clean directory name and a key
    without separators. *)
Definition getCacheFilePath (fc : FileCache) (key : string) : string :=
  cacheDir fc +:+ "/" +:+ key.

(** [generateCacheKey]: the loop appends an underscore and each parameter. *)
Definition generateCacheKey (prefix : string) (params : list string) : string :=
  let combined := fold_left (fun combined param => combined +:+ ("_" +:+ param)) params prefix in
  let hash := MD5.Sum combined in
  prefix +:+ "_" +:+ MD5.hex hash +:+ ".json".

(** [Time.MarshalJSON] refuses years outside 0..9999. *)
Definition timeEncodes (t : Time) : bool := (0 <=? Year t) && (Year t <=? 9999).

(** The encoder refuses numbers that are not finite. *)
Fixpoint dataEncodes (j : json) : bool :=
  match j with
  | JNumber x => negb (PrimFloat.is_nan x || PrimFloat.is_infinity x)
  | JArray l => forallb dataEncodes l
  | JObject fields => forallb (fun kv => dataEncodes (snd kv)) fields
  | _ => true
  end.

(** [Set], run at the instant [now] on the files [fs]: the error it returns
    and the files it leaves.  The file is created (or truncated) before the
    entry is encoded, so a failing encoder leaves it empty. *)
Definition Set_ (fc : FileCache) (key : string) (data : json) (now : Time)
    (fs : gmap string file) : option error * gmap string file :=
  let entry := {| Data := data; CreatedAt := now; ExpiresAt := now + ttl fc; Key := key |} in
  let filePath := getCacheFilePath fc key in
  let creatable :=
    match fs !! filePath with
    | Some f => accessible f
    | None => true
    end in
  if creatable then
    if dataEncodes data && timeEncodes (CreatedAt entry) && timeEncodes (ExpiresAt entry) then
      (None, <[filePath := {| body := Encoded entry; accessible := true |}]> fs)
    else
      (Some ErrEncode, <[filePath := {| body := Undecodable ""; accessible := true |}]> fs)
  else (Some (ErrCreate filePath), fs).

Inductive removeOutcome : Type :=
| Removed
| NotExist      (* an error for which os.IsNotExist holds *)
| Refused.      (* any other error *)

(** Whether [path] names a directory: the files are kept by their paths, so
    a directory is there when a file lies below it, and is never empty. *)
Definition isDirectory (path : string) (fs : gmap string file) : bool :=
  existsb (fun p => match GoStrings.stripPrefix (path +:+ "/") p with
                    | Some _ => true
                    | None => false
                    end)
          (fst <$> map_to_list fs).

(** [os.Remove(path)]; [locked] holds the paths whose removal the system
    refuses (their directory cannot be written).  The removal of a directory
    is refused as well, since it is not empty. *)
Definition Remove (locked : gset string) (path : string) (fs : gmap string file)
    : removeOutcome * gmap string file :=
  match fs !! path with
  | None => if isDirectory path fs then (Refused, fs) else (NotExist, fs)
  | Some _ => if decide (path ∈ locked) then (Refused, fs) else (Removed, delete path fs)
  end.

(** The outcome of [Get]: the two results, what was stored into the target
    (if anything), and the files it leaves. *)
Record getResult : Type := {
  found : bool;
  err : option error;
  stored : option json;
  files : gmap string file
}.

(** [Get], run at the instant [now] on the files [fs], for a target of type
    [target]; [locked] holds the paths whose removal the system refuses.  A
    file that exists and cannot be opened gives the error of [os.Open].  The
    result of [os.Remove] is dropped: when the removal is refused the file
    stays, and [Get] returns the same.  (A path that names a directory
    answers like an absent file: it opens, does not decode, and its removal
    fails.) *)
Definition Get (fc : FileCache) (key : string) (target : goType) (now : Time)
    (locked : gset string) (fs : gmap string file) : getResult :=
  let filePath := getCacheFilePath fc key in
  match fs !! filePath with
  | None => {| found := false; err := None; stored := None; files := fs |}
  | Some f =>
      if negb (accessible f) then
        {| found := false; err := Some (ErrOpen filePath); stored := None; files := fs |}
      else
        match body f with
        | Undecodable _ =>
            {| found := false; err := None; stored := None;
               files := snd (Remove locked filePath fs) |}
        | Encoded entry =>
            if After now (ExpiresAt entry) then
              {| found := false; err := None; stored := None;
                 files := snd (Remove locked filePath fs) |}
            else if unmarshals target (Data entry) then
              {| found := true; err := None; stored := Some (Data entry); files := fs |}
            else
              {| found := false; err := Some ErrUnmarshal; stored := None; files := fs |}
        end
  end.

End Cache.

(** ** The dividend table scraper (DividendTableScraper) *)

Module TableScraper.

Import GoTime GoStrings GoFloat Models.

(** [GetYieldMaxETFGroups]: the symbol-to-group table. *)
Definition GetYieldMaxETFGroups : list (string * string) :=
  [("BIGY", "Target12"); ("SOXY", "Target12"); ("RNTY", "Target12");
   ("KLIP", "Target12"); ("ALTY", "Target12");
   ("CHPY", "Weekly"); ("GPTY", "Weekly"); ("LFGY", "Weekly"); ("QDTY", "Weekly");
   ("RDTY", "Weekly"); ("SDTY", "Weekly"); ("ULTY", "Weekly"); ("YMAG", "Weekly");
   ("YMAX", "Weekly");
   ("TSLY", "GroupA"); ("NVDY", "GroupA"); ("MSTY", "GroupA"); ("OARK", "GroupA");
   ("AMDY", "GroupA"); ("GOOY", "GroupA"); ("JPMO", "GroupA"); ("MRNY", "GroupA");
   ("SNOY", "GroupA"); ("TSMY", "GroupA"); ("APLY", "GroupA");
   ("AMZY", "GroupB"); ("FBY", "GroupB"); ("NFLY", "GroupB"); ("QQLY", "GroupB");
   ("AIPY", "GroupB"); ("BABO", "GroupB"); ("DISO", "GroupB"); ("MSFO", "GroupB");
   ("PYPY", "GroupB"); ("SQY", "GroupB"); ("XOMO", "GroupB");
   ("CONY", "GroupC"); ("AIYY", "GroupC"); ("BALY", "GroupC"); ("COWY", "GroupC");
   ("CRSY", "GroupC"); ("FIAT", "GroupC"); ("GPIY", "GroupC"); ("INTY", "GroupC");
   ("JEPY", "GroupC"); ("KODY", "GroupC"); ("NETY", "GroupC"); ("PLTY", "GroupC");
   ("SPYY", "GroupC"); ("WUGI", "GroupC");
   ("ABNY", "GroupD"); ("AFRM", "GroupD"); ("BKSY", "GroupD"); ("BOLDY", "GroupD");
   ("CVY", "GroupD"); ("DFLY", "GroupD"); ("DSNY", "GroupD"); ("GDXY", "GroupD");
   ("HPAY", "GroupD"); ("JETY", "GroupD"); ("LCID", "GroupD"); ("MARO", "GroupD");
   ("MRSY", "GroupD"); ("PEY", "GroupD"); ("AMDL", "GroupD")].

Fixpoint groupOf (table : list (string * string)) (symbol : string) : option string :=
  match table with
  | [] => None
  | (k, v) :: table' => if String.eqb k symbol then Some v else groupOf table' symbol
  end.

(** [parseAmount]. *)
Definition parseAmount (str : string) : float64 :=
  let str := TrimSpace str in
  let str := TrimPrefix str "$" in
  let str := removeAll "," str in
  match findNumber str with
  | Some m =>
      match ParseFloat m with
      | Some amount => if gt amount zero && lt amount 10%float then amount else zero
      | None => zero
      end
  | None => zero
  end.

Definition formats : list string :=
  ["01/02/2006"; "1/2/2006"; "2006-01-02"; "Jan 2, 2006"; "January 2, 2006";
   "02-Jan-2006"; "01/02/06"; "1/2/06"].

(** The adjustment and the sanity check [parseDate] applies to a parsed time;
    [now] is the instant [time.Now()] returns. *)
Definition adjustYear (t : Time) : Time :=
  if Year t <? 100 then AddDate t 2000 0 0 else t.

Definition yearInRange (now t : Time) : bool :=
  let currentYear := Year now in
  (2020 <=? Year t) && (Year t <=? currentYear + 1).

Fixpoint tryFormats (fs : list string) (now : Time) (str : string) : Time :=
  match fs with
  | [] => zeroTime
  | format :: fs' =>
      match Parse format str with
      | Some t =>
          let t := adjustYear t in
          if yearInRange now t then t else tryFormats fs' now str
      | None => tryFormats fs' now str
      end
  end.

(** [parseDate]; the clock readings of one call are one instant [now]. *)
Definition parseDate (now : Time) (str : string) : Time :=
  tryFormats formats now (TrimSpace str).

Definition emptyEvent (symbol : string) : DividendEvent :=
  {| Symbol := symbol; ExDate := zeroTime; PayDate := zeroTime; DeclareDate := zeroTime;
     Amount := zero; Group := ""; Frequency := ""; Yield := zero |}.

Definition setAmount (e : DividendEvent) (a : float64) : DividendEvent :=
  {| Symbol := Symbol e; ExDate := ExDate e; PayDate := PayDate e;
     DeclareDate := DeclareDate e; Amount := a; Group := Group e;
     Frequency := Frequency e; Yield := Yield e |}.

Definition setExDate (e : DividendEvent) (t : Time) : DividendEvent :=
  {| Symbol := Symbol e; ExDate := t; PayDate := PayDate e;
     DeclareDate := DeclareDate e; Amount := Amount e; Group := Group e;
     Frequency := Frequency e; Yield := Yield e |}.

Definition setPayDate (e : DividendEvent) (t : Time) : DividendEvent :=
  {| Symbol := Symbol e; ExDate := ExDate e; PayDate := t;
     DeclareDate := DeclareDate e; Amount := Amount e; Group := Group e;
     Frequency := Frequency e; Yield := Yield e |}.

Definition setDeclareDate (e : DividendEvent) (t : Time) : DividendEvent :=
  {| Symbol := Symbol e; ExDate := ExDate e; PayDate := PayDate e;
     DeclareDate := t; Amount := Amount e; Group := Group e;
     Frequency := Frequency e; Yield := Yield e |}.

(** The loop of the alternate row format (four or five cells); [i] is the
    index of the first cell of [texts]. *)
Fixpoint scanCells (now : Time) (texts : list string) (i : nat) (event : DividendEvent)
    : DividendEvent :=
  match texts with
  | [] => event
  | text :: texts' =>
      let amount := parseAmount text in
      let event :=
        if gt amount zero && PrimFloat.eqb (Amount event) zero then setAmount event amount
        else
          let date := parseDate now text in
          if negb (IsZero date) then
            if IsZero (ExDate event) then setExDate event date
            else if IsZero (PayDate event) && (0 <? i)%nat then setPayDate event date
            else event
          else event in
      scanCells now texts' (S i) event
  end.

(** [parseDividendRow]: [cells] are the texts of the row's [td] elements. *)
Definition parseDividendRow (now : Time) (cells : list string) (symbol : string)
    : option DividendEvent :=
  let event := emptyEvent symbol in
  let cellTexts := map TrimSpace cells in
  let event :=
    if (6 <=? length cellTexts)%nat then
      let event := setAmount event (parseAmount (nth 1 cellTexts "")) in
      let event := setDeclareDate event (parseDate now (nth 2 cellTexts "")) in
      let event := setExDate event (parseDate now (nth 3 cellTexts "")) in
      setPayDate event (parseDate now (nth 5 cellTexts ""))
    else if (4 <=? length cellTexts)%nat then scanCells now cellTexts 0 event
    else event in
  if gt (Amount event) zero && negb (IsZero (ExDate event)) then
    let event :=
      if IsZero (PayDate event) then setPayDate event (AddDate (ExDate event) 0 0 1)
      else event in
    let event :=
      if IsZero (DeclareDate event) && negb (IsZero (ExDate event))
      then setDeclareDate event (AddDate (ExDate event) 0 0 (-1))
      else event in
    Some event
  else None.

(** What the collector hands to the callbacks: the page's headings,
    paragraphs and tables, in document order. *)
Record table : Type := {
  classes : string;
  id : string;
  headers : list string;        (* the texts of the th elements *)
  rows : list (list string)     (* per tbody row, the texts of its td elements *)
}.

Record page : Type := {
  headings : list string;
  paragraphs : list string;
  tables : list table
}.

Definition isDividendHeader (header : string) : bool :=
  Contains header "dividend" || Contains header "distribution" ||
  Contains header "ex date" || Contains header "amount" || Contains header "per share".

Fixpoint filterMap {A B : Type} (f : A -> option B) (l : list A) : list B :=
  match l with
  | [] => []
  | x :: l' => match f x with Some y => y :: filterMap f l' | None => filterMap f l' end
  end.

(** The table callback: the events one table adds to [history.Events]. *)
Definition tableEvents (now : Time) (symbol : string) (t : table) : list DividendEvent :=
  if negb (Contains (classes t) "wpDataTable") && negb (Contains (id t) "table_") then []
  else
    let hs := map (fun h => ToLower (TrimSpace h)) (headers t) in
    if existsb isDividendHeader hs then
      filterMap (fun row => parseDividendRow now row symbol) (rows t)
    else [].

(** The heading callback keeps the last matching heading. *)
Definition findName (symbol : string) (hs : list string) : string :=
  fold_left (fun etfName h =>
               let text := TrimSpace h in
               if Contains text "YieldMax" && Contains text symbol then text else etfName)
            hs "".

Definition findFrequency (ps : list string) : string :=
  fold_left (fun frequency p =>
               let text := ToLower p in
               if Contains text "monthly distribution" || Contains text "monthly income"
               then "monthly"
               else if Contains text "weekly distribution" || Contains text "weekly income"
               then "weekly"
               else frequency)
            ps "".

Definition float64_of_len {A : Type} (l : list A) : float64 :=
  PrimFloat.of_uint63 (Uint63.of_Z (Z.of_nat (length l))).

(** The statistics loop: the running total and the year-to-date total. *)
Definition accumulate (yearStart : Time) (acc : float64 * float64) (event : DividendEvent)
    : float64 * float64 :=
  let '(totalAmount, ytdAmount) := acc in
  let totalAmount := PrimFloat.add totalAmount (Amount event) in
  let ytdAmount :=
    if After (ExDate event) yearStart then PrimFloat.add ytdAmount (Amount event)
    else ytdAmount in
  (totalAmount, ytdAmount).

Definition computeStats (now : Time) (events : list DividendEvent) : DividendStats :=
  match events with
  | [] => zeroStats
  | first :: rest =>
      let yearStart := Date (Year now) 1 1 0 0 0 0 in
      let '(totalAmount, ytdAmount) := fold_left (accumulate yearStart) events (zero, zero) in
      {| TotalPayments := Z.of_nat (length events);
         AverageAmount := PrimFloat.div totalAmount (float64_of_len events);
         LastAmount := Amount first;
         YearToDateTotal := ytdAmount;
         TrailingYearTotal := totalAmount;
         ChangePercent :=
           match rest with
           | second :: _ =>
               PrimFloat.mul
                 (PrimFloat.div (PrimFloat.sub (Amount first) (Amount second)) (Amount second))
                 100%float
           | [] => zero
           end |}
  end.

(** [ScrapeDividendHistory]: [visit] is what visiting the ETF's page yields,
    [None] when the visit fails (the function then returns an error).  The
    callback for script elements only writes to the log and is left out. *)
Definition ScrapeDividendHistory (now : Time) (symbol : string) (visit : option page)
    : option DividendHistory :=
  match visit with
  | None => None
  | Some pg =>
      let etfName := findName symbol (headings pg) in
      let frequency := findFrequency (paragraphs pg) in
      let events := concat (map (tableEvents now symbol) (tables pg)) in
      let frequency :=
        if String.eqb frequency "" then
          if HasSuffix symbol "Y" then "weekly" else "monthly"
        else frequency in
      let group :=
        match groupOf GetYieldMaxETFGroups symbol with
        | Some g => g
        | None => ""
        end in
      Some {| hSymbol := symbol; hName := etfName; hGroup := group;
              hFrequency := frequency; Events := events;
              Stats := computeStats now events; UpdatedAt := now |}
  end.

End TableScraper.

(** ** The ETF detail scraper (etf_detail_scraper.go) *)

Module DetailScraper.

Import GoTime GoStrings GoFloat Models.

Definition formats : list string :=
  ["01/02/2006"; "1/2/2006"; "2006-01-02"; "Jan 2, 2006"; "January 2, 2006"].

(** [parseDate]: [None] is the error. *)
Fixpoint parseDateWith (fs : list string) (s : string) : option Time :=
  match fs with
  | [] => None
  | format :: fs' =>
      match Parse format s with
      | Some t => Some t
      | None => parseDateWith fs' s
      end
  end.

Definition parseDate (s : string) : option Time := parseDateWith formats s.

(** [parseAmount]: [None] is the error. *)
Definition parseAmount (s : string) : option float64 :=
  let cleaned := keepNumeric s in
  if String.eqb cleaned "" then None else ParseFloat cleaned.

Definition parsePrice (s : string) : option float64 := parseAmount s.

Fixpoint scanCells (cells : list string) (event : DividendEvent) : DividendEvent :=
  match cells with
  | [] => event
  | cell :: cells' =>
      let cell := TrimSpace cell in
      let event :=
        match parseDate cell with
        | Some date =>
            if IsZero (ExDate event) then TableScraper.setExDate event date
            else if IsZero (PayDate event) then TableScraper.setPayDate event date
            else event
        | None => event
        end in
      let event :=
        match parseAmount cell with
        | Some amount => if gt amount zero then TableScraper.setAmount event amount else event
        | None => event
        end in
      scanCells cells' event
  end.

(** [parseDividendRow]. *)
Definition parseDividendRow (cells : list string) (symbol : string) : option DividendEvent :=
  if (length cells <? 3)%nat then None
  else
    let event := scanCells cells (TableScraper.emptyEvent symbol) in
    if negb (IsZero (ExDate event)) && gt (Amount event) zero then Some event else None.

End DetailScraper.

(** ** The full scraper (YieldMaxFullScraper), its amount parser *)

Module FullScraper.

Import GoStrings GoFloat.

(** [parseAmount]: values between 10 and 1000 are taken to be cents. *)
Definition parseAmount (str : string) : float64 :=
  let cleanStr := keepNumeric str in
  match ParseFloat cleanStr with
  | Some amount =>
      if gt amount zero && lt amount 10%float then amount
      else if gt amount 10%float && lt amount 1000%float then PrimFloat.div amount 100%float
      else zero
  | None => zero
  end.

End FullScraper.

(** ** The improved schedule scraper (yieldmax_improved.go) *)

Module Improved.

Import GoTime Models.

(** The readings of [time.Now()] during a call, in the order they are taken. *)
Definition clock : Type := nat -> Time.

(** The loop of [filterUpcomingEvents]: one reading of the clock per event,
    starting with reading number [k]. *)
Fixpoint filterLoop (now : clock) (k : nat) (cutoff : Time) (events : list DividendEvent)
    : list DividendEvent :=
  match events with
  | [] => []
  | event :: events' =>
      if After (ExDate event) (now k) && Before (ExDate event) cutoff
      then event :: filterLoop now (S k) cutoff events'
      else filterLoop now (S k) cutoff events'
  end.

(** [filterUpcomingEvents(events, days)], whose first reading of the clock is
    number [k]. *)
Definition filterUpcomingEvents (now : clock) (k : nat) (events : list DividendEvent)
    (days : Z) : list DividendEvent :=
  let cutoff := AddDate (now k) 0 0 days in
  filterLoop now (S k) cutoff events.

Record GroupSchedule : Type := {
  gGroup : string;
  gFrequency : string;
  ETFs : list string;
  NextExDate : string;
  NextPayDate : string;
  gEvents : list DividendEvent
}.

Record Schedule : Type := {
  sUpdatedAt : Time;
  Groups : list GroupSchedule;
  Upcoming : list DividendEvent
}.

(** The end of [GetScheduleImproved]: [visited] tells whether the visit of the
    schedule page succeeded, [upcomingEvents] and [groupSchedules] are what
    the parsing and the generation of events have collected by then; the
    clock is read for [UpdatedAt] first and by the filter afterwards. *)
Definition GetScheduleImproved (now : clock) (visited : bool)
    (upcomingEvents : list DividendEvent) (groupSchedules : list GroupSchedule)
    : option Schedule :=
  if visited then
    Some {| sUpdatedAt := now O;
            Groups := groupSchedules;
            Upcoming := filterUpcomingEvents now 1 upcomingEvents 30 |}
  else None.

End Improved.

(** ** The API clients (alpha_vantage.go and the FMP client) *)

Module Api.

Import GoTime GoFloat Models.

(** *** The rate limiter *)

(** The token channel: [tokens] values buffered, [capacity] at most. *)
Record RateLimiter : Type := { tokens : nat; capacity : nat; interval : Z }.

(** [NewRateLimiter]: the channel is filled. *)
Definition NewRateLimiter (maxCalls : nat) (interval : Z) : RateLimiter :=
  {| tokens := maxCalls; capacity := maxCalls; interval := interval |}.

Inductive limiterEvent : Type :=
| Tick      (* the ticker fires, once per interval *)
| Acquire.  (* a call of Wait returns *)

(** One step of the limiter; [None] when the step cannot happen ([Wait]
    blocks on an empty channel). *)
Definition limiterStep (rl : RateLimiter) (ev : limiterEvent) : option RateLimiter :=
  match ev with
  | Tick =>
      if (tokens rl <? capacity rl)%nat
      then Some {| tokens := S (tokens rl); capacity := capacity rl; interval := interval rl |}
      else Some rl
  | Acquire =>
      match tokens rl with
      | O => None
      | S n => Some {| tokens := n; capacity := capacity rl; interval := interval rl |}
      end
  end.

Fixpoint limiterRun (rl : RateLimiter) (evs : list limiterEvent) : option RateLimiter :=
  match evs with
  | [] => Some rl
  | ev :: evs' =>
      match limiterStep rl ev with
      | Some rl' => limiterRun rl' evs'
      | None => None
      end
  end.

Definition minute : Z := 60 * nsPerSecond.

(** The limiter [NewAlphaVantageClient] builds. *)
Definition alphaVantageLimiter : RateLimiter := NewRateLimiter 5 minute.

(** *** What a client does, as a trace *)

Inductive effect : Type :=
| CacheGet (key : string)
| CacheSet (key : string)
| WaitToken                               (* rateLimiter.Wait() returned *)
| Request (baseURL path symbol : string). (* httpClient.Get *)

(** What the cache returns to [GetETFOverview]. *)
Inductive cachedMetadata : Type :=
| MetaMiss
| MetaHit (convertible : bool).

(** What [httpClient.Get] comes to: an error, or a response with its status
    code and what reading and parsing its body gives ([None] when either
    fails). *)
Inductive httpOutcome (A : Type) : Type :=
| TransportError
| Response (status : Z) (body : option A).
Arguments TransportError {A}.
Arguments Response {A} status body.

Definition StatusOK : Z := 200.

Definition alphaVantageURL : string := "https://www.alphavantage.co/query".
Definition fmpURL : string := "https://financialmodelingprep.com/api/v3".

(** [AlphaVantageClient.GetETFOverview]: the effects of a call, and whether it
    returns metadata; the response is reduced to its [Symbol] field. *)
Definition GetETFOverview (symbol : string) (cached : cachedMetadata)
    (resp : httpOutcome string) : list effect * bool :=
  let key := Cache.generateCacheKey "etf_metadata" [symbol] in
  match cached with
  | MetaHit true => ([CacheGet key], true)
  | _ =>
      let fetch := [CacheGet key; WaitToken; Request alphaVantageURL "" symbol] in
      match resp with
      | TransportError => (fetch, false)
      | Response status body =>
          if negb (status =? StatusOK) then (fetch, false)
          else
            match body with
            | None => (fetch, false)
            | Some respSymbol =>
                if String.eqb respSymbol "" then (fetch, false)
                else (fetch ++ [CacheSet key], true)
            end
      end
  end.

(** *** The FMP client *)

Record FMPDividendResponse : Type := {
  rSymbol : string;
  rDate : string;
  rLabel : string;
  AdjDividend : float64;
  Dividend : float64;
  RecordDate : string;
  PaymentDate : string;
  DeclarationDate : string
}.

(** A date field that is empty or does not parse leaves the zero time. *)
Definition optionalDate (s : string) : Time :=
  if String.eqb s "" then zeroTime
  else match Parse "2006-01-02" s with
       | Some parsed => parsed
       | None => zeroTime
       end.

(** The body of the conversion loop for one entry of the response. *)
Definition shapeEvent (symbol : string) (cutoffDate : Time) (div : FMPDividendResponse)
    : option DividendEvent :=
  match Parse "2006-01-02" (rDate div) with
  | None => None
  | Some exDate =>
      if Before exDate cutoffDate then None
      else
        let payDate := optionalDate (PaymentDate div) in
        let declareDate := optionalDate (DeclarationDate div) in
        let payDate := if IsZero payDate then AddDate exDate 0 0 14 else payDate in
        let declareDate := if IsZero declareDate then AddDate exDate 0 0 (-7) else declareDate in
        Some {| Symbol := symbol; ExDate := exDate; PayDate := payDate;
                DeclareDate := declareDate; Amount := AdjDividend div;
                Group := ""; Frequency := ""; Yield := zero |}
  end.

Definition shapeEvents (symbol : string) (cutoffDate : Time)
    (historical : list FMPDividendResponse) : list DividendEvent :=
  TableScraper.filterMap (shapeEvent symbol cutoffDate) historical.

(** [fmt.Sprintf("%d", years)] for the cache key. *)
Definition decimal (n : Z) : string :=
  NilZero.string_of_int (Z.to_int n).

(** [FMPClient.GetDividendHistory(symbol, years)] at the instant [now]:
    [cached] is what the cache holds for the key when [Get] reports a hit
    without an error, [resp] what the request comes to.  The result is the
    trace of the call and the events it returns ([None] for an error). *)
Definition GetDividendHistory (now : Time) (symbol : string) (years : Z)
    (cached : option (list DividendEvent))
    (resp : httpOutcome (list FMPDividendResponse))
    : list effect * option (list DividendEvent) :=
  let cacheKey := "dividend_history_" +:+ symbol +:+ "_" +:+ decimal years in
  match cached with
  | Some cachedEvents => ([CacheGet cacheKey], Some cachedEvents)
  | None =>
      let fetch :=
        [CacheGet cacheKey;
         Request fmpURL "/historical-price-full/stock_dividend/" symbol] in
      match resp with
      | TransportError => (fetch, None)
      | Response status body =>
          if negb (status =? StatusOK) then (fetch, None)
          else
            match body with
            | None => (fetch, None)
            | Some historical =>
                let cutoffDate := AddDate now (- years) 0 0 in
                (fetch ++ [CacheSet cacheKey],
                 Some (shapeEvents symbol cutoffDate historical))
            end
      end
  end.

(** Whether every request of a trace has a token of its own, acquired before
    it; [held] counts the tokens acquired and not yet spent. *)
Fixpoint tokenGuarded (held : nat) (tr : list effect) : bool :=
  match tr with
  | [] => true
  | WaitToken :: tr' => tokenGuarded (S held) tr'
  | Request _ _ _ :: tr' =>
      match held with
      | O => false
      | S held' => tokenGuarded held' tr'
      end
  | _ :: tr' => tokenGuarded held tr'
  end.

(** A session of the Alpha Vantage client: ticks of the limiter's ticker,
    interleaved with calls of [GetETFOverview]. *)
Inductive action : Type :=
| TickAction
| Call (symbol : string) (cached : cachedMetadata) (resp : httpOutcome string).

Definition countRequests (tr : list effect) : nat :=
  length (List.filter (fun e => match e with Request _ _ _ => true | _ => false end) tr).

(** The limiter events a trace gives rise to. *)
Definition limiterEvents (tr : list effect) : list limiterEvent :=
  TableScraper.filterMap (fun e => match e with WaitToken => Some Acquire | _ => None end) tr.

(** Runs a session; [None] when a call blocks for ever on the empty channel
    (no tick follows within the session).  The result is the limiter and the
    number of requests sent. *)
Fixpoint session (rl : RateLimiter) (acts : list action) : option (RateLimiter * nat) :=
  match acts with
  | [] => Some (rl, O)
  | TickAction :: acts' =>
      match limiterStep rl Tick with
      | Some rl' => session rl' acts'
      | None => None
      end
  | Call symbol cached resp :: acts' =>
      let tr := fst (GetETFOverview symbol cached resp) in
      match limiterRun rl (limiterEvents tr) with
      | Some rl' =>
          match session rl' acts' with
          | Some (rl'', n) => Some (rl'', (countRequests tr + n)%nat)
          | None => None
          end
      | None => None
      end
  end.

Definition countTicks (acts : list action) : nat :=
  length (List.filter (fun a => match a with TickAction => true | _ => false end) acts).

Definition countAcquires (evs : list limiterEvent) : nat :=
  length (List.filter (fun ev => match ev with Acquire => true | Tick => false end) evs).

Definition countLimiterTicks (evs : list limiterEvent) : nat :=
  length (List.filter (fun ev => match ev with Tick => true | Acquire => false end) evs).

End Api.

(** ** The batch runner (cmd: optimized dividend collection) *)

Module Batch.

Import Models.

Definition maxConcurrent : nat := 5.
Definition retryAttempts : nat := 2.

(** What one call of [ScrapeDividendHistory] returns. *)
Inductive scrapeOutcome : Type :=
| ScrapeOk (h : DividendHistory)
| ScrapeErr (msg : string).

Record scrapeResult : Type := {
  symbol : string;
  history : option DividendHistory;
  err : option string
}.

(** The retry loop of [worker] from iteration [attempt] on, with [fuel]
    iterations left; [scrape k] is what the [k]-th call of the scraper for
    the symbol returns (counted from 0).  The result holds [history], [err]
    and the number of calls made. *)
Fixpoint retryLoop (fuel attempt : nat) (scrape : nat -> scrapeOutcome)
    (history : option DividendHistory) (err : option string) (calls : nat)
    : option DividendHistory * option string * nat :=
  match fuel with
  | O => (history, err, calls)
  | S fuel' =>
      match scrape attempt with
      | ScrapeOk h => (Some h, None, S calls)
      | ScrapeErr msg => retryLoop fuel' (S attempt) scrape None (Some msg) (S calls)
      end
  end.

(** The body of [worker] for one symbol pulled from the jobs channel: the
    result it sends and the number of scrape attempts it made (the log lines
    and the pauses are left out). *)
Definition workerJob (sym : string) (scrape : nat -> scrapeOutcome) : scrapeResult * nat :=
  let '(history, err, calls) := retryLoop retryAttempts 0 scrape None None 0 in
  ({| symbol := sym; history := history; err := err |}, calls).

(** *** The results loop of [main] *)

Inductive logLine : Type :=
| LogFailedScrape (sym msg : string)
| LogFailedSave (sym : string)
| LogSaved (sym : string).

(** How [os.WriteFile] fails on a path. *)
Inductive writeFault : Type :=
| OpenFails               (* the file cannot be opened for writing *)
| WriteFails (n : nat).   (* the file is opened, created or emptied; [n] bytes
                             are written before the write or the close fails *)

(** The files on disk: contents by path, and the paths on which
    [os.WriteFile] fails. *)
Record disk : Type := { contents : gmap string string; faults : gmap string writeFault }.

Definition outputDir : string := "data/dividends".

(** [filepath.Join(outputDir, fmt.Sprintf("%s_dividend_history.json", symbol))]
    for a symbol without separators. *)
Definition historyFile (sym : string) : string :=
  outputDir +:+ "/" +:+ sym +:+ "_dividend_history.json".

(** What a call of [saveToJSON] returns and does. *)
Record saveResult : Type := {
  saveErr : bool;    (* whether the error returned is not nil *)
  opened : bool;     (* whether [os.WriteFile] opened the file *)
  after : disk
}.

(** [os.WriteFile(filename, data, 0644)]: the file is opened with
    O_CREATE and O_TRUNC, then written, then closed.  A failure of the open
    leaves the disk as it is; a failure after it leaves the file with the
    bytes written so far. *)
Definition WriteFile (filename data : string) (d : disk) : saveResult :=
  match faults d !! filename with
  | None =>
      {| saveErr := false; opened := true;
         after := {| contents := <[filename := data]> (contents d); faults := faults d |} |}
  | Some OpenFails => {| saveErr := true; opened := false; after := d |}
  | Some (WriteFails n) =>
      {| saveErr := true; opened := true;
         after := {| contents := <[filename := substring 0 n data]> (contents d);
                     faults := faults d |} |}
  end.

(** [saveToJSON]: [marshal] is [json.MarshalIndent] on a pointer to a history,
    which may be nil ([None] for an error). *)
Definition saveToJSON (marshal : option DividendHistory -> option string)
    (filename : string) (data : option DividendHistory) (d : disk) : saveResult :=
  match marshal data with
  | None => {| saveErr := true; opened := false; after := d |}
  | Some jsonData => WriteFile filename jsonData d
  end.

(** The variables of the loop; [crashed] is set when the program has
    panicked, after which nothing more happens. *)
Record runState : Type := {
  successCount : nat;
  failureCount : nat;
  failedETFs : list string;
  processedCount : nat;
  written : list string;   (* the paths [os.WriteFile] opened, in order *)
  logs : list logLine;
  onDisk : disk;
  crashed : bool
}.

Definition startState (d : disk) : runState :=
  {| successCount := 0; failureCount := 0; failedETFs := []; processedCount := 0;
     written := []; logs := []; onDisk := d; crashed := false |}.

(** One iteration of the loop over the results channel.  After a failed
    save the loop goes on with the disk as the save left it.  The line logged
    after a save reads [result.history.Events]: with a nil history (which no
    worker sends without an error) it panics. *)
Definition processResult (marshal : option DividendHistory -> option string)
    (st : runState) (result : scrapeResult) : runState :=
  let failed (line : logLine) (written' : list string) (d' : disk) :=
    {| successCount := successCount st; failureCount := S (failureCount st);
       failedETFs := failedETFs st ++ [symbol result];
       processedCount := S (processedCount st);
       written := written'; logs := logs st ++ [line]; onDisk := d';
       crashed := false |} in
  if crashed st then st
  else
    match err result with
    | Some msg => failed (LogFailedScrape (symbol result) msg) (written st) (onDisk st)
    | None =>
        let filename := historyFile (symbol result) in
        let save := saveToJSON marshal filename (history result) (onDisk st) in
        let written' := if opened save then written st ++ [filename] else written st in
        if saveErr save then failed (LogFailedSave (symbol result)) written' (after save)
        else
          {| successCount := S (successCount st); failureCount := failureCount st;
             failedETFs := failedETFs st; processedCount := S (processedCount st);
             written := written';
             logs := match history result with
                     | Some _ => logs st ++ [LogSaved (symbol result)]
                     | None => logs st
                     end;
             onDisk := after save;
             crashed := match history result with Some _ => false | None => true end |}
    end.

(** The loop, over the results in the order the channel delivers them. *)
Definition processResults (marshal : option DividendHistory -> option string)
    (d : disk) (results : list scrapeResult) : runState :=
  fold_left (processResult marshal) results (startState d).

End Batch.

(** ** More of Go's [time]: weekdays and [Format] *)

Module GoTime2.

Import GoTime.

Definition Sunday : Z := 0.
Definition Wednesday : Z := 3.
Definition Thursday : Z := 4.

(** [t.Weekday()], Sunday being 0: the first day of year 1 is a Monday. *)
Definition Weekday (t : Time) : Z := (t / nsPerDay + 1) mod 7.

(** A check of one year: the next year starts 365 or 366 days later. *)
Definition checkYear (y : Z) : bool :=
  daysSinceEpoch (y + 1) =? daysSinceEpoch y + 365 + (if isLeap y then 1 else 0).

Definition digitChar (d : Z) : ascii := ascii_of_nat (48 + Z.to_nat d).

(** The decimal digits of [u], for [0 <= u]; [fuel] bounds their number. *)
Fixpoint utoa (fuel : nat) (u : Z) (acc : string) : string :=
  match fuel with
  | O => acc
  | S fuel' =>
      let acc := String (digitChar (u mod 10)) acc in
      if u <? 10 then acc else utoa fuel' (u / 10) acc
  end.

Fixpoint zeros (n : nat) : string :=
  match n with
  | O => ""
  | S n' => String "0" (zeros n')
  end.

(** [appendInt(b, x, width)]: the decimal form of [x], padded with zeros to
    [width] digits, after a minus sign when [x] is negative. *)
Definition appendInt (x : Z) (width : nat) : string :=
  let u := Z.abs x in
  let digits := utoa (S (Z.to_nat (Z.log2 u))) u "" in
  (if x <? 0 then "-" else "") +:+ zeros (width - String.length digits) +:+ digits.

(** The text [Format] writes for one layout element. *)
Definition formatChunk (c : chunk) (t : Time) : string :=
  match c with
  | stdLongMonth => nth (Z.to_nat (Month t - 1)) longMonthNames ""
  | stdMonth => nth (Z.to_nat (Month t - 1)) shortMonthNames ""
  | stdNumMonth => appendInt (Month t) 0
  | stdZeroMonth => appendInt (Month t) 2
  | stdDay => appendInt (Day t) 0
  | stdZeroDay => appendInt (Day t) 2
  | stdLongYear => appendInt (Year t) 4
  | stdYear => appendInt (Year t mod 100) 2
  | lit c => String c ""
  end.

(** [t.Format(layout)], for the layouts [chunks] reads. *)
Definition Format (t : Time) (layout : string) : string :=
  String.concat "" (map (fun c => formatChunk c t) (chunks layout)).

End GoTime2.

(** ** internal/cache/file_cache.go: removal, the sweeps, the statistics *)

Module CacheOps.

Import GoTime GoStrings Cache.

(** [filepath.Ext] of a name without a separator: the suffix that starts at
    its last dot, empty when it has no dot. *)
Fixpoint Ext (name : string) : string :=
  match name with
  | "" => ""
  | String c rest =>
      let e := Ext rest in
      if String.eqb e "" then (if Ascii.eqb c "." then name else "") else e
  end.

(** An entry of a directory listing. *)
Record DirEntry : Type := { Name : string; IsDir : bool }.

#[global] Instance DirEntry_eq_dec : EqDecision DirEntry.
Proof. solve_decision. Defined.

(** [s] up to its first separator, and whether a separator follows. *)
Fixpoint cutSlash (s : string) : string * bool :=
  match s with
  | "" => ("", false)
  | String "/" _ => ("", true)
  | String c rest => let '(name, deeper) := cutSlash rest in (String c name, deeper)
  end.

(** The entry the file at [path] gives rise to in the listing of [dir]: the
    file itself when it lies in [dir], the subdirectory that leads to it when
    it lies deeper. *)
Definition dirEntry (dir path : string) : option DirEntry :=
  match stripPrefix (dir +:+ "/") path with
  | Some rest =>
      let '(name, deeper) := cutSlash rest in
      if String.eqb name "" then None else Some {| Name := name; IsDir := deeper |}
  | None => None
  end.

Definition nameLe (a b : DirEntry) : Prop := String.leb (Name a) (Name b) = true.

#[global] Instance nameLe_dec : RelDecision nameLe :=
  fun a b => decide (String.leb (Name a) (Name b) = true).

(** [os.ReadDir(dir)] when it succeeds: the entries, sorted by name. *)
Definition ReadDir (dir : string) (fs : gmap string file) : list DirEntry :=
  merge_sort nameLe (remove_dups (omap (dirEntry dir) (fst <$> map_to_list fs))).

Inductive opError : Type :=
| ErrDelete (path : string)
| ErrReadDir.

(** [Delete]: the error of [os.Remove] is returned unless it tells that the
    file does not exist. *)
Definition Delete (fc : FileCache) (key : string) (locked : gset string)
    (fs : gmap string file) : option opError * gmap string file :=
  let filePath := getCacheFilePath fc key in
  match Remove locked filePath fs with
  | (Refused, fs') => (Some (ErrDelete filePath), fs')
  | (_, fs') => (None, fs')
  end.

Definition isJSON (entry : DirEntry) : bool := String.eqb (Ext (Name entry)) ".json".

(** The body of the loop of [Clear]; the state is [deletedCount] and the
    files. *)
Definition clearStep (fc : FileCache) (locked : gset string)
    (st : nat * gmap string file) (entry : DirEntry) : nat * gmap string file :=
  let '(deletedCount, fs) := st in
  if negb (IsDir entry) && isJSON entry then
    let filePath := getCacheFilePath fc (Name entry) in
    match Remove locked filePath fs with
    | (Removed, fs') => (S deletedCount, fs')
    | (_, fs') => (deletedCount, fs')
    end
  else st.

(** The outcome of a sweep: the error, the number it logs, the files left. *)
Record sweep : Type := {
  sweepErr : option opError;
  count : nat;
  left : gmap string file
}.

(** [Clear]; [readable] tells whether [os.ReadDir] of the cache directory
    succeeds. *)
Definition Clear (fc : FileCache) (readable : bool) (locked : gset string)
    (fs : gmap string file) : sweep :=
  if readable then
    let '(deletedCount, fs') :=
      fold_left (clearStep fc locked) (ReadDir (cacheDir fc) fs) (O, fs) in
    {| sweepErr := None; count := deletedCount; left := fs' |}
  else {| sweepErr := Some ErrReadDir; count := O; left := fs |}.

(** The body of the loop of [CleanExpired]; a file that does not decode is
    counted whether or not its removal works. *)
Definition cleanStep (fc : FileCache) (now : Time) (locked : gset string)
    (st : nat * gmap string file) (entry : DirEntry) : nat * gmap string file :=
  let '(expiredCount, fs) := st in
  if IsDir entry || negb (isJSON entry) then st
  else
    let filePath := getCacheFilePath fc (Name entry) in
    match fs !! filePath with
    | None => st
    | Some f =>
        if negb (accessible f) then st
        else
          match body f with
          | Undecodable _ => (S expiredCount, snd (Remove locked filePath fs))
          | Encoded cacheEntry =>
              if After now (ExpiresAt cacheEntry) then
                match Remove locked filePath fs with
                | (Removed, fs') => (S expiredCount, fs')
                | (_, fs') => (expiredCount, fs')
                end
              else st
          end
    end.

(** [CleanExpired], run at the instant [now]. *)
Definition CleanExpired (fc : FileCache) (now : Time) (readable : bool)
    (locked : gset string) (fs : gmap string file) : sweep :=
  if readable then
    let '(expiredCount, fs') :=
      fold_left (cleanStep fc now locked) (ReadDir (cacheDir fc) fs) (O, fs) in
    {| sweepErr := None; count := expiredCount; left := fs' |}
  else {| sweepErr := Some ErrReadDir; count := O; left := fs |}.

(** [float64(x)] for an [int64]. *)
Definition float64_of_int (x : Z) : GoFloat.float64 :=
  if x <? 0 then PrimFloat.opp (PrimFloat.of_uint63 (Uint63.of_Z (- x)))
  else PrimFloat.of_uint63 (Uint63.of_Z x).

Definition Hour : Z := 3600 * nsPerSecond.

(** [Duration.Hours]. *)
Definition Hours (d : Z) : GoFloat.float64 :=
  let hour := Z.quot d Hour in
  let nsec := Z.rem d Hour in
  PrimFloat.add (float64_of_int hour)
                (PrimFloat.div (float64_of_int nsec) (float64_of_int (60 * 60 * 1000000000))).

(** The map [GetStats] returns, by key. *)
Record stats : Type := {
  totalEntries : Z;
  totalSizeKB : Z;
  expiredEntries : Z;
  statsCacheDir : string;
  ttlHours : GoFloat.float64
}.

(** The body of the loop of [GetStats]; [size f] is the length of [f] in
    bytes, as [entry.Info()] reports it. *)
Definition statsStep (fc : FileCache) (now : Time) (size : file -> Z)
    (fs : gmap string file) (st : Z * Z * Z) (entry : DirEntry) : Z * Z * Z :=
  let '(totalFiles, totalSize, expiredFiles) := st in
  if IsDir entry || negb (isJSON entry) then st
  else
    let totalFiles := totalFiles + 1 in
    let filePath := getCacheFilePath fc (Name entry) in
    match fs !! filePath with
    | None => (totalFiles, totalSize, expiredFiles)
    | Some f =>
        let totalSize := totalSize + size f in
        if negb (accessible f) then (totalFiles, totalSize, expiredFiles)
        else
          match body f with
          | Encoded cacheEntry =>
              if After now (ExpiresAt cacheEntry)
              then (totalFiles, totalSize, expiredFiles + 1)
              else (totalFiles, totalSize, expiredFiles)
          | Undecodable _ => (totalFiles, totalSize, expiredFiles)
          end
    end.

(** [GetStats], run at the instant [now]; [None] is the error of
    [os.ReadDir]. *)
Definition GetStats (fc : FileCache) (now : Time) (readable : bool) (size : file -> Z)
    (fs : gmap string file) : option stats :=
  if readable then
    let '(totalFiles, totalSize, expiredFiles) :=
      fold_left (statsStep fc now size fs) (ReadDir (cacheDir fc) fs) (0, 0, 0) in
    Some {| totalEntries := totalFiles;
            totalSizeKB := Z.quot totalSize 1024;
            expiredEntries := expiredFiles;
            statsCacheDir := cacheDir fc;
            ttlHours := Hours (ttl fc) |}
  else None.

(** *** ETFMetadataCache *)

(** [NewETFMetadataCache]: the file cache it wraps. *)
Definition NewETFMetadataCache (cacheDir : string) (ttl : Z) : FileCache :=
  {| Cache.cacheDir := cacheDir +:+ "/" +:+ "etf_metadata"; Cache.ttl := ttl |}.

Definition metadataKey (symbol : string) : string :=
  generateCacheKey "etf_metadata" [symbol].

(** [GetETFMetadata]: the target is an [interface{}]. *)
Definition GetETFMetadata (emc : FileCache) (symbol : string) (now : Time)
    (locked : gset string) (fs : gmap string file) : getResult :=
  Get emc (metadataKey symbol) TAny now locked fs.

Definition SetETFMetadata (emc : FileCache) (symbol : string) (metadata : json)
    (now : Time) (fs : gmap string file) : option error * gmap string file :=
  Set_ emc (metadataKey symbol) metadata now fs.

Definition InvalidateETF (emc : FileCache) (symbol : string) (locked : gset string)
    (fs : gmap string file) : option opError * gmap string file :=
  Delete emc (metadataKey symbol) locked fs.

End CacheOps.

(** ** The batch runner: the order of the symbols *)

Module BatchSetup.

(** The inner loop of [getSortedETFSymbols], [for j; j < len(symbols); j++],
    with [n] iterations left: the slice is updated in place. *)
Fixpoint innerLoop (n i j : nat) (symbols : list string) : list string :=
  match n with
  | O => symbols
  | S n' =>
      let symbols :=
        match symbols !! i, symbols !! j with
        | Some a, Some b =>
            if String.ltb b a then <[i := b]> (<[j := a]> symbols) else symbols
        | _, _ => symbols
        end in
      innerLoop n' i (S j) symbols
  end.

(** The outer loop, [for i; i < len(symbols); i++], with [n] iterations
    left. *)
Fixpoint outerLoop (n i : nat) (symbols : list string) : list string :=
  match n with
  | O => symbols
  | S n' => outerLoop n' (S i) (innerLoop (length symbols - S i) i (S i) symbols)
  end.

(** [getSortedETFSymbols(etfs)]; [keys] are the keys of the map in the order
    in which the [range] statement yields them, which Go leaves open. *)
Definition getSortedETFSymbols (keys : list string) : list string :=
  outerLoop (length keys) 0 keys.

End BatchSetup.

(** ** internal/models: the ETF records *)

Module ETFModels.

Record ETF : Type := {
  Symbol : string;
  Name : string;
  Group : string;
  Frequency : string;
  Description : string;
  NextExDate : string;
  NextPayDate : string
}.

Record ETFMetadata : Type := {
  mSymbol : string;
  mName : string;
  mDescription : string;
  Exchange : string;
  Currency : string;
  Country : string;
  Sector : string;
  Industry : string;
  AssetType : string;
  FiscalYearEnd : string;
  MarketCap : string;
  DividendPerShare : string;
  DividendYield : string;
  DividendDate : string;
  ExDividendDate : string;
  PERatio : string;
  BookValue : string;
  EPS : string;
  Beta : string;
  Week52High : string;
  Week52Low : string;
  Day50MovingAverage : string;
  Day200MovingAverage : string;
  SharesOutstanding : string;
  ProfitMargin : string;
  OperatingMargin : string;
  ReturnOnAssets : string;
  ReturnOnEquity : string;
  LastUpdated : GoTime.Time;
  Source : string
}.

End ETFModels.

(** ** The crawler with the Alpha Vantage integration (cmd) *)

Module Crawler.

Import ETFModels.

Definition prioritySymbols : list string :=
  ["TSLY"; "NVDY"; "MSTY"; "OARK"; "QQLY";
   "APLY"; "CONY"; "YMAX"; "BIGY"; "SOXY";
   "AMZY"; "GDXY"; "TSMY"; "PLTY"; "YMAG"].

(** The loop over the priority symbols, from [symbols] on. *)
Fixpoint addPriority (symbolMap : gmap string ETF) (count : Z) (symbols : list string)
    (topETFs : list ETF) : list ETF :=
  match symbols with
  | [] => topETFs
  | symbol :: rest =>
      match symbolMap !! symbol with
      | Some etf =>
          let topETFs := topETFs ++ [etf] in
          if count <=? Z.of_nat (length topETFs) then topETFs
          else addPriority symbolMap count rest topETFs
      | None => addPriority symbolMap count rest topETFs
      end
  end.

(** The loop that fills the remaining slots, from [etfs] on. *)
Fixpoint fill (count : Z) (etfs : list ETF) (topETFs : list ETF) : list ETF :=
  match etfs with
  | [] => topETFs
  | etf :: rest =>
      let found := existsb (fun selected => String.eqb (Symbol selected) (Symbol etf)) topETFs in
      if negb found then
        let topETFs := topETFs ++ [etf] in
        if count <=? Z.of_nat (length topETFs) then topETFs else fill count rest topETFs
      else fill count rest topETFs
  end.

(** [getTopETFs(etfs, count)]. *)
Definition getTopETFs (etfs : list ETF) (count : Z) : list ETF :=
  let symbolMap := fold_left (fun m etf => <[Symbol etf := etf]> m) etfs (∅ : gmap string ETF) in
  let topETFs := addPriority symbolMap count prioritySymbols [] in
  if Z.of_nat (length topETFs) <? count then fill count etfs topETFs else topETFs.

Definition setDescription (etf : ETF) (d : string) : ETF :=
  {| Symbol := Symbol etf; Name := Name etf; Group := Group etf; Frequency := Frequency etf;
     Description := d; NextExDate := NextExDate etf; NextPayDate := NextPayDate etf |}.

Definition setName (etf : ETF) (n : string) : ETF :=
  {| Symbol := Symbol etf; Name := n; Group := Group etf; Frequency := Frequency etf;
     Description := Description etf; NextExDate := NextExDate etf;
     NextPayDate := NextPayDate etf |}.

(** The body of the loop of [enrichETFsWithMetadata]. *)
Definition enrich (metadataMap : gmap string ETFMetadata) (etf : ETF) : ETF :=
  match metadataMap !! Symbol etf with
  | Some metadata =>
      let enrichedETF := etf in
      let enrichedETF :=
        if negb (String.eqb (mDescription metadata) "")
           && (String.length (Description etf) <? String.length (mDescription metadata))%nat
        then setDescription enrichedETF (mDescription metadata) else enrichedETF in
      if negb (String.eqb (mName metadata) "") && negb (String.eqb (mName metadata) (Name etf))
      then setName enrichedETF (mName metadata) else enrichedETF
  | None => etf
  end.

(** [enrichETFsWithMetadata(etfs, metadataMap, logger)]; a nil map is the
    empty map. *)
Definition enrichETFsWithMetadata (etfs : list ETF) (metadataMap : gmap string ETFMetadata)
    : list ETF :=
  map (enrich metadataMap) etfs.

(** The pattern [generateEnhancedHistory] picks for a group: the months to
    go back, the base amount and the volatility. *)
Definition groupPattern (group : string) : Z * GoFloat.float64 * GoFloat.float64 :=
  if String.eqb group "Weekly" then (3, 0.18%float, 0.15%float)
  else if String.eqb group "Target12" then (12, 0.25%float, 0.08%float)
  else (6, 0.15%float, 0.12%float).

(** The amount of the event number [i]. *)
Definition enhancedAmount (baseAmount volatility : GoFloat.float64) (i : Z) : GoFloat.float64 :=
  let amountVariation :=
    PrimFloat.div
      (PrimFloat.mul
         (PrimFloat.mul (PrimFloat.sub (CacheOps.float64_of_int (Z.rem i 5)) 2%float) volatility)
         baseAmount)
      2%float in
  let amount := PrimFloat.add baseAmount amountVariation in
  if GoFloat.lt amount 0.05%float then 0.05%float else amount.

(** The body of the loop that generates the events. *)
Definition enhancedEvent (now : GoTime.Time) (etf : ETF)
    (baseAmount volatility : GoFloat.float64) (i : Z) : Models.DividendEvent :=
  let weeksBack := if String.eqb (Group etf) "Target12" then i * 4 else i in
  let eventDate := GoTime.AddDate now 0 0 (- weeksBack * 7) in
  {| Models.Symbol := Symbol etf;
     Models.ExDate := GoTime.AddDate eventDate 0 0 (-2);
     Models.PayDate := eventDate;
     Models.DeclareDate := GoTime.AddDate eventDate 0 0 (-5);
     Models.Amount := enhancedAmount baseAmount volatility i;
     Models.Group := Group etf;
     Models.Frequency := Frequency etf;
     Models.Yield := GoFloat.zero |}.

(** The loop that adds up the amounts; the year-to-date total goes by the
    pay date. *)
Definition addUp (yearStart : GoTime.Time) (acc : GoFloat.float64 * GoFloat.float64)
    (event : Models.DividendEvent) : GoFloat.float64 * GoFloat.float64 :=
  let '(totalAmount, ytdTotal) := acc in
  (PrimFloat.add totalAmount (Models.Amount event),
   if GoTime.After (Models.PayDate event) yearStart
   then PrimFloat.add ytdTotal (Models.Amount event) else ytdTotal).

(** [generateEnhancedHistory(etf)] at the instant [now]. *)
Definition generateEnhancedHistory (now : GoTime.Time) (etf : ETF) : Models.DividendHistory :=
  let '(monthsBack, baseAmount, volatility) := groupPattern (Group etf) in
  let events :=
    map (enhancedEvent now etf baseAmount volatility)
        (map Z.of_nat (seq 0 (Z.to_nat (monthsBack * 4)))) in
  let yearStart := GoTime.Date (GoTime.Year now) 1 1 0 0 0 0 in
  let '(totalAmount, ytdTotal) :=
    fold_left (addUp yearStart) events (GoFloat.zero, GoFloat.zero) in
  let avgAmount := PrimFloat.div totalAmount (TableScraper.float64_of_len events) in
  let lastAmount := match events with e :: _ => Models.Amount e | [] => GoFloat.zero end in
  let prevAmount := match events with _ :: e :: _ => Models.Amount e | _ => GoFloat.zero end in
  let changePercent :=
    if GoFloat.gt prevAmount GoFloat.zero
    then PrimFloat.mul (PrimFloat.div (PrimFloat.sub lastAmount prevAmount) prevAmount) 100%float
    else GoFloat.zero in
  {| Models.hSymbol := Symbol etf;
     Models.hName := Name etf;
     Models.hGroup := Group etf;
     Models.hFrequency := Frequency etf;
     Models.Events := events;
     Models.Stats :=
       {| Models.TotalPayments := Z.of_nat (length events);
          Models.AverageAmount := avgAmount;
          Models.LastAmount := lastAmount;
          Models.YearToDateTotal := ytdTotal;
          Models.TrailingYearTotal := totalAmount;
          Models.ChangePercent := changePercent |};
     Models.UpdatedAt := now |}.

End Crawler.

(** ** The clients' caches (alpha_vantage.go and the FMP client) *)

Module AlphaVantageClient.

Import GoTime Cache CacheOps.

(** The cache [NewAlphaVantageClient] builds: 24 hours under [cache]. *)
Definition cache : FileCache := NewETFMetadataCache "cache" (24 * Hour).

(** [ClearCache] sweeps the expired entries. *)
Definition ClearCache (now : Time) (readable : bool) (locked : gset string)
    (fs : gmap string file) : sweep :=
  CleanExpired cache now readable locked fs.

Definition GetCacheStats (now : Time) (readable : bool) (size : file -> Z)
    (fs : gmap string file) : option stats :=
  GetStats cache now readable size fs.

Definition InvalidateETFCache (symbol : string) (locked : gset string)
    (fs : gmap string file) : option opError * gmap string file :=
  InvalidateETF cache symbol locked fs.

End AlphaVantageClient.

Module FMPClient.

Import GoTime Cache CacheOps Models.

(** The cache [NewFMPClient] builds: 12 hours under [cache/fmp]. *)
Definition cache : FileCache := {| cacheDir := "cache/fmp"; ttl := 12 * Hour |}.

(** The cache key of [GetDividendHistory]. *)
Definition historyCacheKey (symbol : string) (years : Z) : string :=
  "dividend_history_" +:+ symbol +:+ "_" +:+ Api.decimal years.

Definition ClearCache (readable : bool) (locked : gset string) (fs : gmap string file)
    : sweep :=
  Clear cache readable locked fs.

Definition GetCacheStats (now : Time) (readable : bool) (size : file -> Z)
    (fs : gmap string file) : option stats :=
  GetStats cache now readable size fs.

(** [FilterYieldMaxSymbols]: a missing key of the set reads as false. *)
Definition FilterYieldMaxSymbols (events : list DividendEvent) (yieldMaxSymbols : list string)
    : list DividendEvent :=
  let symbolSet :=
    fold_left (fun m symbol => <[symbol := true]> m) yieldMaxSymbols (∅ : gmap string bool) in
  fold_left (fun filtered event =>
               if default false (symbolSet !! Symbol event) then filtered ++ [event]
               else filtered)
            events [].

Definition setGroupInfo (e : DividendEvent) (group frequency : string) : DividendEvent :=
  {| Symbol := Symbol e; ExDate := ExDate e; PayDate := PayDate e;
     DeclareDate := DeclareDate e; Amount := Amount e; Group := group;
     Frequency := frequency; Yield := Yield e |}.

(** [EnrichWithGroupInfo]: the elements of the slice it is given are updated
    in place, and that slice is what it returns. *)
Definition EnrichWithGroupInfo (events : list DividendEvent)
    (etfMap : gmap string ETFModels.ETF) : list DividendEvent :=
  map (fun event =>
         match etfMap !! Symbol event with
         | Some etf => setGroupInfo event (ETFModels.Group etf) (ETFModels.Frequency etf)
         | None => event
         end)
      events.

(** [CalculateDividendYield]: a placeholder. *)
Definition CalculateDividendYield (symbol : string) (dividendAmount : GoFloat.float64)
    : GoFloat.float64 * option string :=
  (GoFloat.zero, None).

End FMPClient.

(** ** The improved schedule scraper: dates *)

Module ImprovedDates.

Import GoTime GoTime2 GoStrings.

Definition formats : list string :=
  ["1/2/06"; "1/2/2006"; "01/02/06"; "01/02/2006"; "2006-01-02"; "Jan 2, 2006"].

(** The loop of [parseDate] over the layouts. *)
Fixpoint tryFormats (fs : list string) (dateStr : string) : Time :=
  match fs with
  | [] => zeroTime
  | format :: fs' =>
      match Parse format dateStr with
      | Some parsed => if Year parsed <? 1950 then AddDate parsed 2000 0 0 else parsed
      | None => tryFormats fs' dateStr
      end
  end.

(** [ImprovedYieldMaxScraper.parseDate]. *)
Definition parseDate (dateStr : string) : Time :=
  tryFormats formats (TrimSpace dateStr).

(** The loop [for baseDate.Weekday() != day] that moves [baseDate] on by a
    day at a time; [None] when [fuel] iterations did not reach the weekday. *)
Fixpoint advanceTo (fuel : nat) (day : Z) (baseDate : Time) : option Time :=
  if Weekday baseDate =? day then Some baseDate
  else
    match fuel with
    | O => None
    | S fuel' => advanceTo fuel' day (AddDate baseDate 0 0 1)
    end.

Definition groupRotation : list string := ["GroupB"; "GroupC"; "GroupD"; "GroupA"].

(** The body of both loops of [parseWeeklyGroupsTableImproved]: the event of
    the week [weekOffset] weeks from [now]. *)
Definition weekEvent (fuel : nat) (now : Time) (day : Z) (group : string)
    (amount : GoFloat.float64) (weekOffset : Z) : option Models.DividendEvent :=
  match advanceTo fuel day (AddDate now 0 0 (weekOffset * 7)) with
  | Some baseDate =>
      Some {| Models.Symbol := "";
              Models.ExDate := baseDate;
              Models.PayDate := AddDate baseDate 0 0 1;
              Models.DeclareDate := AddDate baseDate 0 0 (-1);
              Models.Amount := amount;
              Models.Group := group;
              Models.Frequency := "weekly";
              Models.Yield := GoFloat.zero |}
  | None => None
  end.

(** The results of the iterations of a loop, when none ran out of fuel. *)
Fixpoint collect {A : Type} (l : list (option A)) : option (list A) :=
  match l with
  | [] => Some []
  | None :: _ => None
  | Some x :: l' =>
      match collect l' with
      | Some xs => Some (x :: xs)
      | None => None
      end
  end.

Definition weekOffsets : list Z := [0; 1; 2; 3; 4; 5; 6; 7].

(** The variable amounts; a product is rounded before it is added. *)
Definition groupAmount (weekOffset : Z) : GoFloat.float64 :=
  PrimFloat.add 0.15%float
    (PrimFloat.mul (CacheOps.float64_of_int (weekOffset mod 3)) 0.02%float).

Definition weeklyAmount (weekOffset : Z) : GoFloat.float64 :=
  PrimFloat.add 0.18%float
    (PrimFloat.mul (CacheOps.float64_of_int (weekOffset mod 4)) 0.015%float).

(** [parseWeeklyGroupsTableImproved(table, events)] with the clock at [now]:
    the slice [events] points to afterwards. *)
Definition parseWeeklyGroupsTableImproved (fuel : nat) (now : Time)
    (events : list Models.DividendEvent) : option (list Models.DividendEvent) :=
  let groupEvents :=
    collect (map (fun weekOffset =>
                    weekEvent fuel now Wednesday
                      (nth (Z.to_nat (weekOffset mod 4)) groupRotation "")
                      (groupAmount weekOffset) weekOffset)
                 weekOffsets) in
  let weeklyEvents :=
    collect (map (fun weekOffset =>
                    weekEvent fuel now Thursday "Weekly" (weeklyAmount weekOffset) weekOffset)
                 weekOffsets) in
  match groupEvents, weeklyEvents with
  | Some groups, Some weekly => Some (events ++ groups ++ weekly)
  | _, _ => None
  end.

End ImprovedDates.

(** ** The program that writes the corrected ETF data (cmd) *)

Module FixData.

Import GoTime GoTime2.

(** The loop [for d := start; ; d = d.AddDate(0, 0, 1)] that returns the
    first [d] on the weekday [day]; [None] when [fuel] iterations did not
    reach it. *)
Fixpoint nextWeekday (fuel : nat) (day : Z) (d : Time) : option Time :=
  match fuel with
  | O => None
  | S fuel' => if Weekday d =? day then Some d else nextWeekday fuel' day (AddDate d 0 0 1)
  end.

Inductive loopResult : Type :=
| OutOfFuel
| Returned (d : Time)
| Finished.      (* the loop condition failed *)

(** The loop over the days of month [month], from [d] on, that returns the
    first one on the weekday [day]. *)
Fixpoint firstInMonth (fuel : nat) (day month : Z) (d : Time) : loopResult :=
  match fuel with
  | O => OutOfFuel
  | S fuel' =>
      if Month d =? month then
        if Weekday d =? day then Returned d
        else firstInMonth fuel' day month (AddDate d 0 0 1)
      else Finished
  end.

(** [getNextDividendDate(group)] at the instant [now]; each loop may run
    [fuel] iterations. *)
Definition getNextDividendDate (fuel : nat) (now : Time) (group : string) : option Time :=
  if String.eqb group "GroupA" then nextWeekday fuel Wednesday now
  else if String.eqb group "GroupB" then nextWeekday fuel Wednesday now
  else if String.eqb group "GroupC" then nextWeekday fuel Wednesday now
  else if String.eqb group "GroupD" then nextWeekday fuel Wednesday now
  else if String.eqb group "Weekly" then nextWeekday fuel Thursday now
  else if String.eqb group "Target12" then
    let nextMonth := AddDate now 0 1 0 in
    match firstInMonth fuel Wednesday (Month nextMonth)
            (Date (Year nextMonth) (Month nextMonth) 1 0 0 0 0) with
    | OutOfFuel => None
    | Returned d => Some d
    | Finished => Some (AddDate now 0 0 7)
    end
  else Some (AddDate now 0 0 7).

End FixData.

(** ** The schedule scraper: the rows of the schedule tables *)

Module YieldMaxScraper.

Import GoTime GoStrings.

Definition formats : list string :=
  ["1/2/06"; "1/2/2006"; "01/02/06"; "01/02/2006"].

(** [YieldMaxScraper.parseDate]; its loop over the layouts is the one of the
    improved scraper. *)
Definition parseDate (dateStr : string) : Time :=
  ImprovedDates.tryFormats formats (TrimSpace dateStr).

(** The class [\s] of a regular expression: tab, line feed, form feed,
    carriage return and space. *)
Definition isRegexSpace (c : ascii) : bool :=
  let n := N_of_ascii c in
  (n =? 9)%N || (n =? 10)%N || (n =? 12)%N || (n =? 13)%N || (n =? 32)%N.

Definition isGroupLetter (c : ascii) : bool :=
  let n := N_of_ascii c in (65 <=? n)%N && (n <=? 68)%N.

Fixpoint skipSpaces (s : string) : string :=
  match s with
  | String c s' => if isRegexSpace c then skipSpaces s' else s
  | EmptyString => s
  end.

(** A match of [\s+([ABCD])] at the start of [s]: the letter it captures. *)
Definition spacesThenLetter (s : string) : option ascii :=
  match s with
  | String c s' =>
      if isRegexSpace c then
        match skipSpaces s' with
        | String l _ => if isGroupLetter l then Some l else None
        | EmptyString => None
        end
      else None
  | EmptyString => None
  end.

(** A match of [Group\s+([ABCD])] at the start of [s]. *)
Definition groupAt (s : string) : option ascii :=
  match stripPrefix "Group" s with
  | Some rest => spacesThenLetter rest
  | None => None
  end.

(** [FindStringSubmatch] for [Group\s+([ABCD])]: the letter captured by the
    leftmost match. *)
Fixpoint findGroup (s : string) : option ascii :=
  match groupAt s with
  | Some l => Some l
  | None =>
      match s with
      | String _ s' => findGroup s'
      | EmptyString => None
      end
  end.

(** [YieldMaxScraper.extractGroup]. *)
Definition extractGroup (text : string) : string :=
  match findGroup text with
  | Some l => "Group" +:+ String l ""
  | None => if Contains text "Weekly" then "Weekly" else "Unknown"
  end.

Definition target12ETFs : list string := ["BIGY"; "SOXY"; "RNTY"].

(** The callback of [parseTarget12Table] on a row with the cell texts
    [cells]; [None] is the run-time panic of an index out of range. *)
Definition target12Row (cells : list string) (upcoming : list Models.DividendEvent)
    : option (list Models.DividendEvent) :=
  if 3 <=? Z.of_nat (length cells) then
    match cells !! 1%nat with
    | None => None
    | Some cell1 =>
        let declareDate := parseDate cell1 in
        match cells !! 2%nat with
        | None => None
        | Some cell2 =>
            let exDate := parseDate cell2 in
            match cells !! 3%nat with
            | None => None
            | Some cell3 =>
                let payDate := parseDate cell3 in
                Some (fold_left
                        (fun upcoming symbol =>
                           upcoming ++
                           [{| Models.Symbol := symbol;
                               Models.ExDate := exDate;
                               Models.PayDate := payDate;
                               Models.DeclareDate := declareDate;
                               Models.Amount := GoFloat.zero;
                               Models.Group := "Target12";
                               Models.Frequency := "monthly";
                               Models.Yield := GoFloat.zero |}])
                        target12ETFs upcoming)
            end
        end
    end
  else Some upcoming.

(** The callback of [parseGroupsTable] on a row. *)
Definition groupsRow (cells : list string) (upcoming : list Models.DividendEvent)
    : option (list Models.DividendEvent) :=
  if 4 <=? Z.of_nat (length cells) then
    match cells !! 0%nat with
    | None => None
    | Some groupText =>
        match cells !! 2%nat with
        | None => None
        | Some cell2 =>
            let declareDate := parseDate cell2 in
            match cells !! 3%nat with
            | None => None
            | Some cell3 =>
                let exDate := parseDate cell3 in
                match cells !! 4%nat with
                | None => None
                | Some cell4 =>
                    let payDate := parseDate cell4 in
                    let group := extractGroup groupText in
                    let frequency :=
                      if Contains groupText "Monthly" then "monthly" else "weekly" in
                    Some (upcoming ++
                          [{| Models.Symbol := "";
                              Models.ExDate := exDate;
                              Models.PayDate := payDate;
                              Models.DeclareDate := declareDate;
                              Models.Amount := GoFloat.zero;
                              Models.Group := group;
                              Models.Frequency := frequency;
                              Models.Yield := GoFloat.zero |}])
                end
            end
        end
    end
  else Some upcoming.

(** [ForEach] over the rows that the selector picks, given by their cell
    texts; a panic of the callback ends it. *)
Fixpoint forEachRow (callback : list string -> list Models.DividendEvent ->
                                option (list Models.DividendEvent))
    (rows : list (list string)) (upcoming : list Models.DividendEvent)
    : option (list Models.DividendEvent) :=
  match rows with
  | [] => Some upcoming
  | cells :: rows' =>
      match callback cells upcoming with
      | Some upcoming' => forEachRow callback rows' upcoming'
      | None => None
      end
  end.

(** [parseTarget12Table] and [parseGroupsTable] on the rows after the
    header row. *)
Definition parseTarget12Table := forEachRow target12Row.

Definition parseGroupsTable := forEachRow groupsRow.

End YieldMaxScraper.

(** ** The properties, as definitions *)

(** The year [parseDate] checks: 2000 is added to a parsed year below 100. *)
Definition adjustedYear (t : GoTime.Time) : Z :=
  if GoTime.Year t <? 100 then GoTime.Year t + 2000 else GoTime.Year t.

(** The text the digest is taken of, as the specification words it: the
    prefix, then each parameter with an underscore before it. *)
Definition keyText (prefix : string) (params : list string) : string :=
  prefix +:+ String.concat "" (map (fun param => "_" +:+ param) params).

Definition isLowerHex (c : ascii) : bool :=
  let n := nat_of_ascii c in
  ((48 <=? n)%nat && (n <=? 57)%nat) || ((97 <=? n)%nat && (n <=? 102)%nat).

(** An amount the sanity bounds let through: positive and below 10. *)
Definition inBounds (a : GoFloat.float64) : bool :=
  GoFloat.gt a GoFloat.zero && GoFloat.lt a 10%float.

(** The amount of an event is zero (not set) or within the bounds. *)
Definition amountOk (e : Models.DividendEvent) : Prop :=
  GoFloat.gt (Models.Amount e) GoFloat.zero = true -> inBounds (Models.Amount e) = true.

(** The sum of the amounts of a list of events, added up in list order. *)
Definition sumAmounts (events : list Models.DividendEvent) : GoFloat.float64 :=
  fold_left PrimFloat.add (map Models.Amount events) GoFloat.zero.

(** A clock that never runs backwards. *)
Definition monotone (now : Improved.clock) : Prop :=
  forall i j : nat, (i <= j)%nat -> now i <= now j.

(** The cache file of [key] holds an entry that can be read, has not expired
    at [now], and whose data fits the target. *)
Definition hitCondition (fc : Cache.FileCache) (key : string) (target : Cache.goType)
    (now : GoTime.Time) (fs : gmap string Cache.file) : Prop :=
  exists f e,
    fs !! Cache.getCacheFilePath fc key = Some f
    /\ Cache.accessible f = true
    /\ Cache.body f = Cache.Encoded e
    /\ GoTime.After now (Cache.ExpiresAt e) = false
    /\ Cache.unmarshals target (Cache.Data e) = true.

(** The three conditions alone: the file exists, decodes, and has not
    expired. *)
Definition freshEntry (fc : Cache.FileCache) (key : string)
    (now : GoTime.Time) (fs : gmap string Cache.file) : Prop :=
  exists f e,
    fs !! Cache.getCacheFilePath fc key = Some f
    /\ Cache.body f = Cache.Encoded e
    /\ GoTime.After now (Cache.ExpiresAt e) = false.

(** Midnight (UTC) of a day of the calendar, with a four-digit year. *)
Definition validDate (t : GoTime.Time) : Prop :=
  exists y m d,
    0 <= y <= 9999 /\ 1 <= m <= 12 /\ 1 <= d <= GoTime.daysIn m y
    /\ t = GoTime.Date y m d 0 0 0 0.

(** A date field of the response that is absent or does not parse. *)
Definition missingDate (s : string) : Prop :=
  s = "" \/ GoTime.Parse "2006-01-02" s = None.

(** A result as the workers send them: without an error it carries a history. *)
Definition wellFormed (r : Batch.scrapeResult) : Prop :=
  Batch.err r = None -> Batch.history r <> None.

(** Whether a result ends as a saved file: the scrape succeeded, the history
    encodes, and [os.WriteFile] does not fail on its file. *)
Definition saves (marshal : option Models.DividendHistory -> option string) (d : Batch.disk)
    (r : Batch.scrapeResult) : bool :=
  match Batch.err r with
  | Some _ => false
  | None =>
      match marshal (Batch.history r) with
      | Some _ =>
          match Batch.faults d !! Batch.historyFile (Batch.symbol r) with
          | None => true
          | Some _ => false
          end
      | None => false
      end
  end.

(** The text the save of a result leaves in its file, if it gets as far as
    opening it: all of the encoded history, or the bytes written before the
    failure. *)
Definition leaves (marshal : option Models.DividendHistory -> option string) (d : Batch.disk)
    (r : Batch.scrapeResult) : option string :=
  match Batch.err r with
  | Some _ => None
  | None =>
      match marshal (Batch.history r) with
      | Some jsonData =>
          match Batch.faults d !! Batch.historyFile (Batch.symbol r) with
          | None => Some jsonData
          | Some Batch.OpenFails => None
          | Some (Batch.WriteFails n) => Some (substring 0 n jsonData)
          end
      | None => None
      end
  end.

(** Whether the save of a result opens its file. *)
Definition opens (marshal : option Models.DividendHistory -> option string) (d : Batch.disk)
    (r : Batch.scrapeResult) : bool :=
  match leaves marshal d r with
  | Some _ => true
  | None => false
  end.

(** The log line the loop writes for a result. *)
Definition logLineOf (marshal : option Models.DividendHistory -> option string)
    (d : Batch.disk) (r : Batch.scrapeResult) : Batch.logLine :=
  match Batch.err r with
  | Some msg => Batch.LogFailedScrape (Batch.symbol r) msg
  | None =>
      if saves marshal d r then Batch.LogSaved (Batch.symbol r)
      else Batch.LogFailedSave (Batch.symbol r)
  end.

(** ** Sample inputs *)

Definition hour : Z := 3600 * GoTime.nsPerSecond.

Definition midnight0601 : GoTime.Time := GoTime.Date 2025 6 1 0 0 0 0.
Definition noon0601 : GoTime.Time := GoTime.Date 2025 6 1 12 0 0 0.

(** The page of an ETF with a distribution table of three rows, the last
    without an amount. *)
Definition conyPage : TableScraper.page :=
  {| TableScraper.headings := ["YieldMax CONY Option Income Strategy ETF"];
     TableScraper.paragraphs := ["The Fund seeks monthly income."];
     TableScraper.tables :=
       [{| TableScraper.classes := "wpDataTable display";
           TableScraper.id := "table_1";
           TableScraper.headers :=
             ["ticker"; "Distribution per Share"; "declared date"; "ex date";
              "record date"; "payable date"];
           TableScraper.rows :=
             [["CONY"; "$0.75"; "03/05/2025"; "03/06/2025"; "03/06/2025"; "03/07/2025"];
              ["CONY"; "$0.50"; "12/04/2024"; "12/05/2024"; "12/05/2024"; "12/06/2024"];
              ["CONY"; "n/a"; "11/06/2024"; "11/07/2024"; "11/07/2024"; "11/08/2024"]] |}] |}.

(** What scraping that page at noon of 2025-06-01 returns. *)
Definition conyHistory : Models.DividendHistory :=
  Eval vm_compute in
    match TableScraper.ScrapeDividendHistory noon0601 "CONY" (Some conyPage) with
    | Some h => h
    | None =>
        {| Models.hSymbol := ""; Models.hName := ""; Models.hGroup := "";
           Models.hFrequency := ""; Models.Events := []; Models.Stats := Models.zeroStats;
           Models.UpdatedAt := 0 |}
    end.

(** The first row of that table, and the event it parses to. *)
Definition conyRow : list string :=
  ["CONY"; "$0.75"; "03/05/2025"; "03/06/2025"; "03/06/2025"; "03/07/2025"].

Definition conyEvent : Models.DividendEvent :=
  Eval vm_compute in
    match TableScraper.parseDividendRow noon0601 conyRow "CONY" with
    | Some e => e
    | None => TableScraper.emptyEvent ""
    end.

(** A clock that advances by a millisecond between readings, started at noon
    of 2025-06-01. *)
Definition tickingClock : Improved.clock :=
  fun k => noon0601 + Z.of_nat k * 1000000.

Definition eventOn (symbol : string) (exDate : GoTime.Time) : Models.DividendEvent :=
  {| Models.Symbol := symbol; Models.ExDate := exDate;
     Models.PayDate := GoTime.AddDate exDate 0 0 1;
     Models.DeclareDate := GoTime.AddDate exDate 0 0 (-1);
     Models.Amount := 0.25%float; Models.Group := "GroupA";
     Models.Frequency := "weekly"; Models.Yield := GoFloat.zero |}.

Definition sampleEvents : list Models.DividendEvent :=
  [eventOn "TSLY" (GoTime.Date 2025 5 28 0 0 0 0);
   eventOn "NVDY" (GoTime.Date 2025 6 4 0 0 0 0);
   eventOn "MSTY" (GoTime.Date 2025 7 9 0 0 0 0)].

Definition sampleSchedule : Improved.Schedule :=
  {| Improved.sUpdatedAt := tickingClock 0%nat;
     Improved.Groups := [];
     Improved.Upcoming := [eventOn "NVDY" (GoTime.Date 2025 6 4 0 0 0 0)] |}.

(** The cache of the FMP client, and its directory after a string was stored
    at noon. *)
Definition fmpCache : Cache.FileCache :=
  {| Cache.cacheDir := "cache/fmp"; Cache.ttl := 12 * hour |}.

Definition textEntry : gmap string Cache.file :=
  snd (Cache.Set_ fmpCache "dividend_history_TSLY_1" (Cache.JString "n/a") noon0601 ∅).

Definition fetchSPY : Api.action :=
  Api.Call "SPY" Api.MetaMiss (Api.Response 200 (Some "SPY")).

(** Five calls in a row, a tick of the limiter, one more call. *)
Definition busyMinute : list Api.action :=
  [fetchSPY; fetchSPY; fetchSPY; fetchSPY; fetchSPY; Api.TickAction; fetchSPY].

Definition juneDividend : Api.FMPDividendResponse :=
  {| Api.rSymbol := "TSLY"; Api.rDate := "2024-06-01"; Api.rLabel := "June 01, 24";
     Api.AdjDividend := 0.5%float; Api.Dividend := 0.5%float;
     Api.RecordDate := "2024-06-01"; Api.PaymentDate := "";
     Api.DeclarationDate := "soon" |}.

Definition juneEvent : Models.DividendEvent :=
  {| Models.Symbol := "TSLY";
     Models.ExDate := GoTime.Date 2024 6 1 0 0 0 0;
     Models.PayDate := GoTime.Date 2024 6 15 0 0 0 0;
     Models.DeclareDate := GoTime.Date 2024 5 25 0 0 0 0;
     Models.Amount := 0.5%float; Models.Group := ""; Models.Frequency := "";
     Models.Yield := GoFloat.zero |}.

(** A scraper that fails twice and would succeed at the third call. *)
Definition thirdTimeLucky : nat -> Batch.scrapeOutcome :=
  fun k => if (k <? 2)%nat then Batch.ScrapeErr "timeout" else Batch.ScrapeOk conyHistory.

(** A stand-in for the JSON encoder: the text is the history's symbol. *)
Definition symbolMarshal (h : option Models.DividendHistory) : option string :=
  match h with
  | Some h => Some (Models.hSymbol h)
  | None => Some "null"
  end.

(** A stand-in for the JSON encoder that writes an opening brace, the
    symbol and a closing brace. *)
Definition textMarshal (h : option Models.DividendHistory) : option string :=
  match h with
  | Some h => Some ("{ " +:+ Models.hSymbol h +:+ " }")
  | None => Some "null"
  end.

(** A disk on which the file of MSTY cannot be opened for writing. *)
Definition lockedDisk : Batch.disk :=
  {| Batch.contents := ∅;
     Batch.faults := {[ Batch.historyFile "MSTY" := Batch.OpenFails ]} |}.

(** A disk without files on which the write of the file of CONY fails after
    two bytes (the disk is full). *)
Definition fullDisk : Batch.disk :=
  {| Batch.contents := ∅;
     Batch.faults := {[ Batch.historyFile "CONY" := Batch.WriteFails 2 ]} |}.

Definition okResult (sym : string) : Batch.scrapeResult :=
  {| Batch.symbol := sym; Batch.history := Some conyHistory; Batch.err := None |}.

Definition sampleResults : list Batch.scrapeResult :=
  [okResult "CONY";
   {| Batch.symbol := "NVDY"; Batch.history := None; Batch.err := Some "timeout" |};
   okResult "MSTY";
   okResult "TSLY"].

(** ** Sample values and reference definitions for the further properties *)

(** The day of the year of a date, counted from 0. *)
Definition yearDay (y m d : Z) : Z :=
  GoTime.daysBefore (m - 1) + (if GoTime.isLeap y && (3 <=? m) then 1 else 0) + (d - 1).

(** Whether [s] is the four decimal digits of [y]. *)
Definition fourDigits (s : string) (y : Z) : bool :=
  match s with
  | String a (String b (String c (String d ""))) =>
      GoTime.isDigit a && GoTime.isDigit b && GoTime.isDigit c && GoTime.isDigit d
      && (((GoTime.digitVal a * 10 + GoTime.digitVal b) * 10 + GoTime.digitVal c) * 10
          + GoTime.digitVal d =? y)
  | _ => false
  end.

(** Whether [s] is the two decimal digits of [n]. *)
Definition twoDigits (s : string) (n : Z) : bool :=
  match s with
  | String a (String b "") =>
      GoTime.isDigit a && GoTime.isDigit b
      && (GoTime.digitVal a * 10 + GoTime.digitVal b =? n)
  | _ => false
  end.

(** The start of the day of an instant. *)
Definition midnight (t : GoTime.Time) : GoTime.Time := t - t mod GoTime.nsPerDay.

(** The event of a group [k] weeks after the ex-date [first]: paid a day
    later, declared a day earlier. *)
Definition eventInWeek (first : GoTime.Time) (group : string) (amount : GoFloat.float64)
    (k : Z) : Models.DividendEvent :=
  {| Models.Symbol := "";
     Models.ExDate := first + 7 * k * GoTime.nsPerDay;
     Models.PayDate := first + (7 * k + 1) * GoTime.nsPerDay;
     Models.DeclareDate := first + (7 * k - 1) * GoTime.nsPerDay;
     Models.Amount := amount;
     Models.Group := group;
     Models.Frequency := "weekly";
     Models.Yield := GoFloat.zero |}.

(** A name that [os.ReadDir] can list: not empty and without a separator. *)
Definition plainName (name : string) : Prop :=
  CacheOps.cutSlash name = (name, false) /\ name <> "".

(** A key that names a file of the cache directory, so that joining it to
    the directory adds it after a separator: a plain name that is not one of
    the two directory links. *)
Definition fileKey (key : string) : Prop :=
  plainName key /\ key <> "." /\ key <> "..".

(** Whether the loop of [Clear] removes the file [o] found for an entry. *)
Definition clearKills (fc : Cache.FileCache) (locked : gset string)
    (entry : CacheOps.DirEntry) (o : option Cache.file) : bool :=
  negb (CacheOps.IsDir entry) && CacheOps.isJSON entry
  && bool_decide (is_Some o)
  && negb (bool_decide (Cache.getCacheFilePath fc (CacheOps.Name entry) ∈ locked)).

(** Whether a file is one [CleanExpired] wants to remove at [now]: it opens,
    and it does not decode or its entry has expired. *)
Definition stale (now : GoTime.Time) (f : Cache.file) : bool :=
  Cache.accessible f &&
  match Cache.body f with
  | Cache.Undecodable _ => true
  | Cache.Encoded e => GoTime.After now (Cache.ExpiresAt e)
  end.

(** Whether the loop of [CleanExpired] removes the file [o] found for an
    entry. *)
Definition cleanKills (fc : Cache.FileCache) (now : GoTime.Time) (locked : gset string)
    (entry : CacheOps.DirEntry) (o : option Cache.file) : bool :=
  negb (CacheOps.IsDir entry) && CacheOps.isJSON entry
  && match o with Some f => stale now f | None => false end
  && negb (bool_decide (Cache.getCacheFilePath fc (CacheOps.Name entry) ∈ locked)).

(** The three results of [Get] a caller sees. *)
Definition answer (r : Cache.getResult) : bool * option Cache.error * option Cache.json :=
  (Cache.found r, Cache.err r, Cache.stored r).

(** The last byte of a string. *)
Fixpoint lastByte (s : string) : option ascii :=
  match s with
  | "" => None
  | String c "" => Some c
  | String _ rest => lastByte rest
  end.

(** A byte of a decimal numeral: a digit or the sign. *)
Definition numeralByte (c : ascii) : bool := GoTime.isDigit c || Ascii.eqb c "-".

(** The metadata directory of the Alpha Vantage client one June noon: the
    entry of SPY written that noon, the entry of QQQ written 25 hours
    before, a file that does not decode, a text file, and a file in a
    subdirectory. *)
Definition spyMetadata : Cache.json :=
  Cache.JObject [("symbol", Cache.JString "SPY"); ("assetType", Cache.JString "ETF")].

Definition qqqMetadata : Cache.json :=
  Cache.JObject [("symbol", Cache.JString "QQQ"); ("assetType", Cache.JString "ETF")].

Definition metadataDir : gmap string Cache.file :=
  <["cache/etf_metadata/old/etf_metadata_0.json" :=
      {| Cache.body := Cache.Undecodable ""; Cache.accessible := true |}]>
  (<["cache/etf_metadata/notes.txt" :=
      {| Cache.body := Cache.Undecodable "to do"; Cache.accessible := true |}]>
   (<["cache/etf_metadata/broken.json" :=
       {| Cache.body := Cache.Undecodable "{"; Cache.accessible := true |}]>
    (snd (CacheOps.SetETFMetadata AlphaVantageClient.cache "SPY" spyMetadata noon0601
       (snd (CacheOps.SetETFMetadata AlphaVantageClient.cache "QQQ" qqqMetadata
               (noon0601 - 25 * hour) ∅)))))).

(** Go's [<=] on strings: the order of their bytes. *)
Definition stringLe (a b : string) : Prop := String.leb a b = true.

(** One pass of the inner loop, on the element [x] at the index of the outer
    loop, the elements [done] already compared with it and the elements
    [todo] still to come. *)
Fixpoint scan (x : string) (done todo : list string) : string * list string :=
  match todo with
  | [] => (x, done)
  | y :: todo' =>
      if String.ltb y x then scan y (done ++ [x]) todo' else scan x (done ++ [y]) todo'
  end.

(** The loops as a selection of the least element, [n] times. *)
Fixpoint selection (n : nat) (l : list string) : list string :=
  match n, l with
  | S n', x :: rest => let '(x', rest') := scan x [] rest in x' :: selection n' rest'
  | _, _ => l
  end.

(** The lookup table [getTopETFs] builds: the last ETF of each symbol. *)
Definition symbolMapOf (etfs : list ETFModels.ETF) : gmap string ETFModels.ETF :=
  fold_left (fun m etf => <[ETFModels.Symbol etf := etf]> m) etfs ∅.

(** What both loops of [getTopETFs] keep: distinct symbols, and members of
    [etfs]. *)
Definition picked (etfs topETFs : list ETFModels.ETF) : Prop :=
  List.NoDup (map ETFModels.Symbol topETFs)
  /\ (forall e, In e topETFs -> In e etfs).

(** Two ETFs as the crawler lists them, one of them a priority symbol. *)
Definition conyETF : ETFModels.ETF :=
  {| ETFModels.Symbol := "CONY"; ETFModels.Name := "YieldMax COIN Option Income Strategy ETF";
     ETFModels.Group := "GroupC"; ETFModels.Frequency := "weekly";
     ETFModels.Description := ""; ETFModels.NextExDate := ""; ETFModels.NextPayDate := "" |}.

Definition fiatETF : ETFModels.ETF :=
  {| ETFModels.Symbol := "FIAT"; ETFModels.Name := "YieldMax Short COIN Option Income Strategy ETF";
     ETFModels.Group := "GroupC"; ETFModels.Frequency := "weekly";
     ETFModels.Description := ""; ETFModels.NextExDate := ""; ETFModels.NextPayDate := "" |}.

(** What [enrichETFsWithMetadata] and [EnrichWithGroupInfo] leave alone. *)
Definition sameETF (e e' : ETFModels.ETF) : Prop :=
  ETFModels.Symbol e' = ETFModels.Symbol e
  /\ ETFModels.Group e' = ETFModels.Group e
  /\ ETFModels.Frequency e' = ETFModels.Frequency e
  /\ ETFModels.NextExDate e' = ETFModels.NextExDate e
  /\ ETFModels.NextPayDate e' = ETFModels.NextPayDate e.

Definition sameDividend (e e' : Models.DividendEvent) : Prop :=
  Models.Symbol e' = Models.Symbol e
  /\ Models.ExDate e' = Models.ExDate e
  /\ Models.PayDate e' = Models.PayDate e
  /\ Models.DeclareDate e' = Models.DeclareDate e
  /\ Models.Amount e' = Models.Amount e
  /\ Models.Yield e' = Models.Yield e.

(** Whether a symbol is in a list of symbols. *)
Definition listed (symbols : list string) (symbol : string) : bool :=
  existsb (String.eqb symbol) symbols.

(** The number of events [generateEnhancedHistory] writes for a group, and
    the weeks between two of them. *)
Definition enhancedCount (group : string) : nat :=
  if String.eqb group "Weekly" then 12%nat
  else if String.eqb group "Target12" then 48%nat else 24%nat.

Definition enhancedStep (group : string) : Z :=
  if String.eqb group "Target12" then 4 else 1.

(** The events that a row of the Target 12 table stands for, and the event
    of a row of the table of the groups. *)
Definition cell (cells : list string) (i : nat) : string := nth i cells "".

Definition target12Events (cells : list string) : list Models.DividendEvent :=
  map (fun symbol =>
         {| Models.Symbol := symbol;
            Models.ExDate := YieldMaxScraper.parseDate (cell cells 2);
            Models.PayDate := YieldMaxScraper.parseDate (cell cells 3);
            Models.DeclareDate := YieldMaxScraper.parseDate (cell cells 1);
            Models.Amount := GoFloat.zero;
            Models.Group := "Target12";
            Models.Frequency := "monthly";
            Models.Yield := GoFloat.zero |})
      ["BIGY"; "SOXY"; "RNTY"].

Definition groupsEvent (cells : list string) : Models.DividendEvent :=
  {| Models.Symbol := "";
     Models.ExDate := YieldMaxScraper.parseDate (cell cells 3);
     Models.PayDate := YieldMaxScraper.parseDate (cell cells 4);
     Models.DeclareDate := YieldMaxScraper.parseDate (cell cells 2);
     Models.Amount := GoFloat.zero;
     Models.Group := YieldMaxScraper.extractGroup (cell cells 0);
     Models.Frequency :=
       if GoStrings.Contains (cell cells 0) "Monthly" then "monthly" else "weekly";
     Models.Yield := GoFloat.zero |}.

Definition cellCount (n : nat) (cells : list string) : bool := (length cells =? n)%nat.

Definition moreCells (n : nat) (cells : list string) : bool := (n <? length cells)%nat.

Definition groupNames : list string :=
  ["GroupA"; "GroupB"; "GroupC"; "GroupD"; "Weekly"; "Unknown"].

(** ** Checks of the model on concrete inputs *)

Example Date_epoch : GoTime.Date 1 1 1 0 0 0 0 = 0.
Proof. reflexivity. Qed.

Example Date_unix : GoTime.Date 1970 1 1 0 0 0 0 = 62135596800 * 1000000000.
Proof. reflexivity. Qed.

Example civil_2024_02_29 :
  GoTime.civil (GoTime.Date 2024 2 29 13 5 7 9) = (2024, 2, 29).
Proof. reflexivity. Qed.

Example civil_2023_12_31 :
  GoTime.civil (GoTime.Date 2023 12 31 23 59 59 999999999) = (2023, 12, 31).
Proof. reflexivity. Qed.

Example AddDate_leap :
  GoTime.AddDate (GoTime.Date 2024 2 29 0 0 0 0) (-1) 0 0 = GoTime.Date 2023 3 1 0 0 0 0.
Proof. reflexivity. Qed.

Example Parse_slash : GoTime.Parse "01/02/2006" "03/15/2024" = Some (GoTime.Date 2024 3 15 0 0 0 0).
Proof. reflexivity. Qed.

Example Parse_short : GoTime.Parse "1/2/06" "3/5/25" = Some (GoTime.Date 2025 3 5 0 0 0 0).
Proof. reflexivity. Qed.

Example Parse_month_name :
  GoTime.Parse "Jan 2, 2006" "mar  7, 2024" = Some (GoTime.Date 2024 3 7 0 0 0 0).
Proof. reflexivity. Qed.

Example Parse_long_month :
  GoTime.Parse "January 2, 2006" "September 30, 2024" = Some (GoTime.Date 2024 9 30 0 0 0 0).
Proof. reflexivity. Qed.

Example Parse_day_range : GoTime.Parse "2006-01-02" "2023-02-29" = None.
Proof. reflexivity. Qed.

Example Parse_extra_text : GoTime.Parse "01/02/06" "03/15/2024" = None.
Proof. reflexivity. Qed.

Example TrimSpace_ascii : GoStrings.TrimSpace "  $0.45 " = "$0.45".
Proof. reflexivity. Qed.

Example TrimSpace_nbsp :
  GoStrings.TrimSpace (GoStrings.bytes [194; 160; 49; 32; 50; 226; 128; 137; 10]%nat) = "1 2".
Proof. reflexivity. Qed.

Example findNumber_first : GoStrings.findNumber "about 12.50 or 3" = Some "12.50".
Proof. reflexivity. Qed.

Example findNumber_trailing_dot : GoStrings.findNumber "7." = Some "7.".
Proof. reflexivity. Qed.

Example ParseFloat_045 : GoFloat.ParseFloat "0.45" = Some 0.45%float.
Proof. reflexivity. Qed.

Example ParseFloat_tenth : GoFloat.ParseFloat "0.1" = Some 0.1%float.
Proof. reflexivity. Qed.

Example ParseFloat_15 : GoFloat.ParseFloat "15.00" = Some 15%float.
Proof. reflexivity. Qed.

Example ParseFloat_rounds_up : GoFloat.ParseFloat "9.99999999999999999999" = Some 10%float.
Proof. reflexivity. Qed.

Example ParseFloat_big :
  GoFloat.ParseFloat "123456789012345678901234567890" = Some 1.2345678901234568e29%float.
Proof. reflexivity. Qed.

Example ParseFloat_two_dots : GoFloat.ParseFloat "1.2.3" = None.
Proof. reflexivity. Qed.

Example ParseFloat_dot : GoFloat.ParseFloat "." = None.
Proof. reflexivity. Qed.

Example md5_empty : MD5.hex (MD5.Sum "") = "d41d8cd98f00b204e9800998ecf8427e".
Proof. vm_compute. reflexivity. Qed.

Example md5_abc : MD5.hex (MD5.Sum "abc") = "900150983cd24fb0d6963f7d28e17f72".
Proof. vm_compute. reflexivity. Qed.

Example md5_fox :
  MD5.hex (MD5.Sum "The quick brown fox jumps over the lazy dog")
  = "9e107d9d372bb6826bd81d3542a419d6".
Proof. vm_compute. reflexivity. Qed.

Example md5_two_blocks :
  MD5.hex (MD5.Sum "12345678901234567890123456789012345678901234567890123456789012345678901234567890")
  = "57edf4a22be3c955ac49da2e2107b67a".
Proof. vm_compute. reflexivity. Qed.

Example table_parseAmount_dollar : TableScraper.parseAmount " $0.45 " = 0.45%float.
Proof. reflexivity. Qed.

Example table_parseAmount_large : TableScraper.parseAmount "$1,234.50" = 0%float.
Proof. reflexivity. Qed.

Example table_parseDate_2024 :
  TableScraper.parseDate (GoTime.Date 2025 6 1 12 0 0 0) " 03/15/2024 "
  = GoTime.Date 2024 3 15 0 0 0 0.
Proof. reflexivity. Qed.

Example table_parseDate_short_year :
  TableScraper.parseDate (GoTime.Date 2025 6 1 12 0 0 0) "01/02/0024"
  = GoTime.Date 2024 1 2 0 0 0 0.
Proof. reflexivity. Qed.

Example table_parseDate_old :
  TableScraper.parseDate (GoTime.Date 2025 6 1 12 0 0 0) "03/15/2019" = GoTime.zeroTime.
Proof. reflexivity. Qed.

Example detail_parseAmount_15 : DetailScraper.parseAmount "$15.00" = Some 15%float.
Proof. reflexivity. Qed.

Example chunks_slash : GoTime.chunks "01/02/2006"
  = [GoTime.stdZeroMonth; GoTime.lit "/"; GoTime.stdZeroDay; GoTime.lit "/"; GoTime.stdLongYear].
Proof. reflexivity. Qed.

Example chunks_spelled : GoTime.chunks "January 2, 2006"
  = [GoTime.stdLongMonth; GoTime.lit " "; GoTime.stdDay; GoTime.lit ","; GoTime.lit " ";
     GoTime.stdLongYear].
Proof. reflexivity. Qed.

Example chunks_day_first : GoTime.chunks "02-Jan-2006"
  = [GoTime.stdZeroDay; GoTime.lit "-"; GoTime.stdMonth; GoTime.lit "-"; GoTime.stdLongYear].
Proof. reflexivity. Qed.

Example chunks_short : GoTime.chunks "1/2/06"
  = [GoTime.stdNumMonth; GoTime.lit "/"; GoTime.stdDay; GoTime.lit "/"; GoTime.stdYear].
Proof. reflexivity. Qed.

Example Parse_two_digit_year_1969 :
  GoTime.Parse "01/02/06" "12/31/69" = Some (GoTime.Date 1969 12 31 0 0 0 0).
Proof. reflexivity. Qed.

Example conyHistory_stats :
  Models.Stats conyHistory
  = {| Models.TotalPayments := 2; Models.AverageAmount := 0.625%float;
       Models.LastAmount := 0.75%float; Models.YearToDateTotal := 0.75%float;
       Models.TrailingYearTotal := 1.25%float; Models.ChangePercent := 50%float |}.
Proof. reflexivity. Qed.

Example full_parseAmount_cents : FullScraper.parseAmount "53" = 0.53%float.
Proof. reflexivity. Qed.

Example Set_refuses_nan :
  fst (Cache.Set_ fmpCache "k" (Cache.JNumber PrimFloat.nan) noon0601 ∅) = Some Cache.ErrEncode.
Proof. vm_compute. reflexivity. Qed.

(** ** The calendar *)

Section Calendar.

Import GoTime.

Lemma allFrom_spec (P : Z -> bool) (n : nat) :
  forall i, allFrom P i n = true -> forall j, i <= j < i + Z.of_nat n -> P j = true.
Proof.
  induction n as [|k IH]; intros i H j Hj; [lia|].
  cbn [allFrom] in H. apply andb_true_iff in H as [Hi Hrest].
  destruct (Z.eq_dec j i) as [->|Hne]; [exact Hi|].
  apply (IH (i + 1)); [exact Hrest | lia].
Qed.

Lemma cycle_checked : allFrom checkDay 0 (Z.to_nat daysPer400Years) = true.
Proof. vm_compute. reflexivity. Qed.

Lemma isLeap_period (y k : Z) : isLeap (y + 400 * k) = isLeap y.
Proof.
  unfold isLeap.
  replace ((y + 400 * k) mod 4) with (y mod 4)
    by (replace (y + 400 * k) with (y + (100 * k) * 4) by lia; now rewrite Z_mod_plus_full).
  replace ((y + 400 * k) mod 100) with (y mod 100)
    by (replace (y + 400 * k) with (y + (4 * k) * 100) by lia; now rewrite Z_mod_plus_full).
  replace ((y + 400 * k) mod 400) with (y mod 400)
    by (replace (y + 400 * k) with (y + k * 400) by lia; now rewrite Z_mod_plus_full).
  reflexivity.
Qed.

Lemma daysSinceEpoch_period (y k : Z) :
  daysSinceEpoch (y + 400 * k) = daysSinceEpoch y + daysPer400Years * k.
Proof.
  unfold daysSinceEpoch, daysPer400Years. cbv zeta.
  replace (y + 400 * k - 1) with (y - 1 + k * 400) by lia.
  rewrite Z.div_add by lia.
  replace (y - 1 + k * 400 - 400 * ((y - 1) / 400 + k)) with (y - 1 - 400 * ((y - 1) / 400)) by lia.
  lia.
Qed.

Lemma dateDays_period (y m d k : Z) :
  dateDays (y + 400 * k) m d = dateDays y m d + daysPer400Years * k.
Proof.
  unfold dateDays. cbv zeta.
  replace (y + 400 * k + (m - 1) / 12) with (y + (m - 1) / 12 + 400 * k) by lia.
  rewrite daysSinceEpoch_period, isLeap_period.
  destruct (isLeap (y + (m - 1) / 12) && (3 <=? (m - 1) mod 12 + 1)); lia.
Qed.

Lemma dateDays_add_day (y m d k : Z) : dateDays y m (d + k) = dateDays y m d + k.
Proof.
  unfold dateDays. cbv zeta.
  destruct (isLeap (y + (m - 1) / 12) && (3 <=? (m - 1) mod 12 + 1)); lia.
Qed.

Lemma absDate_period (n k : Z) :
  absDate (n + daysPer400Years * k)
  = let '(y, m, d) := absDate n in (y + 400 * k, m, d).
Proof.
  unfold absDate, daysPer400Years. cbv zeta.
  replace (n + 146097 * k) with (n + k * 146097) by lia.
  rewrite Z.div_add by lia.
  replace (n + k * 146097 - 146097 * (n / 146097 + k)) with (n - 146097 * (n / 146097)) by lia.
  set (d0 := n - 146097 * (n / 146097)).
  set (n1 := d0 / daysPer100Years - d0 / daysPer100Years / 4).
  set (d1 := d0 - daysPer100Years * n1).
  set (n2 := d1 / daysPer4Years).
  set (d2 := d1 - daysPer4Years * n2).
  set (n3 := d2 / 365 - d2 / 365 / 4).
  set (d3 := d2 - 365 * n3).
  replace (400 * (n / 146097 + k) + 100 * n1 + 4 * n2 + n3 + 1)
    with (400 * (n / 146097) + 100 * n1 + 4 * n2 + n3 + 1 + 400 * k) by lia.
  rewrite isLeap_period.
  set (yr := 400 * (n / 146097) + 100 * n1 + 4 * n2 + n3 + 1).
  destruct (isLeap yr && (d3 =? 31 + 29 - 1)); [reflexivity|].
  set (day := if isLeap yr && (31 + 29 - 1 <? d3) then d3 - 1 else d3).
  destruct (daysBefore (day / 31 + 1) <=? day); reflexivity.
Qed.

Lemma checkDay_cycle (r : Z) : 0 <= r < daysPer400Years -> checkDay r = true.
Proof.
  intros Hr. apply (allFrom_spec _ _ _ cycle_checked).
  unfold daysPer400Years in *. lia.
Qed.

(** A day number and the civil date [absDate] gives for it. *)
Lemma absDate_valid (n : Z) :
  let '(y, m, d) := absDate n in
  dateDays y m d = n /\ 1 <= m <= 12 /\ 1 <= d <= daysIn m y.
Proof.
  pose proof (Z.mod_pos_bound n daysPer400Years ltac:(unfold daysPer400Years; lia)) as Hr.
  pose proof (checkDay_cycle _ Hr) as Hc.
  pose proof (absDate_period (n mod daysPer400Years) (n / daysPer400Years)) as Hp.
  replace (n mod daysPer400Years + daysPer400Years * (n / daysPer400Years)) with n in Hp
    by (pose proof (Z.div_mod n daysPer400Years ltac:(unfold daysPer400Years; lia)); lia).
  rewrite Hp. unfold checkDay in Hc.
  destruct (absDate (n mod daysPer400Years)) as [[y m] d].
  rewrite !andb_true_iff in Hc. destruct Hc as [[[[H1 H2] H3] H4] H5].
  rewrite dateDays_period.
  apply Z.eqb_eq in H1. apply Z.leb_le in H2, H3, H4, H5.
  split; [|split]; [ | lia | ].
  - pose proof (Z.div_mod n daysPer400Years ltac:(unfold daysPer400Years; lia)). lia.
  - unfold daysIn in *. rewrite isLeap_period. lia.
Qed.

Lemma Date_midnight_clock (y m d c : Z) :
  Date y m d 0 0 0 c = dateDays y m d * nsPerDay + c.
Proof. unfold Date, nsPerDay. cbv zeta. lia. Qed.

(** Adding days moves the instant by as many days. *)
Lemma AddDate_days (t k : Z) : AddDate t 0 0 k = t + k * nsPerDay.
Proof.
  unfold AddDate, civil.
  pose proof (absDate_valid (t / nsPerDay)) as Hv.
  destruct (absDate (t / nsPerDay)) as [[y m] d]. destruct Hv as [Hd _].
  rewrite !Z.add_0_r, Date_midnight_clock, dateDays_add_day, Hd.
  pose proof (Z.div_mod t nsPerDay ltac:(unfold nsPerDay, secondsPerDay, nsPerSecond; lia)).
  lia.
Qed.

(** Adding 2000 years moves the instant by five 400-year cycles. *)
Lemma AddDate_2000 (t : Z) : AddDate t 2000 0 0 = t + 5 * daysPer400Years * nsPerDay.
Proof.
  unfold AddDate, civil.
  pose proof (absDate_valid (t / nsPerDay)) as Hv.
  destruct (absDate (t / nsPerDay)) as [[y m] d]. destruct Hv as [Hd _].
  rewrite !Z.add_0_r, Date_midnight_clock.
  replace (y + 2000) with (y + 400 * 5) by lia.
  rewrite dateDays_period, Hd.
  pose proof (Z.div_mod t nsPerDay ltac:(unfold nsPerDay, secondsPerDay, nsPerSecond; lia)).
  lia.
Qed.

Lemma Year_AddDate_2000 (t : Z) : Year (AddDate t 2000 0 0) = Year t + 2000.
Proof.
  rewrite AddDate_2000. unfold Year, civil.
  replace (t + 5 * daysPer400Years * nsPerDay) with (t + (5 * daysPer400Years) * nsPerDay) by lia.
  rewrite Z.div_add by (unfold nsPerDay, secondsPerDay, nsPerSecond; lia).
  replace (t / nsPerDay + 5 * daysPer400Years) with (t / nsPerDay + daysPer400Years * 5) by lia.
  rewrite absDate_period.
  destruct (absDate (t / nsPerDay)) as [[y m] d]. cbn. lia.
Qed.

End Calendar.

(** ** C1: the file cache, Get and Set *)

Section FileCache.

Import GoTime Cache.

Variables (fc : FileCache) (key : string) (target : goType) (now : Time).
Variable locked : gset string.
Variable fs : gmap string file.

Lemma Get_absent :
  fs !! getCacheFilePath fc key = None ->
  Get fc key target now locked fs
  = {| found := false; err := None; stored := None; files := fs |}.
Proof. intros H. unfold Get. cbv zeta. now rewrite H. Qed.

Lemma Get_unreadable (f : file) :
  fs !! getCacheFilePath fc key = Some f -> accessible f = false ->
  Get fc key target now locked fs
  = {| found := false; err := Some (ErrOpen (getCacheFilePath fc key)); stored := None;
       files := fs |}.
Proof. intros H Ha. unfold Get. cbv zeta. now rewrite H, Ha. Qed.

Lemma Get_undecodable (f : file) (raw : string) :
  fs !! getCacheFilePath fc key = Some f -> accessible f = true ->
  body f = Undecodable raw ->
  Get fc key target now locked fs
  = {| found := false; err := None; stored := None;
       files := if decide (getCacheFilePath fc key ∈ locked) then fs
                else delete (getCacheFilePath fc key) fs |}.
Proof.
  intros H Ha Hb. unfold Get, Remove. cbv zeta. rewrite H, Ha, Hb. cbn [negb].
  now destruct (decide (getCacheFilePath fc key ∈ locked)).
Qed.

Lemma Get_expired (f : file) (e : CacheEntry) :
  fs !! getCacheFilePath fc key = Some f -> accessible f = true -> body f = Encoded e ->
  After now (ExpiresAt e) = true ->
  Get fc key target now locked fs
  = {| found := false; err := None; stored := None;
       files := if decide (getCacheFilePath fc key ∈ locked) then fs
                else delete (getCacheFilePath fc key) fs |}.
Proof.
  intros H Ha Hb He. unfold Get, Remove. cbv zeta. rewrite H, Ha, Hb, He. cbn [negb].
  now destruct (decide (getCacheFilePath fc key ∈ locked)).
Qed.

Lemma Get_mismatch (f : file) (e : CacheEntry) :
  fs !! getCacheFilePath fc key = Some f -> accessible f = true -> body f = Encoded e ->
  After now (ExpiresAt e) = false -> unmarshals target (Data e) = false ->
  Get fc key target now locked fs
  = {| found := false; err := Some ErrUnmarshal; stored := None; files := fs |}.
Proof. intros H Ha Hb He Hu. unfold Get. cbv zeta. now rewrite H, Ha, Hb, He, Hu. Qed.

Lemma Get_hit (f : file) (e : CacheEntry) :
  fs !! getCacheFilePath fc key = Some f -> accessible f = true -> body f = Encoded e ->
  After now (ExpiresAt e) = false -> unmarshals target (Data e) = true ->
  Get fc key target now locked fs
  = {| found := true; err := None; stored := Some (Data e); files := fs |}.
Proof. intros H Ha Hb He Hu. unfold Get. cbv zeta. now rewrite H, Ha, Hb, He, Hu. Qed.

Lemma Get_found_iff :
  found (Get fc key target now locked fs) = true <-> hitCondition fc key target now fs.
Proof.
  unfold hitCondition. split.
  - intros Hf.
    destruct (fs !! getCacheFilePath fc key) as [f|] eqn:H;
      [|rewrite (Get_absent H) in Hf; discriminate].
    destruct (accessible f) eqn:Ha; [|rewrite (Get_unreadable f H Ha) in Hf; discriminate].
    destruct (body f) as [e|raw] eqn:Hb;
      [|rewrite (Get_undecodable f raw H Ha Hb) in Hf; discriminate].
    destruct (After now (ExpiresAt e)) eqn:He;
      [rewrite (Get_expired f e H Ha Hb He) in Hf; discriminate|].
    destruct (unmarshals target (Data e)) eqn:Hu;
      [|rewrite (Get_mismatch f e H Ha Hb He Hu) in Hf; discriminate].
    exists f, e. auto.
  - intros (f & e & H & Ha & Hb & He & Hu). now rewrite (Get_hit f e H Ha Hb He Hu).
Qed.

End FileCache.

Section SetThenGet.

Import GoTime Cache.

Lemma Set_stores (fc : FileCache) (key : string) (data : json) (now : Time)
    (fs : gmap string file) :
  fst (Set_ fc key data now fs) = None ->
  snd (Set_ fc key data now fs) !! getCacheFilePath fc key
  = Some {| body := Encoded {| Data := data; CreatedAt := now;
                               ExpiresAt := now + ttl fc; Key := key |};
            accessible := true |}.
Proof.
  unfold Set_. cbv zeta.
  destruct (match fs !! getCacheFilePath fc key with Some f => accessible f | None => true end);
    [|discriminate].
  destruct (dataEncodes data && timeEncodes _ && timeEncodes _); [|discriminate].
  intros _. cbn [snd]. apply lookup_insert_eq.
Qed.

End SetThenGet.

(** C1 (as the code has it): [Get] reports a hit, with a nil error and the
    stored data put into the target, if and only if the cache file of the key
    exists and can be opened, decodes as a cache entry, the current time is
    not after the entry's [ExpiresAt] and the entry's data unmarshals into
    the target.  When the file is absent, undecodable or expired, [Get]
    returns false and a nil error; it calls [os.Remove] on the undecodable or
    expired file and drops the result, so the file is gone afterwards unless
    the system refuses the removal, and then it stays.  When the data does
    not fit the target, or the file cannot be opened, it returns false with
    an error and leaves the file.  [Set] stores an entry whose [ExpiresAt] is
    the time of the write plus the TTL. *)
Theorem Get_hit_iff
    (fc : Cache.FileCache) (key : string) (target : Cache.goType) (now : GoTime.Time)
    (locked : gset string) (fs : gmap string Cache.file) :
  let path := Cache.getCacheFilePath fc key in
  let r := Cache.Get fc key target now locked fs in
  (Cache.found r = true <-> hitCondition fc key target now fs)
  /\ (forall f e,
        fs !! path = Some f -> Cache.accessible f = true -> Cache.body f = Cache.Encoded e ->
        GoTime.After now (Cache.ExpiresAt e) = false ->
        Cache.unmarshals target (Cache.Data e) = true ->
        r = {| Cache.found := true; Cache.err := None;
               Cache.stored := Some (Cache.Data e); Cache.files := fs |})
  /\ (fs !! path = None ->
      r = {| Cache.found := false; Cache.err := None; Cache.stored := None;
             Cache.files := fs |})
  /\ (forall f raw,
        fs !! path = Some f -> Cache.accessible f = true ->
        Cache.body f = Cache.Undecodable raw ->
        r = {| Cache.found := false; Cache.err := None; Cache.stored := None;
               Cache.files := if decide (path ∈ locked) then fs else delete path fs |})
  /\ (forall f e,
        fs !! path = Some f -> Cache.accessible f = true -> Cache.body f = Cache.Encoded e ->
        GoTime.After now (Cache.ExpiresAt e) = true ->
        r = {| Cache.found := false; Cache.err := None; Cache.stored := None;
               Cache.files := if decide (path ∈ locked) then fs else delete path fs |})
  /\ (forall f e,
        fs !! path = Some f -> Cache.accessible f = true -> Cache.body f = Cache.Encoded e ->
        GoTime.After now (Cache.ExpiresAt e) = false ->
        Cache.unmarshals target (Cache.Data e) = false ->
        r = {| Cache.found := false; Cache.err := Some Cache.ErrUnmarshal;
               Cache.stored := None; Cache.files := fs |})
  /\ (forall f,
        fs !! path = Some f -> Cache.accessible f = false ->
        r = {| Cache.found := false; Cache.err := Some (Cache.ErrOpen path);
               Cache.stored := None; Cache.files := fs |})
  /\ (forall data written,
        fst (Cache.Set_ fc key data written fs) = None ->
        snd (Cache.Set_ fc key data written fs) !! path
        = Some {| Cache.body :=
                    Cache.Encoded {| Cache.Data := data; Cache.CreatedAt := written;
                                     Cache.ExpiresAt := written + Cache.ttl fc;
                                     Cache.Key := key |};
                  Cache.accessible := true |}).
Proof.
  cbv zeta. split; [apply Get_found_iff|].
  split; [apply Get_hit|]. split; [apply Get_absent|].
  split; [apply Get_undecodable|]. split; [apply Get_expired|].
  split; [apply Get_mismatch|]. split; [apply Get_unreadable|].
  intros data written. apply Set_stores.
Qed.

(** C1 as stated fails: an entry that exists, decodes and has not expired is
    no hit when its data (a string) does not fit the target (a slice); [Get]
    returns false with an error. *)
Lemma Get_fresh_entry_no_hit :
  freshEntry fmpCache "dividend_history_TSLY_1" (noon0601 + hour) textEntry
  /\ Cache.Get fmpCache "dividend_history_TSLY_1" (Cache.TSlice Cache.TString)
       (noon0601 + hour) ∅ textEntry
     = {| Cache.found := false; Cache.err := Some Cache.ErrUnmarshal;
          Cache.stored := None; Cache.files := textEntry |}
  /\ ~ (Cache.found
          (Cache.Get fmpCache "dividend_history_TSLY_1" (Cache.TSlice Cache.TString)
             (noon0601 + hour) ∅ textEntry) = true
        <-> freshEntry fmpCache "dividend_history_TSLY_1" (noon0601 + hour) textEntry).
Proof.
  assert (freshEntry fmpCache "dividend_history_TSLY_1" (noon0601 + hour) textEntry) as Hfresh.
  { eexists _, _. split; [vm_compute; reflexivity|]. split; reflexivity. }
  assert (Cache.Get fmpCache "dividend_history_TSLY_1" (Cache.TSlice Cache.TString)
            (noon0601 + hour) ∅ textEntry
          = {| Cache.found := false; Cache.err := Some Cache.ErrUnmarshal;
               Cache.stored := None; Cache.files := textEntry |}) as Hget.
  { eapply Get_mismatch; [vm_compute; reflexivity | reflexivity..]. }
  split; [exact Hfresh|]. split; [exact Hget|].
  rewrite Hget. cbn [Cache.found]. intros [_ H]. specialize (H Hfresh). discriminate.
Qed.

Lemma Get_hit_iff_witness :
  Cache.found
    (Cache.Get fmpCache "dividend_history_TSLY_1" Cache.TAny (noon0601 + hour) ∅ textEntry)
  = true
  /\ Cache.files
       (Cache.Get fmpCache "dividend_history_TSLY_1" Cache.TAny (noon0601 + 13 * hour) ∅
          textEntry)
     = delete (Cache.getCacheFilePath fmpCache "dividend_history_TSLY_1") textEntry
  /\ Cache.files
       (Cache.Get fmpCache "dividend_history_TSLY_1" Cache.TAny (noon0601 + 13 * hour)
          {[ Cache.getCacheFilePath fmpCache "dividend_history_TSLY_1" ]} textEntry)
     = textEntry.
Proof.
  pose proof (Get_hit_iff fmpCache "dividend_history_TSLY_1" Cache.TAny (noon0601 + hour) ∅
                textEntry) as H1.
  pose proof (Get_hit_iff fmpCache "dividend_history_TSLY_1" Cache.TAny (noon0601 + 13 * hour)
                ∅ textEntry) as H2.
  pose proof (Get_hit_iff fmpCache "dividend_history_TSLY_1" Cache.TAny (noon0601 + 13 * hour)
                {[ Cache.getCacheFilePath fmpCache "dividend_history_TSLY_1" ]} textEntry)
    as H3.
  cbv zeta in H1, H2, H3. split; [|split].
  - apply (proj1 H1). eexists _, _. split; [vm_compute; reflexivity|]. repeat split.
  - destruct H2 as (_ & _ & _ & _ & H2 & _).
    erewrite H2; [|vm_compute; reflexivity | reflexivity..]. cbn [Cache.files].
    apply decide_False, not_elem_of_empty.
  - destruct H3 as (_ & _ & _ & _ & H3 & _).
    erewrite H3; [|vm_compute; reflexivity | reflexivity..]. cbn [Cache.files].
    apply decide_True. now apply elem_of_singleton.
Defined.

(** ** C2: the retry loop of the worker *)

Section Worker.

Import Models Batch.

Lemma retryLoop_calls (fuel : nat) (scrape : nat -> scrapeOutcome) :
  forall attempt history err calls,
    let '(_, _, calls') := retryLoop fuel attempt scrape history err calls in
    (calls <= calls' <= calls + fuel)%nat.
Proof.
  induction fuel as [|fuel IH]; intros attempt history err calls; cbn [retryLoop]; [lia|].
  destruct (scrape attempt) as [h|msg]; [lia|].
  specialize (IH (S attempt) None (Some msg) (S calls)).
  destruct (retryLoop fuel (S attempt) scrape None (Some msg) (S calls)) as [[? ?] calls'].
  lia.
Qed.

(** X1: for every symbol the worker makes at most two calls of the scraper. *)
Lemma workerJob_at_most_two (sym : string) (scrape : nat -> scrapeOutcome) :
  (snd (workerJob sym scrape) <= 2)%nat.
Proof.
  unfold workerJob.
  pose proof (retryLoop_calls retryAttempts scrape 0%nat None None 0%nat) as H.
  destruct (retryLoop retryAttempts 0 scrape None None 0) as [[history err] calls].
  cbn [snd]. unfold retryAttempts in H. lia.
Qed.

(** X2: the worker reports an error for a symbol if and only if its first
    two calls of the scraper both fail. *)
Lemma workerJob_failure (sym : string) (scrape : nat -> scrapeOutcome) :
  err (fst (workerJob sym scrape)) <> None <->
  (exists m0 m1, scrape 0%nat = ScrapeErr m0 /\ scrape 1%nat = ScrapeErr m1).
Proof.
  unfold workerJob, retryAttempts. cbn [retryLoop].
  destruct (scrape 0%nat) as [h0|m0]; cbn [fst err].
  - split; [congruence | intros (? & ? & [=] & _)].
  - destruct (scrape 1%nat) as [h1|m1]; cbn [fst err].
    + split; [congruence | intros (? & ? & _ & [=])].
    + split; [eauto | discriminate].
Qed.

(** Without an error the worker sends a history. *)
Lemma workerJob_wellFormed (sym : string) (scrape : nat -> scrapeOutcome) :
  wellFormed (fst (workerJob sym scrape)).
Proof.
  unfold wellFormed, workerJob, retryAttempts. cbn [retryLoop].
  destruct (scrape 0%nat) as [h0|m0]; cbn [fst err history]; [discriminate|].
  destruct (scrape 1%nat) as [h1|m1]; cbn [fst err history]; discriminate.
Qed.

End Worker.

(** C2 (the code at the failing input): for a symbol whose scrape fails
    twice and would succeed at a third attempt, the worker calls the scraper
    twice and reports the failure; [retryAttempts] is 2, and the loop makes
    that many attempts in all. *)
Lemma worker_gives_up_after_two_attempts :
  Batch.workerJob "CONY" thirdTimeLucky
  = ({| Batch.symbol := "CONY"; Batch.history := None; Batch.err := Some "timeout" |}, 2%nat)
  /\ thirdTimeLucky 2%nat = Batch.ScrapeOk conyHistory
  /\ Batch.retryAttempts = 2%nat.
Proof. split; [|split]; reflexivity. Qed.

(** ** C3: the amount parsers *)

Section Amounts.

Import GoTime GoStrings GoFloat Models TableScraper.

Lemma zero_not_positive : gt zero zero = false.
Proof. reflexivity. Qed.

Lemma parseAmount_cases (str : string) :
  (parseAmount str = zero) \/
  (inBounds (parseAmount str) = true /\
   exists m, findNumber (removeAll "," (TrimPrefix (TrimSpace str) "$")) = Some m
             /\ ParseFloat m = Some (parseAmount str)).
Proof.
  unfold parseAmount. cbv zeta.
  destruct (findNumber _) as [m|] eqn:Em; [|now left].
  destruct (ParseFloat m) as [amount|] eqn:Ea; [|now left].
  destruct (gt amount zero && lt amount 10%float) eqn:Eb; [|now left].
  right. split; [exact Eb|]. exists m. split; [reflexivity | exact Ea].
Qed.

Lemma parseAmount_positive_inBounds (str : string) :
  gt (parseAmount str) zero = true -> inBounds (parseAmount str) = true.
Proof.
  intros H. destruct (parseAmount_cases str) as [E | [E _]]; [|exact E].
  rewrite E, zero_not_positive in H. discriminate.
Qed.

Lemma scanCells_amountOk (now : Time) (texts : list string) :
  forall i event, amountOk event -> amountOk (scanCells now texts i event).
Proof.
  induction texts as [|text texts IH]; intros i event Hok; cbn [scanCells]; [exact Hok|].
  apply IH. cbv zeta.
  destruct (gt (parseAmount text) zero && PrimFloat.eqb (Amount event) zero) eqn:E.
  - apply andb_true_iff in E as [E _]. unfold amountOk, setAmount. cbn.
    intros _. now apply parseAmount_positive_inBounds.
  - destruct (negb (IsZero (parseDate now text))); [|exact Hok].
    destruct (IsZero (ExDate event)); [exact Hok|].
    destruct (IsZero (PayDate event) && (0 <? i)%nat); exact Hok.
Qed.

Lemma parseDividendRow_amount (now : Time) (cells : list string) (symbol : string)
    (e : DividendEvent) :
  parseDividendRow now cells symbol = Some e -> inBounds (Amount e) = true.
Proof.
  unfold parseDividendRow. cbv zeta.
  set (ev := if (6 <=? length (map TrimSpace cells))%nat then _ else _).
  assert (amountOk ev) as Hok.
  { subst ev. destruct (6 <=? length (map TrimSpace cells))%nat.
    - unfold amountOk. cbn. apply parseAmount_positive_inBounds.
    - destruct (4 <=? length (map TrimSpace cells))%nat.
      + apply scanCells_amountOk. unfold amountOk. cbn [Amount emptyEvent].
        rewrite zero_not_positive. discriminate.
      + unfold amountOk. cbn [Amount emptyEvent]. rewrite zero_not_positive. discriminate. }
  destruct (gt (Amount ev) zero && negb (IsZero (ExDate ev))) eqn:E; [|discriminate].
  apply andb_true_iff in E as [E _]. intros [= <-].
  destruct (IsZero (PayDate ev)); destruct (IsZero (DeclareDate _) && _); cbn; now apply Hok.
Qed.

End Amounts.

(** C3 (as the code has it): in the DividendTableScraper the amount parser
    trims its input, strips a leading dollar sign and the commas, takes the
    first run of digits with an optional fraction, and yields that number
    only when it is positive and below 10, and zero otherwise; so every
    dividend event that [parseDividendRow] of this scraper produces has an
    amount that is positive and below 10. *)
Theorem table_parseAmount_bounds :
  (forall str : string,
     TableScraper.parseAmount str = GoFloat.zero \/
     (inBounds (TableScraper.parseAmount str) = true /\
      exists m,
        GoStrings.findNumber
          (GoStrings.removeAll "," (GoStrings.TrimPrefix (GoStrings.TrimSpace str) "$")) = Some m
        /\ GoFloat.ParseFloat m = Some (TableScraper.parseAmount str)))
  /\ (forall now cells symbol e,
        TableScraper.parseDividendRow now cells symbol = Some e ->
        inBounds (Models.Amount e) = true).
Proof.
  split; [exact parseAmount_cases | exact parseDividendRow_amount].
Qed.

Lemma table_parseAmount_bounds_witness :
  TableScraper.parseDividendRow noon0601 conyRow "CONY" = Some conyEvent
  /\ inBounds (Models.Amount conyEvent) = true.
Proof.
  assert (TableScraper.parseDividendRow noon0601 conyRow "CONY" = Some conyEvent) as Hrow
    by (vm_compute; reflexivity).
  split; [exact Hrow|].
  exact (proj2 table_parseAmount_bounds noon0601 conyRow "CONY" conyEvent Hrow).
Defined.

(** C3 as stated fails: the amount parser of the ETF detail scraper only
    strips the non-numeric characters, and its row parser produces an event
    of 15 dollars. *)
Lemma detail_row_amount_15 :
  DetailScraper.parseAmount "$15.00" = Some 15%float
  /\ exists e,
       DetailScraper.parseDividendRow ["03/15/2024"; "$15.00"; "n/a"] "TSLY" = Some e
       /\ Models.Amount e = 15%float
       /\ inBounds (Models.Amount e) = false
       /\ GoFloat.lt (Models.Amount e) 10%float = false.
Proof.
  split; [reflexivity|]. eexists. split; [vm_compute; reflexivity|].
  split; [reflexivity|]. split; reflexivity.
Qed.

(** ** C4: the date parser of the table scraper *)

Section ParseDate.

Import GoTime GoStrings TableScraper.

Lemma Year_zeroTime : Year zeroTime = 1.
Proof. reflexivity. Qed.

Lemma IsZero_true (t : Time) : IsZero t = true <-> t = zeroTime.
Proof. unfold IsZero, zeroTime. apply Z.eqb_eq. Qed.

Lemma Year_adjustYear (t : Time) :
  Year (adjustYear t) = if Year t <? 100 then Year t + 2000 else Year t.
Proof.
  unfold adjustYear. destruct (Year t <? 100) eqn:E; [apply Year_AddDate_2000 | reflexivity].
Qed.

Lemma yearInRange_spec (now t : Time) :
  yearInRange now (adjustYear t) = true <-> 2020 <= adjustedYear t <= Year now + 1.
Proof.
  unfold yearInRange, adjustedYear. cbv zeta. rewrite Year_adjustYear.
  rewrite andb_true_iff, Z.leb_le, Z.leb_le. reflexivity.
Qed.

Lemma yearInRange_nonzero (now t : Time) : yearInRange now t = true -> IsZero t = false.
Proof.
  unfold yearInRange. cbv zeta. rewrite andb_true_iff, Z.leb_le. intros [H _].
  destruct (IsZero t) eqn:E; [|reflexivity].
  apply IsZero_true in E. subst t. rewrite Year_zeroTime in H. lia.
Qed.

Lemma tryFormats_nonzero_iff (fs : list string) (now : Time) (str : string) :
  IsZero (tryFormats fs now str) = false <->
  exists format t, In format fs /\ Parse format str = Some t /\
                   2020 <= adjustedYear t <= Year now + 1.
Proof.
  induction fs as [|format fs IH]; cbn [tryFormats].
  - split; [discriminate | intros (f & t & [] & _)].
  - destruct (Parse format str) as [t|] eqn:EP.
    + destruct (yearInRange now (adjustYear t)) eqn:ER.
      * split; [intros _ | intros _; eapply yearInRange_nonzero; eauto].
        exists format, t. split; [now left|]. split; [exact EP|].
        now apply yearInRange_spec.
      * rewrite IH. split.
        -- intros (f & u & Hin & Hp & Hr). exists f, u. split; [now right | auto].
        -- intros (f & u & [Heq | Hin] & Hp & Hr).
           ++ subst f. rewrite EP in Hp. injection Hp as <-.
              apply yearInRange_spec in Hr. congruence.
           ++ exists f, u. auto.
    + rewrite IH. split.
      * intros (f & u & Hin & Hp & Hr). exists f, u. split; [now right | auto].
      * intros (f & u & [Heq | Hin] & Hp & Hr); [subst f; congruence|].
        exists f, u. auto.
Qed.

End ParseDate.

(** C4: [parseDate] returns a non-zero time if and only if its trimmed input
    parses under one of the eight layouts (MM/DD/YYYY, M/D/YYYY, YYYY-MM-DD,
    the two spelled-month forms, DD-Mon-YYYY and the two forms with a
    two-digit year) to a time whose year, after 2000 is added to a year
    below 100, lies between 2020 and the current year plus one; for every
    other input it returns the zero time. *)
Theorem parseDate_nonzero_iff (now : GoTime.Time) (str : string) :
  let accepted :=
    exists format t,
      In format TableScraper.formats
      /\ GoTime.Parse format (GoStrings.TrimSpace str) = Some t
      /\ 2020 <= adjustedYear t <= GoTime.Year now + 1 in
  TableScraper.formats
  = ["01/02/2006"; "1/2/2006"; "2006-01-02"; "Jan 2, 2006"; "January 2, 2006";
     "02-Jan-2006"; "01/02/06"; "1/2/06"]
  /\ (GoTime.IsZero (TableScraper.parseDate now str) = false <-> accepted)
  /\ (~ accepted -> TableScraper.parseDate now str = GoTime.zeroTime).
Proof.
  cbv zeta. split; [reflexivity|].
  pose proof (tryFormats_nonzero_iff TableScraper.formats now (GoStrings.TrimSpace str)) as H.
  split; [exact H|].
  intros Hno. apply IsZero_true.
  destruct (GoTime.IsZero (TableScraper.parseDate now str)) eqn:E; [reflexivity|].
  exfalso. apply Hno, H. exact E.
Qed.

Lemma parseDate_nonzero_iff_witness :
  (exists format t,
     In format TableScraper.formats
     /\ GoTime.Parse format (GoStrings.TrimSpace " 03/15/2024 ") = Some t
     /\ 2020 <= adjustedYear t <= GoTime.Year noon0601 + 1)
  /\ GoTime.IsZero (TableScraper.parseDate noon0601 " 03/15/2024 ") = false.
Proof.
  assert (exists format t,
            In format TableScraper.formats
            /\ GoTime.Parse format (GoStrings.TrimSpace " 03/15/2024 ") = Some t
            /\ 2020 <= adjustedYear t <= GoTime.Year noon0601 + 1) as Hacc.
  { exists "01/02/2006", (GoTime.Date 2024 3 15 0 0 0 0).
    split; [now left|]. split; [vm_compute; reflexivity|].
    vm_compute. split; discriminate. }
  split; [exact Hacc|].
  exact (proj2 (proj1 (proj2 (parseDate_nonzero_iff noon0601 " 03/15/2024 "))) Hacc).
Defined.

(** ** C5: the rate limiter and the clients *)

Section Limiter.

Import Api.

Lemma limiterStep_capacity (rl rl' : RateLimiter) (ev : limiterEvent) :
  limiterStep rl ev = Some rl' -> (tokens rl <= capacity rl)%nat ->
  capacity rl' = capacity rl /\ (tokens rl' <= capacity rl')%nat.
Proof.
  destruct ev; cbn [limiterStep].
  - destruct (tokens rl <? capacity rl)%nat eqn:E; intros [= <-] H; cbn; [|auto].
    apply Nat.ltb_lt in E. lia.
  - destruct (tokens rl) as [|n] eqn:E; [discriminate|]. intros [= <-] H. cbn. lia.
Qed.

(** Tokens are neither created nor lost: every acquisition spends one, and a
    tick adds at most one. *)
Lemma limiterRun_budget (evs : list limiterEvent) :
  forall rl rl',
    limiterRun rl evs = Some rl' ->
    (tokens rl' + countAcquires evs <= tokens rl + countLimiterTicks evs)%nat.
Proof.
  unfold countAcquires, countLimiterTicks.
  induction evs as [|ev evs IH]; intros rl rl' H; cbn [limiterRun] in H.
  - injection H as <-. cbn. lia.
  - destruct (limiterStep rl ev) as [rl1|] eqn:E; [|discriminate].
    specialize (IH _ _ H). destruct ev; cbn [limiterStep] in E; cbn [List.filter length].
    + destruct (tokens rl <? capacity rl)%nat; injection E as <-; cbn in IH; lia.
    + destruct (tokens rl) as [|n] eqn:Et; [discriminate|]. injection E as <-. cbn in IH. lia.
Qed.

Lemma GetETFOverview_waits (symbol : string) (cached : cachedMetadata)
    (resp : httpOutcome string) :
  let tr := fst (GetETFOverview symbol cached resp) in
  tokenGuarded 0 tr = true /\ countRequests tr = countAcquires (limiterEvents tr)
  /\ countLimiterTicks (limiterEvents tr) = 0%nat.
Proof.
  unfold GetETFOverview. cbv zeta.
  destruct cached as [|[|]]; [| repeat split |];
    (destruct resp as [|status [respSymbol|]]; [repeat split | |];
     (destruct (negb (status =? StatusOK)); [repeat split|]);
     [destruct (String.eqb respSymbol "") |]; repeat split).
Qed.

Lemma session_budget (acts : list action) :
  forall rl rl' n,
    session rl acts = Some (rl', n) ->
    (tokens rl' + n <= tokens rl + countTicks acts)%nat.
Proof.
  unfold countTicks.
  induction acts as [|act acts IH]; intros rl rl' n H; cbn [session] in H.
  - injection H as <- <-. cbn. lia.
  - destruct act as [|symbol cached resp].
    + destruct (limiterStep rl Tick) as [rl1|] eqn:E; [|discriminate].
      specialize (IH _ _ _ H). cbn [limiterStep] in E. cbn [List.filter length].
      destruct (tokens rl <? capacity rl)%nat; injection E as <-; cbn in IH; lia.
    + destruct (limiterRun rl _) as [rl1|] eqn:E; [|discriminate].
      destruct (session rl1 acts) as [[rl2 m]|] eqn:Es; [|discriminate].
      injection H as <- <-. specialize (IH _ _ _ Es).
      pose proof (limiterRun_budget _ _ _ E) as Hb.
      destruct (GetETFOverview_waits symbol cached resp) as (_ & Hc & Ht).
      cbv zeta in Hc, Ht. rewrite <- Hc, Ht in Hb. cbn [List.filter length]. lia.
Qed.

End Limiter.

(** C5 (as the code has it): the Alpha Vantage client waits for a token of
    its rate limiter before every request it sends; the limiter is a bucket
    of 5 tokens to which a tick, once per minute, adds one token unless the
    bucket is full; so in any session the client sends at most 5 requests
    plus one per tick, that is, per minute elapsed. *)
Theorem alphaVantage_requests_limited :
  Api.alphaVantageLimiter
  = {| Api.tokens := 5; Api.capacity := 5; Api.interval := 60 * GoTime.nsPerSecond |}
  /\ (forall symbol cached resp,
        Api.tokenGuarded 0 (fst (Api.GetETFOverview symbol cached resp)) = true)
  /\ (forall rl : Api.RateLimiter,
        Api.limiterStep rl Api.Tick
        = Some {| Api.tokens := if (Api.tokens rl <? Api.capacity rl)%nat
                                then S (Api.tokens rl) else Api.tokens rl;
                  Api.capacity := Api.capacity rl; Api.interval := Api.interval rl |})
  /\ (forall acts rl n,
        Api.session Api.alphaVantageLimiter acts = Some (rl, n) ->
        (n <= 5 + Api.countTicks acts)%nat)
  /\ (forall acts rl n elapsed,
        Api.session Api.alphaVantageLimiter acts = Some (rl, n) ->
        Z.of_nat (Api.countTicks acts) <= elapsed / Api.interval Api.alphaVantageLimiter ->
        Z.of_nat n <= 5 + elapsed / (60 * GoTime.nsPerSecond)).
Proof.
  split; [reflexivity|]. split; [|split; [|split]].
  - intros symbol cached resp. apply GetETFOverview_waits.
  - intros rl. cbn [Api.limiterStep].
    destruct (Api.tokens rl <? Api.capacity rl)%nat; [reflexivity | now destruct rl].
  - intros acts rl n H. pose proof (session_budget _ _ _ _ H) as Hb.
    change (Api.tokens Api.alphaVantageLimiter) with 5%nat in Hb. lia.
  - intros acts rl n elapsed H Hticks. pose proof (session_budget _ _ _ _ H) as Hb.
    change (Api.tokens Api.alphaVantageLimiter) with 5%nat in Hb.
    change (Api.interval Api.alphaVantageLimiter) with (60 * GoTime.nsPerSecond) in Hticks.
    lia.
Qed.

Lemma alphaVantage_requests_limited_witness :
  Api.session Api.alphaVantageLimiter busyMinute
  = Some ({| Api.tokens := 0; Api.capacity := 5; Api.interval := 60 * GoTime.nsPerSecond |},
          6%nat)
  /\ (6 <= 5 + Api.countTicks busyMinute)%nat.
Proof.
  assert (Api.session Api.alphaVantageLimiter busyMinute
          = Some ({| Api.tokens := 0; Api.capacity := 5;
                     Api.interval := 60 * GoTime.nsPerSecond |}, 6%nat)) as Hrun
    by (vm_compute; reflexivity).
  split; [exact Hrun|].
  exact (proj1 (proj2 (proj2 (proj2 alphaVantage_requests_limited))) busyMinute _ _ Hrun).
Defined.

Example sixth_call_blocks :
  Api.session Api.alphaVantageLimiter
    [fetchSPY; fetchSPY; fetchSPY; fetchSPY; fetchSPY; fetchSPY] = None.
Proof. vm_compute. reflexivity. Qed.

(** C5 as stated fails for the FMP client: on a cache miss it sends its
    request without acquiring a token. *)
Lemma fmp_request_without_token :
  fst (Api.GetDividendHistory noon0601 "AAPL" 1 None (Api.Response 200 (Some [])))
  = [Api.CacheGet "dividend_history_AAPL_1";
     Api.Request Api.fmpURL "/historical-price-full/stock_dividend/" "AAPL";
     Api.CacheSet "dividend_history_AAPL_1"]
  /\ Api.tokenGuarded 0
       (fst (Api.GetDividendHistory noon0601 "AAPL" 1 None (Api.Response 200 (Some []))))
     = false.
Proof. split; vm_compute; reflexivity. Qed.

(** ** C6: the FMP dividend history *)

Section ParseISO.

Import GoTime.

Lemma digitVal_range (c : ascii) : isDigit c = true -> 0 <= digitVal c <= 9.
Proof.
  unfold isDigit, digitVal. cbv zeta. rewrite andb_true_iff, !Nat.leb_le. lia.
Qed.

Lemma getnum_range (s : string) (fixed : bool) (n : Z) (rest : string) :
  getnum s fixed = Some (n, rest) -> 0 <= n <= 99.
Proof.
  unfold getnum. destruct s as [|a s]; [discriminate|].
  destruct (isDigit a) eqn:Ea; [|discriminate].
  pose proof (digitVal_range a Ea).
  destruct s as [|b s].
  - destruct fixed; [discriminate|]. intros [= <- _]. lia.
  - destruct (isDigit b) eqn:Eb.
    + pose proof (digitVal_range b Eb). intros [= <- _]. lia.
    + destruct fixed; [discriminate|]. intros [= <- _]. lia.
Qed.

Lemma parseChunk_dash (f f' : fields) (v v' : string) :
  parseChunk (lit "-") f v = Some (f', v') -> f' = f.
Proof.
  cbn [parseChunk]. destruct v as [|a v]; [discriminate|].
  destruct (Ascii.eqb a "-"); [now intros [= <- _] | discriminate].
Qed.

Lemma parseChunk_longYear (f f' : fields) (v v' : string) :
  parseChunk stdLongYear f v = Some (f', v') ->
  0 <= f_year f' <= 9999 /\ f_month f' = f_month f /\ f_day f' = f_day f.
Proof.
  cbn [parseChunk].
  destruct v as [|a [|b [|c [|d v]]]]; try discriminate.
  destruct (isDigit a) eqn:Ea; [|discriminate].
  destruct (isDigit b) eqn:Eb; [|discriminate].
  destruct (isDigit c) eqn:Ec; [|discriminate].
  destruct (isDigit d) eqn:Ed; [|discriminate].
  cbn [andb]. intros [= <- _]. cbn [f_year f_month f_day].
  pose proof (digitVal_range a Ea). pose proof (digitVal_range b Eb).
  pose proof (digitVal_range c Ec). pose proof (digitVal_range d Ed). lia.
Qed.

Lemma parseChunk_zeroMonth (f f' : fields) (v v' : string) :
  parseChunk stdZeroMonth f v = Some (f', v') ->
  1 <= f_month f' <= 12 /\ f_year f' = f_year f /\ f_day f' = f_day f.
Proof.
  cbn [parseChunk].
  destruct (getnum v true) as [[m rest]|]; [|discriminate].
  destruct ((m <=? 0) || (12 <? m)) eqn:E; [discriminate|].
  apply orb_false_iff in E as [E1 E2]. apply Z.leb_gt in E1. apply Z.ltb_ge in E2.
  intros [= <- _]. cbn [f_year f_month f_day]. lia.
Qed.

Lemma parseChunk_zeroDay (f f' : fields) (v v' : string) :
  parseChunk stdZeroDay f v = Some (f', v') ->
  0 <= f_day f' /\ f_year f' = f_year f /\ f_month f' = f_month f.
Proof.
  cbn [parseChunk].
  destruct (getnum v true) as [[d rest]|] eqn:E; [|discriminate].
  pose proof (getnum_range _ _ _ _ E).
  intros [= <- _]. cbn [f_year f_month f_day]. lia.
Qed.

(** What the layout 2006-01-02 accepts is a day of the calendar. *)
Lemma Parse_iso_valid (s : string) (t : Time) :
  Parse "2006-01-02" s = Some t -> validDate t.
Proof.
  unfold Parse.
  change (chunks "2006-01-02")
    with [stdLongYear; lit "-"; stdZeroMonth; lit "-"; stdZeroDay].
  cbn [parseChunks].
  destruct (parseChunk stdLongYear fields0 s) as [[f1 s1]|] eqn:E1; [|discriminate].
  destruct (parseChunk (lit "-") f1 s1) as [[f2 s2]|] eqn:E2; [|discriminate].
  destruct (parseChunk stdZeroMonth f2 s2) as [[f3 s3]|] eqn:E3; [|discriminate].
  destruct (parseChunk (lit "-") f3 s3) as [[f4 s4]|] eqn:E4; [|discriminate].
  destruct (parseChunk stdZeroDay f4 s4) as [[f5 s5]|] eqn:E5; [|discriminate].
  destruct s5; [|discriminate].
  apply parseChunk_longYear in E1 as (Hy & _ & _).
  apply parseChunk_dash in E2 as ->.
  apply parseChunk_zeroMonth in E3 as (Hm & Hy3 & _).
  apply parseChunk_dash in E4 as ->.
  apply parseChunk_zeroDay in E5 as (Hd & Hy5 & Hm5).
  destruct (f_month f5 <? 0) eqn:Em; [apply Z.ltb_lt in Em; lia|].
  destruct (f_day f5 <? 0) eqn:Ed; [apply Z.ltb_lt in Ed; lia|].
  destruct ((f_day f5 <? 1) || (daysIn (f_month f5) (f_year f5) <? f_day f5)) eqn:Er;
    [discriminate|].
  apply orb_false_iff in Er as [Er1 Er2]. apply Z.ltb_ge in Er1, Er2.
  intros [= <-]. exists (f_year f5), (f_month f5), (f_day f5).
  repeat split; lia.
Qed.

End ParseISO.

Section FMP.

Import GoTime GoFloat Models Api.

Lemma filterMap_In {A B : Type} (f : A -> option B) (l : list A) (y : B) :
  In y (TableScraper.filterMap f l) <-> exists x, In x l /\ f x = Some y.
Proof.
  induction l as [|a l IH]; cbn [TableScraper.filterMap].
  - split; [contradiction | intros (x & [] & _)].
  - destruct (f a) as [b|] eqn:E.
    + cbn [In]. rewrite IH. split.
      * intros [<- | (x & Hx & Hf)]; [exists a; auto | exists x; auto].
      * intros (x & [<- | Hx] & Hf); [left; congruence | right; exists x; auto].
    + rewrite IH. split.
      * intros (x & Hx & Hf). exists x. split; [now right | exact Hf].
      * intros (x & [<- | Hx] & Hf); [congruence | exists x; auto].
Qed.

Lemma optionalDate_missing (s : string) : missingDate s -> optionalDate s = zeroTime.
Proof.
  unfold missingDate, optionalDate. intros [-> | H]; [reflexivity|].
  destruct (String.eqb s ""); [reflexivity | now rewrite H].
Qed.

Lemma shapeEvent_spec (symbol : string) (cutoffDate : Time) (div : FMPDividendResponse)
    (e : DividendEvent) :
  shapeEvent symbol cutoffDate div = Some e ->
  Symbol e = symbol
  /\ Parse "2006-01-02" (rDate div) = Some (ExDate e)
  /\ Before (ExDate e) cutoffDate = false
  /\ Amount e = AdjDividend div
  /\ (missingDate (PaymentDate div) -> PayDate e = AddDate (ExDate e) 0 0 14)
  /\ (missingDate (DeclarationDate div) -> DeclareDate e = AddDate (ExDate e) 0 0 (-7)).
Proof.
  unfold shapeEvent.
  destruct (Parse "2006-01-02" (rDate div)) as [exDate|] eqn:Ep; [|discriminate].
  destruct (Before exDate cutoffDate) eqn:Eb; [discriminate|].
  cbv zeta. intros [= <-]. cbn [Symbol ExDate PayDate DeclareDate Amount].
  repeat split; try assumption.
  - intros H. now rewrite (optionalDate_missing _ H).
  - intros H. now rewrite (optionalDate_missing _ H).
Qed.

End FMP.

(** C6 (as the code has it): every event that [GetDividendHistory] shapes
    from a fetched response (a call that misses the cache) comes from an
    entry of the response such that its [ExDate] is the entry's date, a valid
    YYYY-MM-DD date, not before the current time minus [years] years; its
    [Amount] is the entry's [AdjDividend]; when the entry's payment date is
    absent or does not parse its [PayDate] is the [ExDate] plus 14 days; and
    when the declaration date is absent or does not parse its [DeclareDate]
    is the [ExDate] minus 7 days. *)
Theorem GetDividendHistory_fetched
    (now : GoTime.Time) (symbol : string) (years : Z)
    (resp : Api.httpOutcome (list Api.FMPDividendResponse))
    (tr : list Api.effect) (events : list Models.DividendEvent) :
  Api.GetDividendHistory now symbol years None resp = (tr, Some events) ->
  forall e, In e events ->
    exists historical div,
      resp = Api.Response Api.StatusOK (Some historical) /\ In div historical
      /\ GoTime.Parse "2006-01-02" (Api.rDate div) = Some (Models.ExDate e)
      /\ validDate (Models.ExDate e)
      /\ GoTime.Before (Models.ExDate e) (GoTime.AddDate now (- years) 0 0) = false
      /\ Models.Amount e = Api.AdjDividend div
      /\ (missingDate (Api.PaymentDate div) ->
          Models.PayDate e = GoTime.AddDate (Models.ExDate e) 0 0 14
          /\ Models.PayDate e = Models.ExDate e + 14 * GoTime.nsPerDay)
      /\ (missingDate (Api.DeclarationDate div) ->
          Models.DeclareDate e = GoTime.AddDate (Models.ExDate e) 0 0 (-7)
          /\ Models.DeclareDate e = Models.ExDate e - 7 * GoTime.nsPerDay).
Proof.
  unfold Api.GetDividendHistory. cbv zeta.
  destruct resp as [|status [historical|]]; try discriminate;
    (destruct (negb (status =? Api.StatusOK)) eqn:Es; [discriminate|]); [|discriminate].
  apply negb_false_iff, Z.eqb_eq in Es. subst status.
  intros [= _ <-] e Hin. unfold Api.shapeEvents in Hin.
  apply filterMap_In in Hin as (div & Hdiv & Hshape).
  apply shapeEvent_spec in Hshape as (_ & Hp & Hb & Ha & Hpay & Hdecl).
  exists historical, div. split; [reflexivity|]. split; [exact Hdiv|].
  split; [exact Hp|]. split; [exact (Parse_iso_valid _ _ Hp)|].
  split; [exact Hb|]. split; [exact Ha|]. split.
  - intros H. specialize (Hpay H). split; [exact Hpay|]. rewrite Hpay. apply AddDate_days.
  - intros H. specialize (Hdecl H). split; [exact Hdecl|]. rewrite Hdecl, AddDate_days. lia.
Qed.

Lemma GetDividendHistory_fetched_witness :
  snd (Api.GetDividendHistory midnight0601 "TSLY" 1 None (Api.Response 200 (Some [juneDividend])))
  = Some [juneEvent]
  /\ In juneEvent [juneEvent]
  /\ exists historical div,
       Api.Response 200 (Some [juneDividend]) = Api.Response Api.StatusOK (Some historical)
       /\ In div historical
       /\ GoTime.Parse "2006-01-02" (Api.rDate div) = Some (Models.ExDate juneEvent)
       /\ validDate (Models.ExDate juneEvent)
       /\ GoTime.Before (Models.ExDate juneEvent) (GoTime.AddDate midnight0601 (- 1) 0 0) = false
       /\ Models.Amount juneEvent = Api.AdjDividend div
       /\ (missingDate (Api.PaymentDate div) ->
           Models.PayDate juneEvent = GoTime.AddDate (Models.ExDate juneEvent) 0 0 14
           /\ Models.PayDate juneEvent = Models.ExDate juneEvent + 14 * GoTime.nsPerDay)
       /\ (missingDate (Api.DeclarationDate div) ->
           Models.DeclareDate juneEvent = GoTime.AddDate (Models.ExDate juneEvent) 0 0 (-7)
           /\ Models.DeclareDate juneEvent = Models.ExDate juneEvent - 7 * GoTime.nsPerDay).
Proof.
  assert (Api.GetDividendHistory midnight0601 "TSLY" 1 None (Api.Response 200 (Some [juneDividend]))
          = ([Api.CacheGet "dividend_history_TSLY_1";
              Api.Request Api.fmpURL "/historical-price-full/stock_dividend/" "TSLY";
              Api.CacheSet "dividend_history_TSLY_1"], Some [juneEvent])) as Hrun
    by (vm_compute; reflexivity).
  assert (In juneEvent [juneEvent]) as Hin by (left; reflexivity).
  split; [rewrite Hrun; reflexivity|]. split; [exact Hin|].
  exact (GetDividendHistory_fetched midnight0601 "TSLY" 1 (Api.Response 200 (Some [juneDividend])) _ _
           Hrun juneEvent Hin).
Defined.

(** C6 as stated fails on a cache hit: the event fetched at midnight comes
    back at noon, when its ex-date is before the cutoff. *)
Lemma GetDividendHistory_cached_before_cutoff :
  snd (Api.GetDividendHistory midnight0601 "TSLY" 1 None
         (Api.Response 200 (Some [juneDividend])))
  = Some [juneEvent]
  /\ snd (Api.GetDividendHistory noon0601 "TSLY" 1 (Some [juneEvent])
            (Api.Response 200 (Some [juneDividend])))
     = Some [juneEvent]
  /\ GoTime.Before (Models.ExDate juneEvent) (GoTime.AddDate noon0601 (- 1) 0 0) = true.
Proof. split; [|split]; vm_compute; reflexivity. Qed.

(** ** C7: the cache key *)

Section CacheKey.

Import Cache.

Lemma append_assoc (a b c : string) : (a +:+ b) +:+ c = a +:+ (b +:+ c).
Proof.
  induction a as [|x a IH]; [reflexivity|].
  change (String x ((a +:+ b) +:+ c) = String x (a +:+ (b +:+ c))). now f_equal.
Qed.

Lemma append_empty_r (a : string) : a +:+ "" = a.
Proof.
  induction a as [|x a IH]; [reflexivity|].
  change (String x (a +:+ "") = String x a). now f_equal.
Qed.

Lemma concat_empty_sep_cons (x : string) (l : list string) :
  String.concat "" (x :: l) = x +:+ String.concat "" l.
Proof.
  destruct l as [|y l]; cbn [String.concat]; [now rewrite append_empty_r | reflexivity].
Qed.

Lemma combined_keyText (params : list string) :
  forall prefix,
    fold_left (fun combined param => combined +:+ ("_" +:+ param)) params prefix
    = keyText prefix params.
Proof.
  unfold keyText.
  induction params as [|p params IH]; intros prefix.
  - cbn. now rewrite append_empty_r.
  - cbn [fold_left map]. rewrite IH, concat_empty_sep_cons, append_assoc. reflexivity.
Qed.

Lemma leBytes_length (n : nat) : forall x, length (MD5.leBytes n x) = n.
Proof. induction n as [|n IH]; intros x; cbn; [reflexivity | now rewrite IH]. Qed.

Lemma leBytes_range (n : nat) : forall x, Forall (fun b => 0 <= b < 256) (MD5.leBytes n x).
Proof.
  induction n as [|n IH]; intros x; cbn [MD5.leBytes]; constructor; [|apply IH].
  change 255 with (Z.ones 8). rewrite Z.land_ones by lia.
  apply Z.mod_pos_bound. lia.
Qed.

Lemma Sum_length (data : string) : length (MD5.Sum data) = 16%nat.
Proof. unfold MD5.Sum. cbv zeta. rewrite !length_app, !leBytes_length. reflexivity. Qed.

Lemma Sum_range (data : string) : Forall (fun b => 0 <= b < 256) (MD5.Sum data).
Proof.
  unfold MD5.Sum. cbv zeta. repeat (apply Forall_app; split); apply leBytes_range.
Qed.

Lemma hexDigit_lower (n : Z) : 0 <= n < 16 -> isLowerHex (MD5.hexDigit n) = true.
Proof.
  intros H.
  apply (allFrom_spec (fun k => isLowerHex (MD5.hexDigit k)) 16 0); [reflexivity|].
  change (Z.of_nat 16) with 16. lia.
Qed.

Lemma hex_length (bs : list Z) : String.length (MD5.hex bs) = (2 * length bs)%nat.
Proof. induction bs as [|b bs IH]; cbn [MD5.hex String.length length]; [reflexivity | lia]. Qed.

Lemma hex_lower (bs : list Z) :
  Forall (fun b => 0 <= b < 256) bs ->
  forallb isLowerHex (list_ascii_of_string (MD5.hex bs)) = true.
Proof.
  induction 1 as [|b bs Hb _ IH]; [reflexivity|].
  cbn [MD5.hex list_ascii_of_string forallb].
  rewrite IH, !hexDigit_lower; [reflexivity | |].
  - apply Z.mod_pos_bound. lia.
  - split; [apply Z.div_pos; lia | apply Z.div_lt_upper_bound; lia].
Qed.

(** C7: [generateCacheKey] returns the prefix, an underscore, the 32
    lowercase hexadecimal digits of the MD5 digest of the prefix followed by
    each parameter with an underscore before it, and the suffix .json; equal
    prefixes and parameters give the same file name. *)
Theorem generateCacheKey_spec (prefix : string) (params : list string) :
  let digest := MD5.hex (MD5.Sum (keyText prefix params)) in
  generateCacheKey prefix params = prefix +:+ "_" +:+ digest +:+ ".json"
  /\ String.length digest = 32%nat
  /\ forallb isLowerHex (list_ascii_of_string digest) = true
  /\ (forall prefix' params',
        prefix' = prefix -> params' = params ->
        generateCacheKey prefix' params' = generateCacheKey prefix params).
Proof.
  cbv zeta. split; [|split; [|split]].
  - unfold generateCacheKey. cbv zeta. now rewrite combined_keyText.
  - rewrite hex_length, Sum_length. reflexivity.
  - apply hex_lower, Sum_range.
  - intros prefix' params' -> ->. reflexivity.
Qed.

End CacheKey.

Lemma generateCacheKey_spec_witness :
  Cache.generateCacheKey "etf_metadata" ["SPY"]
  = "etf_metadata" +:+ "_" +:+ MD5.hex (MD5.Sum (keyText "etf_metadata" ["SPY"])) +:+ ".json"
  /\ Cache.generateCacheKey "etf_metadata" ["SPY"]
     = Cache.generateCacheKey "etf_metadata" ["SPY"].
Proof.
  pose proof (generateCacheKey_spec "etf_metadata" ["SPY"]) as H. cbv zeta in H.
  destruct H as (H1 & _ & _ & H4).
  split; [exact H1 | exact (H4 "etf_metadata" ["SPY"] eq_refl eq_refl)].
Defined.

Example generateCacheKey_etf :
  Cache.generateCacheKey "etf_metadata" ["SPY"]
  = "etf_metadata_f5dcaf037d7ee6651c048e33f3e85839.json".
Proof. vm_compute. reflexivity. Qed.

(** ** C8: the results loop of the batch runner *)

Section ResultsLoop.

Import Models Batch.

Variable marshal : option DividendHistory -> option string.

Lemma append_length (a b : string) :
  String.length (a +:+ b) = (String.length a + String.length b)%nat.
Proof.
  induction a as [|x a IH]; [reflexivity|].
  change (S (String.length (a +:+ b)) = S (String.length a + String.length b)). now f_equal.
Qed.

Lemma append_inj_r (t a b : string) : a +:+ t = b +:+ t -> a = b.
Proof.
  revert b. induction a as [|x a IH]; intros [|y b] H.
  - reflexivity.
  - apply (f_equal String.length) in H. rewrite !append_length in H. cbn in H. lia.
  - apply (f_equal String.length) in H. rewrite !append_length in H. cbn in H. lia.
  - change (String x (a +:+ t) = String y (b +:+ t)) in H.
    injection H as -> H. f_equal. now apply IH.
Qed.

Lemma append_inj_l (t a b : string) : t +:+ a = t +:+ b -> a = b.
Proof.
  induction t as [|x t IH]; intros H; [exact H|].
  change (String x (t +:+ a) = String x (t +:+ b)) in H. injection H as H. now apply IH.
Qed.

Lemma historyFile_inj (s1 s2 : string) : historyFile s1 = historyFile s2 -> s1 = s2.
Proof.
  unfold historyFile. intros H.
  apply append_inj_l in H. apply append_inj_l in H. now apply append_inj_r in H.
Qed.

Lemma saveToJSON_faults (filename : string) (h : option DividendHistory) (d : disk) :
  faults (after (saveToJSON marshal filename h d)) = faults d.
Proof.
  unfold saveToJSON, WriteFile. destruct (marshal h); [|reflexivity].
  destruct (faults d !! filename) as [[|n]|]; reflexivity.
Qed.

Lemma processResult_faults (st : runState) (result : scrapeResult) :
  faults (onDisk (processResult marshal st result)) = faults (onDisk st).
Proof.
  unfold processResult. cbv zeta.
  destruct (crashed st); [reflexivity|].
  destruct (err result); [reflexivity|].
  destruct (saveErr _); cbn [onDisk]; apply saveToJSON_faults.
Qed.

Lemma leaves_faults (d d' : disk) (result : scrapeResult) :
  faults d' = faults d -> leaves marshal d' result = leaves marshal d result.
Proof. unfold leaves. now intros ->. Qed.

Lemma saves_faults (d d' : disk) (result : scrapeResult) :
  faults d' = faults d -> saves marshal d' result = saves marshal d result.
Proof. unfold saves. now intros ->. Qed.

Lemma opens_faults (d d' : disk) (result : scrapeResult) :
  faults d' = faults d -> opens marshal d' result = opens marshal d result.
Proof. unfold opens. intros H. now rewrite (leaves_faults d d' result H). Qed.

Lemma saves_opens (d : disk) (result : scrapeResult) :
  saves marshal d result = true -> opens marshal d result = true.
Proof.
  unfold saves, opens, leaves. destruct (err result); [discriminate|].
  destruct (marshal (history result)); [|discriminate].
  now destruct (faults d !! historyFile (symbol result)).
Qed.

(** What one iteration does: the symbol joins the failed list unless the
    result is saved, the file is written to when the save opens it, and the
    disk holds what the save leaves. *)
Lemma processResult_step (st : runState) (result : scrapeResult) :
  crashed st = false -> wellFormed result ->
  let st' := processResult marshal st result in
  let ok := saves marshal (onDisk st) result in
  let file := historyFile (symbol result) in
  failedETFs st' = failedETFs st ++ (if ok then [] else [symbol result])
  /\ failureCount st' = (failureCount st + (if ok then 0 else 1))%nat
  /\ successCount st' = (successCount st + (if ok then 1 else 0))%nat
  /\ processedCount st' = S (processedCount st)
  /\ written st' = written st ++ (if opens marshal (onDisk st) result then [file] else [])
  /\ logs st' = logs st ++ [logLineOf marshal (onDisk st) result]
  /\ contents (onDisk st')
     = match leaves marshal (onDisk st) result with
       | Some text => <[file := text]> (contents (onDisk st))
       | None => contents (onDisk st)
       end
  /\ crashed st' = false.
Proof.
  intros Hc Hwf. unfold wellFormed in Hwf.
  unfold logLineOf, opens, saves, leaves, processResult, saveToJSON, WriteFile. cbv zeta.
  rewrite Hc. destruct (err result) as [msg|].
  { cbn. rewrite !app_nil_r. repeat split; lia. }
  destruct (history result) as [h|]; [|now exfalso; apply Hwf].
  destruct (marshal (Some h)) as [jsonData|].
  - destruct (faults (onDisk st) !! historyFile (symbol result)) as [[|n]|]; cbn;
      rewrite ?app_nil_r; repeat split; lia.
  - cbn. rewrite !app_nil_r. repeat split; lia.
Qed.

Lemma processResult_crashed (st : runState) (r : scrapeResult) :
  crashed st = false -> wellFormed r -> crashed (processResult marshal st r) = false.
Proof. intros Hc Hr. apply (processResult_step st r Hc Hr). Qed.

(** The state after the loop, from any state the loop may start in. *)
Lemma loop_summary (results : list scrapeResult) :
  forall st,
    crashed st = false -> Forall wellFormed results ->
    let st' := fold_left (processResult marshal) results st in
    let ok := saves marshal (onDisk st) in
    failedETFs st' = failedETFs st ++ map symbol (List.filter (fun r => negb (ok r)) results)
    /\ written st'
       = written st
         ++ map (fun r => historyFile (symbol r))
                (List.filter (opens marshal (onDisk st)) results)
    /\ processedCount st' = (processedCount st + length results)%nat
    /\ successCount st' = (successCount st + length (List.filter ok results))%nat
    /\ failureCount st'
       = (failureCount st + length (List.filter (fun r => negb (ok r)) results))%nat
    /\ logs st' = logs st ++ map (logLineOf marshal (onDisk st)) results
    /\ crashed st' = false.
Proof.
  induction results as [|r results IH]; intros st Hc Hwf; cbv zeta.
  - cbn. rewrite !app_nil_r. repeat split; try lia. exact Hc.
  - apply Forall_cons_iff in Hwf as [Hr Hwf]. cbn [fold_left].
    pose proof (processResult_faults st r) as Hf.
    destruct (processResult_step st r Hc Hr) as (E1 & E2 & E3 & E4 & E5 & E6 & _ & Hc').
    specialize (IH (processResult marshal st r) Hc' Hwf). cbv zeta in IH.
    destruct IH as (H1 & H2 & H3 & H4 & H5 & H6 & H7).
    rewrite (filter_ext _ _ (fun x => saves_faults (onDisk st) _ x Hf)) in H4.
    rewrite (filter_ext _ _ (fun x => opens_faults (onDisk st) _ x Hf)) in H2.
    rewrite (filter_ext _ (fun r0 => negb (saves marshal (onDisk st) r0))) in H1, H5
      by (intros x; now rewrite (saves_faults (onDisk st) _ x Hf)).
    rewrite (map_ext _ (logLineOf marshal (onDisk st))) in H6
      by (intros x; unfold logLineOf; now rewrite (saves_faults (onDisk st) _ x Hf)).
    rewrite H1, H2, H3, H4, H5, H6, H7, E1, E2, E3, E4, E5, E6. cbn [List.filter map].
    destruct (saves marshal (onDisk st) r), (opens marshal (onDisk st) r);
      cbn [negb map length app]; rewrite <- ?app_assoc, ?app_nil_r; cbn [app];
      repeat split; lia.
Qed.

(** A path that no save opens keeps its contents. *)
Lemma loop_untouched (results : list scrapeResult) (p : string) :
  forall st,
    crashed st = false -> Forall wellFormed results ->
    (forall r, In r results -> opens marshal (onDisk st) r = true ->
               historyFile (symbol r) <> p) ->
    contents (onDisk (fold_left (processResult marshal) results st)) !! p
    = contents (onDisk st) !! p.
Proof.
  induction results as [|r results IH]; intros st Hc Hwf Hp; [reflexivity|].
  apply Forall_cons_iff in Hwf as [Hr Hwf]. cbn [fold_left]. rewrite IH.
  - destruct (processResult_step st r Hc Hr) as (_ & _ & _ & _ & _ & _ & -> & _).
    specialize (Hp r (or_introl eq_refl)). unfold opens in Hp.
    destruct (leaves marshal (onDisk st) r); [|reflexivity].
    apply lookup_insert_ne. now apply Hp.
  - now apply processResult_crashed.
  - exact Hwf.
  - intros x Hx Hs. apply Hp; [now right|].
    now rewrite <- (opens_faults (onDisk st) _ x (processResult_faults st r)).
Qed.

(** A result whose save opens its file leaves there what the save wrote,
    when no later result has its symbol. *)
Lemma loop_left (results : list scrapeResult) :
  forall st r,
    crashed st = false -> Forall wellFormed results ->
    List.NoDup (map symbol results) -> In r results ->
    opens marshal (onDisk st) r = true ->
    contents (onDisk (fold_left (processResult marshal) results st)) !! historyFile (symbol r)
    = leaves marshal (onDisk st) r.
Proof.
  induction results as [|r0 results IH]; intros st r Hc Hwf Hnd Hin Hs; [contradiction|].
  apply Forall_cons_iff in Hwf as [Hr0 Hwf].
  cbn [map] in Hnd. apply NoDup_cons_iff in Hnd as [Hfresh Hnd]. cbn [fold_left].
  destruct Hin as [-> | Hin].
  - rewrite loop_untouched.
    + destruct (processResult_step st r Hc Hr0) as (_ & _ & _ & _ & _ & _ & -> & _).
      unfold opens in Hs. destruct (leaves marshal (onDisk st) r); [|discriminate].
      apply lookup_insert_eq.
    + now apply processResult_crashed.
    + exact Hwf.
    + intros x Hx _ Heq. apply historyFile_inj in Heq. apply Hfresh.
      rewrite <- Heq. now apply in_map.
  - rewrite <- (leaves_faults (onDisk st) _ r (processResult_faults st r0)).
    apply IH; [now apply processResult_crashed | exact Hwf | exact Hnd | exact Hin |].
    now rewrite (opens_faults (onDisk st) _ r (processResult_faults st r0)).
Qed.

Lemma NoDup_map_inj {A B : Type} (f : A -> B) (l : list A) (x y : A) :
  List.NoDup (map f l) -> In x l -> In y l -> f x = f y -> x = y.
Proof.
  induction l as [|a l IH]; intros Hnd Hx Hy Hf; [contradiction|].
  cbn [map] in Hnd. apply NoDup_cons_iff in Hnd as [Hfresh Hnd].
  destruct Hx as [-> | Hx], Hy as [-> | Hy]; auto.
  - exfalso. apply Hfresh. rewrite Hf. now apply in_map.
  - exfalso. apply Hfresh. rewrite <- Hf. now apply in_map.
Qed.

Lemma NoDup_map_filter {A B : Type} (f : A -> B) (p : A -> bool) (l : list A) :
  List.NoDup (map f l) -> List.NoDup (map f (List.filter p l)).
Proof.
  induction l as [|a l IH]; intros Hnd; [constructor|].
  cbn [map] in Hnd. apply NoDup_cons_iff in Hnd as [Hfresh Hnd]. cbn [List.filter].
  destruct (p a); [|now apply IH].
  cbn [map]. constructor; [|now apply IH].
  intros Hin. apply Hfresh. apply in_map_iff in Hin as (x & <- & Hx).
  apply filter_In in Hx as [Hx _]. now apply in_map.
Qed.

Lemma NoDup_map_compose {A B C : Type} (f : A -> B) (g : B -> C) (l : list A) :
  (forall b1 b2, g b1 = g b2 -> b1 = b2) ->
  List.NoDup (map f l) -> List.NoDup (map (fun x => g (f x)) l).
Proof.
  intros Hg. induction l as [|a l IH]; intros Hnd; [constructor|].
  cbn [map] in *. apply NoDup_cons_iff in Hnd as [Hfresh Hnd].
  constructor; [|now apply IH].
  intros Hin. apply Hfresh. apply in_map_iff in Hin as (x & Hx & Hin).
  apply Hg in Hx. rewrite <- Hx. now apply in_map.
Qed.

End ResultsLoop.

(** C8 (as the code has it): over results with distinct symbols, as the
    workers send them, the loop processes every result and logs one line for
    each.  For a result whose scrape failed it logs the failure, adds the
    symbol to the failed list and writes to no file.  For a result whose
    save fails it logs the failure and adds the symbol to the failed list as
    well, and goes on; the file of the symbol is as it was when the history
    does not encode or the file cannot be opened, and when the write fails
    after the file was opened the file is left with the bytes written before
    the failure.  For a result whose scrape and save succeed it writes
    exactly one file, named after the symbol with the suffix
    _dividend_history.json in the output directory, which then holds the
    encoded history.  A file that is not the file of a result is not
    touched. *)
Theorem batch_log_and_skip
    (marshal : option Models.DividendHistory -> option string) (d : Batch.disk)
    (results : list Batch.scrapeResult) :
  Forall wellFormed results ->
  List.NoDup (map Batch.symbol results) ->
  let st := Batch.processResults marshal d results in
  Batch.crashed st = false
  /\ Batch.processedCount st = length results
  /\ (Batch.successCount st + Batch.failureCount st)%nat = length results
  /\ Batch.logs st = map (logLineOf marshal d) results
  /\ (forall p, (forall r, In r results -> Batch.historyFile (Batch.symbol r) <> p) ->
                Batch.contents (Batch.onDisk st) !! p = Batch.contents d !! p)
  /\ forall r, In r results ->
       let file := Batch.historyFile (Batch.symbol r) in
       (forall msg,
           Batch.err r = Some msg ->
           In (Batch.symbol r) (Batch.failedETFs st)
           /\ ~ In file (Batch.written st)
           /\ Batch.contents (Batch.onDisk st) !! file = Batch.contents d !! file
           /\ logLineOf marshal d r = Batch.LogFailedScrape (Batch.symbol r) msg)
       /\ (Batch.err r = None ->
           marshal (Batch.history r) = None \/ Batch.faults d !! file = Some Batch.OpenFails ->
           In (Batch.symbol r) (Batch.failedETFs st)
           /\ ~ In file (Batch.written st)
           /\ Batch.contents (Batch.onDisk st) !! file = Batch.contents d !! file
           /\ logLineOf marshal d r = Batch.LogFailedSave (Batch.symbol r))
       /\ (forall jsonData n,
             Batch.err r = None -> marshal (Batch.history r) = Some jsonData ->
             Batch.faults d !! file = Some (Batch.WriteFails n) ->
             In (Batch.symbol r) (Batch.failedETFs st)
             /\ count_occ string_dec (Batch.written st) file = 1%nat
             /\ Batch.contents (Batch.onDisk st) !! file = Some (substring 0 n jsonData)
             /\ logLineOf marshal d r = Batch.LogFailedSave (Batch.symbol r))
       /\ (saves marshal d r = true ->
             ~ In (Batch.symbol r) (Batch.failedETFs st)
             /\ count_occ string_dec (Batch.written st) file = 1%nat
             /\ logLineOf marshal d r = Batch.LogSaved (Batch.symbol r)
             /\ exists h jsonData,
                  Batch.history r = Some h /\ marshal (Some h) = Some jsonData
                  /\ Batch.contents (Batch.onDisk st) !! file = Some jsonData).
Proof.
  intros Hwf Hnd. cbv zeta. unfold Batch.processResults.
  pose proof (loop_summary marshal results (Batch.startState d) eq_refl Hwf) as Hsum.
  cbv zeta in Hsum. cbn [Batch.startState Batch.failedETFs Batch.written Batch.processedCount
                          Batch.successCount Batch.failureCount Batch.onDisk Batch.logs] in Hsum.
  destruct Hsum as (Hfailed & Hwritten & Hproc & Hsucc & Hfail & Hlogs & Hcrash).
  cbn [app] in Hfailed, Hwritten, Hlogs.
  assert (forall r, In r results -> saves marshal d r = false ->
                    In (Batch.symbol r) (Batch.failedETFs
                      (fold_left (Batch.processResult marshal) results (Batch.startState d))))
    as Hlisted.
  { intros r Hin Hs. rewrite Hfailed. apply in_map, filter_In.
    split; [exact Hin | now rewrite Hs]. }
  assert (forall r, In r results -> opens marshal d r = false ->
                    ~ In (Batch.historyFile (Batch.symbol r)) (Batch.written
                      (fold_left (Batch.processResult marshal) results (Batch.startState d)))
                    /\ Batch.contents (Batch.onDisk
                         (fold_left (Batch.processResult marshal) results (Batch.startState d)))
                         !! Batch.historyFile (Batch.symbol r)
                       = Batch.contents d !! Batch.historyFile (Batch.symbol r)) as Hclosed.
  { intros r Hin Ho. split.
    - rewrite Hwritten. intros Hw. apply in_map_iff in Hw as (r' & Heq & Hr').
      apply filter_In in Hr' as [Hr' Ho']. apply historyFile_inj in Heq.
      assert (r' = r) as -> by (eapply NoDup_map_inj; eauto). congruence.
    - apply loop_untouched; [reflexivity | exact Hwf |].
      intros r' Hr' Ho' Heq. apply historyFile_inj in Heq.
      assert (r' = r) as -> by (eapply NoDup_map_inj; eauto). cbn in Ho'. congruence. }
  assert (forall r, In r results -> opens marshal d r = true ->
                    count_occ string_dec (Batch.written
                      (fold_left (Batch.processResult marshal) results (Batch.startState d)))
                      (Batch.historyFile (Batch.symbol r)) = 1%nat
                    /\ Batch.contents (Batch.onDisk
                         (fold_left (Batch.processResult marshal) results (Batch.startState d)))
                         !! Batch.historyFile (Batch.symbol r)
                       = leaves marshal d r) as Hopened.
  { intros r Hin Ho. split.
    - apply NoDup_count_occ'.
      + rewrite Hwritten.
        apply (NoDup_map_compose Batch.symbol Batch.historyFile); [apply historyFile_inj|].
        now apply NoDup_map_filter.
      + rewrite Hwritten.
        apply (in_map (fun r0 => Batch.historyFile (Batch.symbol r0))), filter_In. auto.
    - apply (loop_left marshal results (Batch.startState d) r); (reflexivity || assumption). }
  split; [exact Hcrash|]. split; [lia|]. split.
  { rewrite Hsucc, Hfail. cbn [Nat.add].
    clear. induction results as [|r results IH]; [reflexivity|].
    cbn [List.filter length]. destruct (saves marshal d r); cbn [negb length]; lia. }
  split; [exact Hlogs|]. split.
  { intros p Hp. apply loop_untouched; [reflexivity | exact Hwf |]. intros r Hr _. now apply Hp. }
  intros r Hin. split; [|split; [|split]].
  - intros msg He.
    assert (saves marshal d r = false) as Hs by (unfold saves; now rewrite He).
    assert (opens marshal d r = false) as Ho by (unfold opens, leaves; now rewrite He).
    destruct (Hclosed r Hin Ho) as [Hw Hk].
    split; [now apply Hlisted|]. split; [exact Hw|]. split; [exact Hk|].
    unfold logLineOf. now rewrite He.
  - intros He Hcase.
    assert (saves marshal d r = false) as Hs.
    { unfold saves. rewrite He. destruct Hcase as [-> | Hcase]; [reflexivity|].
      rewrite Hcase. now destruct (marshal (Batch.history r)). }
    assert (opens marshal d r = false) as Ho.
    { unfold opens, leaves. rewrite He. destruct Hcase as [-> | Hcase]; [reflexivity|].
      rewrite Hcase. now destruct (marshal (Batch.history r)). }
    destruct (Hclosed r Hin Ho) as [Hw Hk].
    split; [now apply Hlisted|]. split; [exact Hw|]. split; [exact Hk|].
    unfold logLineOf. now rewrite He, Hs.
  - intros jsonData n He Hm Hfault.
    assert (saves marshal d r = false) as Hs by (unfold saves; now rewrite He, Hm, Hfault).
    assert (leaves marshal d r = Some (substring 0 n jsonData)) as Hl
      by (unfold leaves; now rewrite He, Hm, Hfault).
    assert (opens marshal d r = true) as Ho by (unfold opens; now rewrite Hl).
    destruct (Hopened r Hin Ho) as [Hw Hk].
    split; [now apply Hlisted|]. split; [exact Hw|]. split; [now rewrite Hk|].
    unfold logLineOf. now rewrite He, Hs.
  - intros Hs. destruct (Hopened r Hin (saves_opens marshal d r Hs)) as [Hw Hk].
    split; [|split; [exact Hw|split]].
    + rewrite Hfailed. intros Hf. apply in_map_iff in Hf as (r' & Heq & Hr').
      apply filter_In in Hr' as [Hr' Hs'].
      assert (r' = r) as -> by (eapply NoDup_map_inj; eauto).
      rewrite Hs in Hs'. discriminate.
    + unfold logLineOf. rewrite Hs. unfold saves in Hs.
      destruct (Batch.err r); [discriminate | reflexivity].
    + rewrite Hk. pose proof (proj1 (List.Forall_forall _ _) Hwf r Hin) as Hr.
      unfold wellFormed in Hr. unfold saves in Hs. unfold leaves.
      destruct (Batch.err r); [discriminate|].
      destruct (Batch.history r) as [h|]; [|now exfalso; apply Hr].
      destruct (marshal (Some h)) as [jsonData|] eqn:Em; [|discriminate].
      destruct (Batch.faults d !! Batch.historyFile (Batch.symbol r)); [discriminate|].
      exists h, jsonData. split; [reflexivity|]. split; [exact Em | reflexivity].
Qed.

(** C8 as stated fails: when the write of a symbol's file fails after the
    file was opened (the disk is full), the loop logs the failure and lists
    the symbol as failed, and yet a file for the symbol is on the disk where
    none was, holding the two bytes written before the failure. *)
Lemma failed_save_leaves_file :
  Batch.contents fullDisk !! Batch.historyFile "CONY" = None
  /\ Batch.failedETFs (Batch.processResults textMarshal fullDisk [okResult "CONY"]) = ["CONY"]
  /\ Batch.logs (Batch.processResults textMarshal fullDisk [okResult "CONY"])
     = [Batch.LogFailedSave "CONY"]
  /\ Batch.written (Batch.processResults textMarshal fullDisk [okResult "CONY"])
     = ["data/dividends/CONY_dividend_history.json"]
  /\ Batch.contents (Batch.onDisk (Batch.processResults textMarshal fullDisk [okResult "CONY"]))
       !! "data/dividends/CONY_dividend_history.json" = Some "{ ".
Proof. vm_compute. repeat split; reflexivity. Qed.

Lemma sampleResults_wellFormed : Forall wellFormed sampleResults.
Proof. repeat constructor; unfold wellFormed; cbn; discriminate. Qed.

Lemma sampleResults_NoDup : List.NoDup (map Batch.symbol sampleResults).
Proof. cbn. repeat constructor; cbn; intuition discriminate. Qed.

Lemma batch_log_and_skip_witness :
  Forall wellFormed sampleResults
  /\ List.NoDup (map Batch.symbol sampleResults)
  /\ Batch.processedCount (Batch.processResults symbolMarshal lockedDisk sampleResults) = 4%nat
  /\ Batch.failedETFs (Batch.processResults symbolMarshal lockedDisk sampleResults)
     = ["NVDY"; "MSTY"]
  /\ Batch.written (Batch.processResults symbolMarshal lockedDisk sampleResults)
     = ["data/dividends/CONY_dividend_history.json";
        "data/dividends/TSLY_dividend_history.json"]
  /\ Batch.logs (Batch.processResults symbolMarshal lockedDisk sampleResults)
     = map (logLineOf symbolMarshal lockedDisk) sampleResults.
Proof.
  pose proof (batch_log_and_skip symbolMarshal lockedDisk sampleResults
                sampleResults_wellFormed sampleResults_NoDup) as H.
  cbv zeta in H. destruct H as (_ & H1 & _ & H3 & _).
  split; [exact sampleResults_wellFormed|]. split; [exact sampleResults_NoDup|].
  split; [exact H1|].
  split; [vm_compute; reflexivity|]. split; [vm_compute; reflexivity | exact H3].
Defined.

(** ** C9: the statistics of a scraped history *)

Section Stats.

Import GoTime GoStrings GoFloat Models TableScraper.

Lemma accumulate_fold (yearStart : Time) (events : list DividendEvent) :
  forall total ytd,
    fold_left (accumulate yearStart) events (total, ytd)
    = (fold_left PrimFloat.add (map Amount events) total,
       fold_left PrimFloat.add
         (map Amount (List.filter (fun e => After (ExDate e) yearStart) events)) ytd).
Proof.
  induction events as [|e events IH]; intros total ytd; [reflexivity|].
  cbn [fold_left map List.filter accumulate]. rewrite IH.
  destruct (After (ExDate e) yearStart); reflexivity.
Qed.

Lemma computeStats_spec (now : Time) (events : list DividendEvent) :
  events <> [] ->
  let stats := computeStats now events in
  let yearStart := Date (Year now) 1 1 0 0 0 0 in
  TotalPayments stats = Z.of_nat (length events)
  /\ AverageAmount stats = PrimFloat.div (sumAmounts events) (float64_of_len events)
  /\ LastAmount stats = match events with e :: _ => Amount e | [] => zero end
  /\ YearToDateTotal stats
     = sumAmounts (List.filter (fun e => After (ExDate e) yearStart) events)
  /\ TrailingYearTotal stats = sumAmounts events
  /\ match events with
     | first :: second :: _ =>
         ChangePercent stats
         = PrimFloat.mul
             (PrimFloat.div (PrimFloat.sub (Amount first) (Amount second)) (Amount second))
             100%float
     | _ => True
     end.
Proof.
  intros Hne. destruct events as [|first rest]; [congruence|].
  cbv zeta. unfold computeStats. rewrite accumulate_fold. cbn [TotalPayments AverageAmount LastAmount YearToDateTotal TrailingYearTotal ChangePercent].
  unfold sumAmounts.
  split; [reflexivity|]. split; [reflexivity|]. split; [reflexivity|].
  split; [reflexivity|]. split; [reflexivity|].
  destruct rest; [exact I | reflexivity].
Qed.

End Stats.

(** C9: for a history with at least one event that [ScrapeDividendHistory]
    returns, [TotalPayments] is the number of events, [AverageAmount] the
    sum of the amounts divided by that number, [LastAmount] the amount of
    the first event, [YearToDateTotal] the sum of the amounts of the events
    whose ex-date is after January 1 (UTC) of the current year,
    [TrailingYearTotal] the sum of all amounts, and, with two events or
    more, [ChangePercent] is the first amount minus the second, divided by
    the second, times 100. *)
Theorem ScrapeDividendHistory_stats
    (now : GoTime.Time) (symbol : string) (visit : option TableScraper.page)
    (h : Models.DividendHistory) :
  TableScraper.ScrapeDividendHistory now symbol visit = Some h ->
  Models.Events h <> [] ->
  let events := Models.Events h in
  let stats := Models.Stats h in
  let yearStart := GoTime.Date (GoTime.Year now) 1 1 0 0 0 0 in
  Models.TotalPayments stats = Z.of_nat (length events)
  /\ Models.AverageAmount stats
     = PrimFloat.div (sumAmounts events) (TableScraper.float64_of_len events)
  /\ Models.LastAmount stats
     = match events with e :: _ => Models.Amount e | [] => GoFloat.zero end
  /\ Models.YearToDateTotal stats
     = sumAmounts
         (List.filter (fun e => GoTime.After (Models.ExDate e) yearStart) events)
  /\ Models.TrailingYearTotal stats = sumAmounts events
  /\ match events with
     | first :: second :: _ =>
         Models.ChangePercent stats
         = PrimFloat.mul
             (PrimFloat.div
                (PrimFloat.sub (Models.Amount first) (Models.Amount second))
                (Models.Amount second))
             100%float
     | _ => True
     end.
Proof.
  unfold TableScraper.ScrapeDividendHistory.
  destruct visit as [pg|]; [|discriminate].
  intros [= <-]. cbn [Models.Events Models.Stats]. intros Hne.
  exact (computeStats_spec now _ Hne).
Qed.

Lemma ScrapeDividendHistory_stats_witness :
  TableScraper.ScrapeDividendHistory noon0601 "CONY" (Some conyPage) = Some conyHistory
  /\ Models.Events conyHistory <> []
  /\ Models.TotalPayments (Models.Stats conyHistory) = 2
  /\ Models.AverageAmount (Models.Stats conyHistory)
     = PrimFloat.div (sumAmounts (Models.Events conyHistory)) 2%float
  /\ Models.TrailingYearTotal (Models.Stats conyHistory) = sumAmounts (Models.Events conyHistory).
Proof.
  assert (TableScraper.ScrapeDividendHistory noon0601 "CONY" (Some conyPage)
          = Some conyHistory) as Hrun by (vm_compute; reflexivity).
  assert (Models.Events conyHistory <> []) as Hne by discriminate.
  pose proof (ScrapeDividendHistory_stats noon0601 "CONY" (Some conyPage) conyHistory
                Hrun Hne) as H.
  cbv zeta in H. destruct H as (H1 & H2 & _ & _ & H5 & _).
  split; [exact Hrun|]. split; [exact Hne|].
  split; [exact H1|]. split; [exact H2 | exact H5].
Defined.


(** ** C10: the upcoming events *)

Section Upcoming.

Import GoTime Models Improved.

Lemma filterLoop_In (now : clock) (cutoff : Time) (events : list DividendEvent) :
  forall k e,
    In e (filterLoop now k cutoff events) ->
    In e events /\ Before (ExDate e) cutoff = true /\
    exists i, (k <= i)%nat /\ After (ExDate e) (now i) = true.
Proof.
  induction events as [|event events IH]; intros k e Hin; cbn [filterLoop] in Hin; [contradiction|].
  destruct (After (ExDate event) (now k) && Before (ExDate event) cutoff) eqn:E.
  - destruct Hin as [<- | Hin].
    + apply andb_true_iff in E as [Ea Eb].
      split; [now left|]. split; [exact Eb|]. exists k. split; [lia | exact Ea].
    + destruct (IH _ _ Hin) as (H1 & H2 & i & Hi & H3).
      split; [now right|]. split; [exact H2|]. exists i. split; [lia | exact H3].
  - destruct (IH _ _ Hin) as (H1 & H2 & i & Hi & H3).
    split; [now right|]. split; [exact H2|]. exists i. split; [lia | exact H3].
Qed.

End Upcoming.

(** C10: with a clock that does not run backwards, every event of the
    [Upcoming] list of the schedule [GetScheduleImproved] returns is one of
    the collected events whose ex-date is strictly after the current time
    (the reading from which the cutoff is computed) and strictly before that
    time plus 30 days. *)
Theorem GetScheduleImproved_upcoming_window
    (now : Improved.clock) (visited : bool)
    (upcomingEvents : list Models.DividendEvent)
    (groupSchedules : list Improved.GroupSchedule) (schedule : Improved.Schedule) :
  monotone now ->
  Improved.GetScheduleImproved now visited upcomingEvents groupSchedules = Some schedule ->
  forall e, In e (Improved.Upcoming schedule) ->
    In e upcomingEvents
    /\ GoTime.After (Models.ExDate e) (now 1%nat) = true
    /\ GoTime.Before (Models.ExDate e) (GoTime.AddDate (now 1%nat) 0 0 30) = true
    /\ now 1%nat < Models.ExDate e < now 1%nat + 30 * GoTime.nsPerDay.
Proof.
  intros Hmono Hrun e Hin. unfold Improved.GetScheduleImproved in Hrun.
  destruct visited; [|discriminate]. injection Hrun as <-.
  cbn [Improved.Upcoming] in Hin. unfold Improved.filterUpcomingEvents in Hin.
  cbv zeta in Hin.
  destruct (filterLoop_In _ _ _ _ _ Hin) as (H1 & H2 & i & Hi & H3).
  assert (now 1%nat < Models.ExDate e) as Hafter.
  { unfold GoTime.After in H3. apply Z.ltb_lt in H3.
    pose proof (Hmono 1%nat i ltac:(lia)). lia. }
  split; [exact H1|]. split; [now apply Z.ltb_lt|]. split; [exact H2|].
  split; [exact Hafter|].
  unfold GoTime.Before in H2. apply Z.ltb_lt in H2. now rewrite AddDate_days in H2.
Qed.

Lemma tickingClock_monotone : monotone tickingClock.
Proof. intros i j Hij. unfold tickingClock. lia. Qed.

Lemma GetScheduleImproved_upcoming_window_witness :
  monotone tickingClock
  /\ Improved.GetScheduleImproved tickingClock true sampleEvents [] = Some sampleSchedule
  /\ In (eventOn "NVDY" (GoTime.Date 2025 6 4 0 0 0 0)) (Improved.Upcoming sampleSchedule)
  /\ tickingClock 1%nat < GoTime.Date 2025 6 4 0 0 0 0
     < tickingClock 1%nat + 30 * GoTime.nsPerDay.
Proof.
  assert (Improved.GetScheduleImproved tickingClock true sampleEvents [] = Some sampleSchedule)
    as Hrun by (vm_compute; reflexivity).
  assert (In (eventOn "NVDY" (GoTime.Date 2025 6 4 0 0 0 0)) (Improved.Upcoming sampleSchedule))
    as Hin by (left; reflexivity).
  split; [exact tickingClock_monotone|]. split; [exact Hrun|]. split; [exact Hin|].
  exact (proj2 (proj2 (proj2
    (GetScheduleImproved_upcoming_window tickingClock true sampleEvents [] sampleSchedule
       tickingClock_monotone Hrun _ Hin)))).
Defined.

(** ** The calendar, continued *)

Section Calendar2.

Import GoTime GoTime2.

Lemma years_checked : allFrom checkYear 0 400 = true.
Proof. vm_compute. reflexivity. Qed.

(** From one year to the next. *)
Lemma daysSinceEpoch_step (y : Z) :
  daysSinceEpoch (y + 1) = daysSinceEpoch y + 365 + (if isLeap y then 1 else 0).
Proof.
  pose proof (Z.mod_pos_bound y 400 ltac:(lia)) as Hr.
  pose proof (allFrom_spec _ _ _ years_checked (y mod 400) ltac:(lia)) as Hc.
  unfold checkYear in Hc. apply Z.eqb_eq in Hc.
  pose proof (Z.div_mod y 400 ltac:(lia)) as Hy.
  set (r := y mod 400) in *. set (q := y / 400) in *. clearbody r q. subst y.
  replace (400 * q + r + 1) with (r + 1 + 400 * q) by lia.
  replace (400 * q + r) with (r + 400 * q) by lia.
  rewrite !daysSinceEpoch_period, isLeap_period. lia.
Qed.

Lemma daysSinceEpoch_mono (y k : Z) :
  0 <= k -> daysSinceEpoch y + 365 * k <= daysSinceEpoch (y + k).
Proof.
  intros Hk. pattern k. apply natlike_ind; [replace (y + 0) with y by lia; lia | | exact Hk].
  intros x Hx IH. replace (y + Z.succ x) with (y + x + 1) by lia.
  rewrite daysSinceEpoch_step. destruct (isLeap (y + x)); lia.
Qed.

Ltac eval_daysBefore :=
  repeat match goal with
         | |- context [daysBefore ?a] =>
             let v := eval vm_compute in (daysBefore a) in change (daysBefore a) with v
         end.

Lemma dateDays_yearDay (y m d : Z) :
  1 <= m <= 12 -> dateDays y m d = daysSinceEpoch y + yearDay y m d.
Proof.
  intros Hm. unfold dateDays, yearDay. cbv zeta.
  replace ((m - 1) / 12) with 0 by (symmetry; apply Z.div_small; lia).
  rewrite Z.mod_small by lia. rewrite Z.add_0_r.
  replace (m - 1 + 1) with m by lia.
  destruct (isLeap y && (3 <=? m)); lia.
Qed.

Lemma yearDay_range (y m d : Z) :
  1 <= m <= 12 -> 1 <= d <= daysIn m y ->
  0 <= yearDay y m d < 365 + (if isLeap y then 1 else 0).
Proof.
  intros Hm Hd. unfold yearDay, daysIn in *.
  assert (m = 1 \/ m = 2 \/ m = 3 \/ m = 4 \/ m = 5 \/ m = 6 \/ m = 7 \/ m = 8 \/ m = 9
          \/ m = 10 \/ m = 11 \/ m = 12) as Hc by lia.
  revert Hd. destruct (isLeap y); repeat (destruct Hc as [-> | Hc]); try subst m; cbn; eval_daysBefore; lia.
Qed.

Lemma yearDay_inj (y m d m' d' : Z) :
  1 <= m <= 12 -> 1 <= d <= daysIn m y -> 1 <= m' <= 12 -> 1 <= d' <= daysIn m' y ->
  yearDay y m d = yearDay y m' d' -> m = m' /\ d = d'.
Proof.
  intros Hm Hd Hm' Hd' H. unfold yearDay, daysIn in *.
  assert (m = 1 \/ m = 2 \/ m = 3 \/ m = 4 \/ m = 5 \/ m = 6 \/ m = 7 \/ m = 8 \/ m = 9
          \/ m = 10 \/ m = 11 \/ m = 12) as Hc by lia.
  assert (m' = 1 \/ m' = 2 \/ m' = 3 \/ m' = 4 \/ m' = 5 \/ m' = 6 \/ m' = 7 \/ m' = 8
          \/ m' = 9 \/ m' = 10 \/ m' = 11 \/ m' = 12) as Hc' by lia.
  revert Hd Hd' H. destruct (isLeap y);
    repeat (destruct Hc as [-> | Hc]); try subst m;
    repeat (destruct Hc' as [-> | Hc']); try subst m'; cbn; eval_daysBefore; lia.
Qed.

(** The civil date of the day number of a date of the calendar. *)
Lemma absDate_dateDays (y m d : Z) :
  1 <= m <= 12 -> 1 <= d <= daysIn m y -> absDate (dateDays y m d) = (y, m, d).
Proof.
  intros Hm Hd. pose proof (absDate_valid (dateDays y m d)) as Hv.
  destruct (absDate (dateDays y m d)) as [[y' m'] d']. destruct Hv as (He & Hm' & Hd').
  rewrite (dateDays_yearDay y m d Hm), (dateDays_yearDay y' m' d' Hm') in He.
  pose proof (yearDay_range y m d Hm Hd) as Hr.
  pose proof (yearDay_range y' m' d' Hm' Hd') as Hr'.
  assert (y' = y) as ->.
  { destruct (Z.lt_trichotomy y' y) as [Hlt | [Heq | Hgt]]; [exfalso | exact Heq | exfalso].
    - pose proof (daysSinceEpoch_mono (y' + 1) (y - y' - 1) ltac:(lia)) as Hmono.
      replace (y' + 1 + (y - y' - 1)) with y in Hmono by lia.
      rewrite daysSinceEpoch_step in Hmono. destruct (isLeap y'), (isLeap y); lia.
    - pose proof (daysSinceEpoch_mono (y + 1) (y' - y - 1) ltac:(lia)) as Hmono.
      replace (y + 1 + (y' - y - 1)) with y' in Hmono by lia.
      rewrite daysSinceEpoch_step in Hmono. destruct (isLeap y'), (isLeap y); lia. }
  destruct (yearDay_inj y m' d' m d Hm' Hd' Hm Hd ltac:(lia)) as [-> ->]. reflexivity.
Qed.

Lemma nsPerDay_pos : 0 < nsPerDay.
Proof. reflexivity. Qed.

Lemma civil_Date (y m d c : Z) :
  1 <= m <= 12 -> 1 <= d <= daysIn m y -> 0 <= c < nsPerDay ->
  civil (Date y m d 0 0 0 c) = (y, m, d).
Proof.
  intros Hm Hd Hc. unfold civil. rewrite Date_midnight_clock.
  replace ((dateDays y m d * nsPerDay + c) / nsPerDay) with (dateDays y m d).
  - now apply absDate_dateDays.
  - rewrite Z.add_comm, Z.div_add by (pose proof nsPerDay_pos; lia).
    rewrite Z.div_small by exact Hc. reflexivity.
Qed.

Lemma civil_valid (t : Time) :
  let '(y, m, d) := civil t in
  1 <= m <= 12 /\ 1 <= d <= daysIn m y /\ t = Date y m d 0 0 0 (t mod nsPerDay).
Proof.
  unfold civil. pose proof (absDate_valid (t / nsPerDay)) as Hv.
  destruct (absDate (t / nsPerDay)) as [[y m] d]. destruct Hv as (He & Hm & Hd).
  split; [exact Hm|]. split; [exact Hd|]. rewrite Date_midnight_clock, He.
  pose proof (Z.div_mod t nsPerDay ltac:(pose proof nsPerDay_pos; lia)). lia.
Qed.

(** A day later is the next weekday. *)
Lemma Weekday_add_days (t k : Z) : Weekday (t + k * nsPerDay) = (Weekday t + k) mod 7.
Proof.
  unfold Weekday. rewrite Z.div_add by (pose proof nsPerDay_pos; lia).
  rewrite Zplus_mod_idemp_l. f_equal. lia.
Qed.

Lemma Weekday_range (t : Z) : 0 <= Weekday t < 7.
Proof. unfold Weekday. apply Z.mod_pos_bound. lia. Qed.

End Calendar2.

Example Weekday_2025_06_04 : GoTime2.Weekday (GoTime.Date 2025 6 4 12 30 0 0) = GoTime2.Wednesday.
Proof. reflexivity. Qed.

Example Weekday_year_one : GoTime2.Weekday GoTime.zeroTime = 1.
Proof. reflexivity. Qed.

Example Format_iso : GoTime2.Format (GoTime.Date 2025 6 4 12 30 0 0) "2006-01-02" = "2025-06-04".
Proof. vm_compute. reflexivity. Qed.

Example Format_early_year : GoTime2.Format (GoTime.Date 33 4 3 0 0 0 0) "2006-01-02" = "0033-04-03".
Proof. vm_compute. reflexivity. Qed.

Example Format_spelled : GoTime2.Format (GoTime.Date 2025 6 4 0 0 0 0) "Jan 2, 2006" = "Jun 4, 2025".
Proof. vm_compute. reflexivity. Qed.

(** ** Dates written with [Format] and read back *)

Section FormatParse.

Import GoTime GoTime2.

Lemma years_formatted :
  allFrom (fun y => fourDigits (appendInt y 4) y) 0 (Z.to_nat 10000) = true.
Proof. vm_compute. reflexivity. Qed.

Lemma fields_formatted :
  allFrom (fun n => twoDigits (appendInt n 2) n) 0 100 = true.
Proof. vm_compute. reflexivity. Qed.

Lemma appendInt_year (y : Z) :
  0 <= y <= 9999 ->
  exists a b c d,
    appendInt y 4 = String a (String b (String c (String d "")))
    /\ isDigit a = true /\ isDigit b = true /\ isDigit c = true /\ isDigit d = true
    /\ ((digitVal a * 10 + digitVal b) * 10 + digitVal c) * 10 + digitVal d = y.
Proof.
  intros Hy.
  pose proof (allFrom_spec _ _ _ years_formatted y
                ltac:(change (Z.of_nat (Z.to_nat 10000)) with 10000; lia)) as H.
  cbv beta in H. unfold fourDigits in H.
  destruct (appendInt y 4) as [|a [|b [|c [|d [|? ?]]]]]; try discriminate.
  rewrite !andb_true_iff in H. destruct H as [[[[Ha Hb] Hc] Hd] Hv].
  apply Z.eqb_eq in Hv. exists a, b, c, d. auto 10.
Qed.

Lemma appendInt_field (n : Z) :
  0 <= n <= 99 ->
  exists a b,
    appendInt n 2 = String a (String b "")
    /\ isDigit a = true /\ isDigit b = true /\ digitVal a * 10 + digitVal b = n.
Proof.
  intros Hn. pose proof (allFrom_spec _ _ _ fields_formatted n ltac:(lia)) as H.
  cbv beta in H. unfold twoDigits in H.
  destruct (appendInt n 2) as [|a [|b [|? ?]]]; try discriminate.
  rewrite !andb_true_iff in H. destruct H as [[Ha Hb] Hv].
  apply Z.eqb_eq in Hv. exists a, b. auto.
Qed.

Lemma daysIn_le_31 (m y : Z) : 1 <= m <= 12 -> daysIn m y <= 31.
Proof.
  intros Hm. unfold daysIn.
  assert (m = 1 \/ m = 2 \/ m = 3 \/ m = 4 \/ m = 5 \/ m = 6 \/ m = 7 \/ m = 8 \/ m = 9
          \/ m = 10 \/ m = 11 \/ m = 12) as Hc by lia.
  destruct (isLeap y); repeat (destruct Hc as [-> | Hc]); try subst m; cbn;
    repeat match goal with
           | |- context [daysBefore ?a] =>
               let v := eval vm_compute in (daysBefore a) in change (daysBefore a) with v
           end; lia.
Qed.

Lemma midnight_Date (t : Time) : midnight t = Date (Year t) (Month t) (Day t) 0 0 0 0.
Proof.
  unfold midnight, Year, Month, Day. pose proof (civil_valid t) as H.
  destruct (civil t) as [[y m] d]. cbn [fst snd]. destruct H as (_ & _ & H).
  rewrite Date_midnight_clock in *. lia.
Qed.

(** The text of a day in the layout 2006-01-02. *)
Lemma Format_iso_digits (t : Time) :
  0 <= Year t <= 9999 ->
  exists y1 y2 y3 y4 m1 m2 d1 d2,
    Format t "2006-01-02"
    = String y1 (String y2 (String y3 (String y4 (String "-" (String m1 (String m2
        (String "-" (String d1 (String d2 "")))))))))
    /\ isDigit y1 = true /\ isDigit y2 = true /\ isDigit y3 = true /\ isDigit y4 = true
    /\ isDigit m1 = true /\ isDigit m2 = true /\ isDigit d1 = true /\ isDigit d2 = true
    /\ ((digitVal y1 * 10 + digitVal y2) * 10 + digitVal y3) * 10 + digitVal y4 = Year t
    /\ digitVal m1 * 10 + digitVal m2 = Month t
    /\ digitVal d1 * 10 + digitVal d2 = Day t.
Proof.
  intros Hy. pose proof (civil_valid t) as Hv.
  unfold Year, Month, Day in *. destruct (civil t) as [[y m] d] eqn:Ec. cbn [fst snd] in *.
  destruct Hv as (Hm & Hd & _). pose proof (daysIn_le_31 m y Hm) as H31.
  destruct (appendInt_year y Hy) as (y1 & y2 & y3 & y4 & Ey & ? & ? & ? & ? & ?).
  destruct (appendInt_field m ltac:(lia)) as (m1 & m2 & Em & ? & ? & ?).
  destruct (appendInt_field d ltac:(lia)) as (d1 & d2 & Ed & ? & ? & ?).
  exists y1, y2, y3, y4, m1, m2, d1, d2.
  split; [|auto 15].
  unfold Format.
  change (chunks "2006-01-02") with [stdLongYear; lit "-"; stdZeroMonth; lit "-"; stdZeroDay].
  cbn [map formatChunk String.concat]. unfold Year, Month, Day. rewrite Ec. cbn [fst snd].
  rewrite Ey, Em, Ed. reflexivity.
Qed.

Lemma Parse_Format_iso (t : Time) :
  0 <= Year t <= 9999 -> Parse "2006-01-02" (Format t "2006-01-02") = Some (midnight t).
Proof.
  intros Hy. rewrite midnight_Date.
  destruct (Format_iso_digits t Hy)
    as (y1 & y2 & y3 & y4 & m1 & m2 & d1 & d2 & -> & Hy1 & Hy2 & Hy3 & Hy4 & Hm1 & Hm2
        & Hd1 & Hd2 & Ey & Em & Ed).
  pose proof (civil_valid t) as Hv.
  unfold Year, Month, Day in *. destruct (civil t) as [[y m] d]. cbn [fst snd] in *.
  destruct Hv as (Hm & Hd & _).
  unfold Parse.
  change (chunks "2006-01-02") with [stdLongYear; lit "-"; stdZeroMonth; lit "-"; stdZeroDay].
  cbn [parseChunks parseChunk]. rewrite Hy1, Hy2, Hy3, Hy4.
  cbn -[digitVal isDigit Z.add Z.mul daysIn Date Z.leb Z.ltb]. rewrite Hm1, Hm2, Em.
  replace ((m <=? 0) || (12 <? m)) with false
    by (symmetry; apply orb_false_iff; split; [apply Z.leb_gt | apply Z.ltb_ge]; lia).
  cbn -[digitVal isDigit Z.add Z.mul daysIn Date Z.leb Z.ltb]. rewrite Hd1, Hd2, Ed, Ey.
  cbn -[digitVal isDigit Z.add Z.mul daysIn Date Z.leb Z.ltb].
  replace (m <? 0) with false by (symmetry; apply Z.ltb_ge; lia).
  replace (d <? 0) with false by (symmetry; apply Z.ltb_ge; lia).
  replace ((d <? 1) || (daysIn m y <? d)) with false
    by (symmetry; apply orb_false_iff; split; apply Z.ltb_ge; lia).
  reflexivity.
Qed.

End FormatParse.

Section ReadBack.

Import GoTime GoTime2.

Lemma digit_not_space (c : ascii) (s : string) :
  isDigit c = true ->
  GoStrings.stripOne GoStrings.spaceRunes (String c s) = None
  /\ GoStrings.stripOne (map GoStrings.rev GoStrings.spaceRunes) (String c s) = None.
Proof.
  destruct c as [[] [] [] [] [] [] [] []]; try discriminate; intros _; split; reflexivity.
Qed.

Lemma digit_not_slash (c : ascii) : isDigit c = true -> Ascii.eqb c "/" = false.
Proof. destruct c as [[] [] [] [] [] [] [] []]; try discriminate; reflexivity. Qed.

(** A text of ten bytes that starts and ends with a digit is trimmed to
    itself. *)
Lemma TrimSpace_digits (a b c d e f g h i j : ascii) :
  isDigit a = true -> isDigit j = true ->
  let s := String a (String b (String c (String d (String e (String f (String g (String h
             (String i (String j ""))))))))) in
  GoStrings.TrimSpace s = s.
Proof.
  intros Ha Hj s. unfold GoStrings.TrimSpace, GoStrings.TrimLeftSpace, GoStrings.TrimRightSpace.
  subst s. cbn [String.length GoStrings.trimLeftFuel].
  rewrite (proj1 (digit_not_space a _ Ha)).
  cbn [String.length GoStrings.rev list_ascii_of_string List.rev app string_of_list_ascii
       GoStrings.trimLeftFuel].
  rewrite (proj2 (digit_not_space j _ Hj)). reflexivity.
Qed.

(** A layout that starts with a month and a slash rejects a text that
    starts with three digits. *)
Lemma month_slash_rejects (month : chunk) (cs : list chunk) (a b c : ascii) (s : string) :
  month = stdNumMonth \/ month = stdZeroMonth ->
  isDigit a = true -> isDigit b = true -> isDigit c = true ->
  parseChunks (month :: lit "/" :: cs) fields0 (String a (String b (String c s))) = None.
Proof.
  intros Hm Ha Hb Hc.
  assert (forall fixed, getnum (String a (String b (String c s))) fixed
                        = Some (digitVal a * 10 + digitVal b, String c s)) as Hg.
  { intros fixed. unfold getnum. now rewrite Ha, Hb. }
  destruct Hm as [-> | ->]; cbn [parseChunks parseChunk]; rewrite Hg;
    (destruct ((digitVal a * 10 + digitVal b <=? 0) || (12 <? digitVal a * 10 + digitVal b));
     [reflexivity|]);
    cbn [parseChunks parseChunk]; now rewrite (digit_not_slash c Hc).
Qed.

Lemma tryFormats_Format (t : Time) :
  0 <= Year t <= 9999 ->
  ImprovedDates.parseDate (Format t "2006-01-02")
  = if Year (midnight t) <? 1950 then AddDate (midnight t) 2000 0 0 else midnight t.
Proof.
  intros Hy. pose proof (Parse_Format_iso t Hy) as Hp.
  destruct (Format_iso_digits t Hy)
    as (y1 & y2 & y3 & y4 & m1 & m2 & d1 & d2 & E & Hy1 & Hy2 & Hy3 & Hy4 & Hm1 & Hm2
        & Hd1 & Hd2 & _).
  unfold ImprovedDates.parseDate. rewrite E in *.
  rewrite (TrimSpace_digits y1 y2 y3 y4 "-" m1 m2 "-" d1 d2 Hy1 Hd2).
  unfold ImprovedDates.formats. cbn [ImprovedDates.tryFormats].
  unfold Parse at 1. change (chunks "1/2/06") with [stdNumMonth; lit "/"; stdDay; lit "/"; stdYear].
  rewrite month_slash_rejects by auto.
  unfold Parse at 1.
  change (chunks "1/2/2006") with [stdNumMonth; lit "/"; stdDay; lit "/"; stdLongYear].
  rewrite month_slash_rejects by auto.
  unfold Parse at 1.
  change (chunks "01/02/06") with [stdZeroMonth; lit "/"; stdZeroDay; lit "/"; stdYear].
  rewrite month_slash_rejects by auto.
  unfold Parse at 1.
  change (chunks "01/02/2006") with [stdZeroMonth; lit "/"; stdZeroDay; lit "/"; stdLongYear].
  rewrite month_slash_rejects by auto.
  rewrite Hp. reflexivity.
Qed.

Lemma Year_midnight (t : Time) : Year (midnight t) = Year t.
Proof.
  unfold Year, civil, midnight. f_equal. f_equal. f_equal.
  pose proof nsPerDay_pos.
  pose proof (Z.div_mod t nsPerDay ltac:(lia)) as H1.
  replace (t - t mod nsPerDay) with (0 + (t / nsPerDay) * nsPerDay) by lia.
  rewrite Z.div_add by lia. reflexivity.
Qed.

End ReadBack.

(** X15: a date that is written with [Format] in the layout 2006-01-02, as
    [buildGroupSchedules] writes the next ex-date of a group, is read back by
    [ImprovedYieldMaxScraper.parseDate] as the start of the same day when its
    year is between 1950 and 9999; a year from 0 to 1949 comes back 2000 years
    later.  [time.Parse] in that layout alone returns the start of the day
    for every year from 0 to 9999. *)
Theorem parseDate_reads_Format (t : GoTime.Time) :
  (1950 <= GoTime.Year t <= 9999 ->
   ImprovedDates.parseDate (GoTime2.Format t "2006-01-02") = midnight t)
  /\ (0 <= GoTime.Year t < 1950 ->
      ImprovedDates.parseDate (GoTime2.Format t "2006-01-02")
      = GoTime.AddDate (midnight t) 2000 0 0)
  /\ (0 <= GoTime.Year t <= 9999 ->
      GoTime.Parse "2006-01-02" (GoTime2.Format t "2006-01-02") = Some (midnight t)).
Proof.
  split; [|split].
  - intros Hy. rewrite tryFormats_Format, Year_midnight by lia.
    now replace (GoTime.Year t <? 1950) with false by (symmetry; apply Z.ltb_ge; lia).
  - intros Hy. rewrite tryFormats_Format, Year_midnight by lia.
    now replace (GoTime.Year t <? 1950) with true by (symmetry; apply Z.ltb_lt; lia).
  - apply Parse_Format_iso.
Qed.

Lemma parseDate_reads_Format_witness :
  ImprovedDates.parseDate (GoTime2.Format noon0601 "2006-01-02") = midnight0601.
Proof.
  rewrite (proj1 (parseDate_reads_Format noon0601)); [reflexivity|].
  vm_compute. split; discriminate.
Defined.

(** ** The cache directory: removal and the sweeps *)

Section CacheDirectory.

Import GoTime GoStrings Cache CacheOps.

Lemma stripPrefix_app (p s r : string) : stripPrefix p s = Some r <-> s = p +:+ r.
Proof.
  revert s. induction p as [|a p IH]; intros s; cbn [stripPrefix].
  - change ("" +:+ r) with r. split; [now intros [= ->] | now intros ->].
  - destruct s as [|b s].
    + split; [discriminate|]. change (String a p +:+ r) with (String a (p +:+ r)). discriminate.
    + change (String a p +:+ r) with (String a (p +:+ r)).
      destruct (Ascii.eqb a b) eqn:E.
      * apply Ascii.eqb_eq in E as ->. rewrite IH. split; [now intros -> | now intros [= ->]].
      * apply Ascii.eqb_neq in E. split; [discriminate | intros [= -> _]; now elim E].
Qed.

Lemma cutSlash_false (s name : string) : cutSlash s = (name, false) -> s = name.
Proof.
  revert name. induction s as [|c s IH]; intros name; cbn [cutSlash]; [now intros [= <-]|].
  destruct (Ascii.eqb c "/") eqn:E.
  - apply Ascii.eqb_eq in E as ->. discriminate.
  - assert ((let '(n, deeper) := cutSlash s in (String c n, deeper)) = (name, false) ->
            String c s = name) as H.
    { destruct (cutSlash s) as [n deeper]. intros [= <- ->]. now rewrite (IH n eq_refl). }
    destruct c as [[] [] [] [] [] [] [] []]; try exact H. discriminate E.
Qed.

Lemma dirEntry_file (dir path name : string) :
  dirEntry dir path = Some {| Name := name; IsDir := false |}
  <-> path = dir +:+ "/" +:+ name /\ plainName name.
Proof.
  unfold dirEntry, plainName. split.
  - destruct (stripPrefix (dir +:+ "/") path) as [rest|] eqn:E; [|discriminate].
    apply stripPrefix_app in E. destruct (cutSlash rest) as [n deeper] eqn:Ec.
    destruct (String.eqb n "") eqn:En; [discriminate|]. intros [= -> ->].
    pose proof (cutSlash_false _ _ Ec) as ->. apply String.eqb_neq in En.
    rewrite E. split; [|auto]. clear. induction dir as [|a d IH]; [reflexivity|].
    change (String a ((d +:+ "/") +:+ name) = String a (d +:+ "/" +:+ name)). now f_equal.
  - intros [-> [Hc Hn]].
    assert (stripPrefix (dir +:+ "/") (dir +:+ "/" +:+ name) = Some name) as ->.
    { apply stripPrefix_app. clear. induction dir as [|a d IH]; [reflexivity|].
      change (String a (d +:+ "/" +:+ name) = String a ((d +:+ "/") +:+ name)). now f_equal. }
    rewrite Hc. apply String.eqb_neq in Hn. now rewrite Hn.
Qed.

(** The files of the directory are the entries [ReadDir] lists as files. *)
Lemma ReadDir_file (dir name : string) (fs : gmap string file) :
  {| Name := name; IsDir := false |} ∈ ReadDir dir fs
  <-> is_Some (fs !! (dir +:+ "/" +:+ name)) /\ plainName name.
Proof.
  unfold ReadDir. rewrite merge_sort_Permutation, elem_of_remove_dups, list_elem_of_omap.
  split.
  - intros (path & Hin & He). apply dirEntry_file in He as [-> Hp]. split; [|exact Hp].
    apply list_elem_of_fmap in Hin as ([p f] & Hp1 & Hin). cbn in Hp1. subst p.
    apply elem_of_map_to_list in Hin. eauto.
  - intros [[f Hf] Hp]. exists (dir +:+ "/" +:+ name). split.
    + apply list_elem_of_fmap. exists (dir +:+ "/" +:+ name, f). split; [reflexivity|].
      now apply elem_of_map_to_list.
    + now apply dirEntry_file.
Qed.


Lemma getCacheFilePath_inj (fc : FileCache) (k1 k2 : string) :
  getCacheFilePath fc k1 = getCacheFilePath fc k2 -> k1 = k2.
Proof. unfold getCacheFilePath. intros H. apply append_inj_l in H. now apply append_inj_l in H. Qed.

(** A loop over the entries whose body removes at most the file of its own
    entry, and decides it from that file alone. *)
Lemma sweep_lookup (fc : FileCache)
    (step : nat * gmap string file -> DirEntry -> nat * gmap string file)
    (kills : DirEntry -> option file -> bool) :
  (forall n fs e,
      snd (step (n, fs) e)
      = if kills e (fs !! getCacheFilePath fc (Name e))
        then delete (getCacheFilePath fc (Name e)) fs else fs) ->
  (forall e, kills e None = false) ->
  forall entries n fs p,
    snd (fold_left step entries (n, fs)) !! p
    = if existsb (fun e => String.eqb (getCacheFilePath fc (Name e)) p && kills e (fs !! p)) entries
      then None else fs !! p.
Proof.
  intros Hstep Hnone. induction entries as [|e entries IH]; intros n fs p; [reflexivity|].
  cbn [fold_left existsb]. specialize (Hstep n fs e).
  destruct (step (n, fs) e) as [n1 fs1]. cbn [snd] in Hstep. rewrite IH.
  destruct (String.eqb (getCacheFilePath fc (Name e)) p) eqn:E.
  - apply String.eqb_eq in E. subst p. cbn [andb orb].
    destruct (kills e (fs !! getCacheFilePath fc (Name e))) eqn:K; subst fs1; cbn [orb].
    + rewrite lookup_delete_eq.
      replace (existsb _ entries) with false; [reflexivity|].
      symmetry. apply not_true_is_false. intros H. apply existsb_exists in H as (e' & _ & H).
      apply andb_true_iff in H as [_ H]. now rewrite Hnone in H.
    + reflexivity.
  - apply String.eqb_neq in E. cbn [andb orb].
    assert (fs1 !! p = fs !! p) as ->; [|reflexivity].
    subst fs1. destruct (kills e _); [now apply lookup_delete_ne | reflexivity].
Qed.

Lemma Remove_spec (locked : gset string) (path : string) (fs : gmap string file) :
  Remove locked path fs
  = match fs !! path with
    | None => (if isDirectory path fs then Refused else NotExist, fs)
    | Some _ =>
        if bool_decide (path ∈ locked) then (Refused, fs) else (Removed, delete path fs)
    end.
Proof.
  unfold Remove. destruct (fs !! path); [|now destruct (isDirectory path fs)].
  destruct (decide _); [rewrite bool_decide_eq_true_2 | rewrite bool_decide_eq_false_2]; auto.
Qed.

Lemma clearStep_files (fc : FileCache) (locked : gset string) (n : nat)
    (fs : gmap string file) (e : DirEntry) :
  snd (clearStep fc locked (n, fs) e)
  = if clearKills fc locked e (fs !! getCacheFilePath fc (Name e))
    then delete (getCacheFilePath fc (Name e)) fs else fs.
Proof.
  unfold clearStep, clearKills. rewrite Remove_spec. cbv zeta.
  destruct (negb (IsDir e) && isJSON e); [|reflexivity]. cbn [andb].
  destruct (fs !! getCacheFilePath fc (Name e)) as [f|] eqn:E.
  - rewrite (bool_decide_eq_true_2 (is_Some (Some f))) by eauto. cbn [andb].
    destruct (bool_decide (getCacheFilePath fc (Name e) ∈ locked)); reflexivity.
  - rewrite (bool_decide_eq_false_2 (is_Some None)) by (intros [? [=]]).
    now destruct (isDirectory _ fs).
Qed.

Lemma cleanStep_files (fc : FileCache) (now : Time) (locked : gset string) (n : nat)
    (fs : gmap string file) (e : DirEntry) :
  snd (cleanStep fc now locked (n, fs) e)
  = if cleanKills fc now locked e (fs !! getCacheFilePath fc (Name e))
    then delete (getCacheFilePath fc (Name e)) fs else fs.
Proof.
  unfold cleanStep, cleanKills, stale. rewrite Remove_spec. cbv zeta.
  destruct (IsDir e); [reflexivity|]. destruct (isJSON e); [|reflexivity]. cbn [negb orb andb].
  destruct (fs !! getCacheFilePath fc (Name e)) as [f|] eqn:E; [|reflexivity].
  destruct (accessible f); [|reflexivity]. cbn [negb andb].
  destruct (body f) as [entry|raw].
  - destruct (After now (ExpiresAt entry)); [|reflexivity]. cbn [andb].
    destruct (bool_decide (getCacheFilePath fc (Name e) ∈ locked)); reflexivity.
  - cbn [andb]. destruct (bool_decide (getCacheFilePath fc (Name e) ∈ locked)); reflexivity.
Qed.

End CacheDirectory.

Section Sweeps.

Import GoTime GoStrings Cache CacheOps.

Variables (fc : FileCache) (locked : gset string) (fs : gmap string file).

Lemma Clear_lookup (p : string) :
  left (Clear fc true locked fs) !! p
  = if existsb (fun e => String.eqb (getCacheFilePath fc (Name e)) p
                         && clearKills fc locked e (fs !! p))
               (ReadDir (cacheDir fc) fs)
    then None else fs !! p.
Proof.
  unfold Clear.
  pose proof (sweep_lookup fc (clearStep fc locked) (clearKills fc locked)
                (clearStep_files fc locked)) as H.
  specialize (H ltac:(intros e; unfold clearKills;
                      rewrite (bool_decide_eq_false_2 (is_Some None)) by (intros [? [=]]);
                      now rewrite andb_false_r)).
  specialize (H (ReadDir (cacheDir fc) fs) O fs p).
  destruct (fold_left _ _ _) as [n fs']. exact H.
Qed.

Lemma CleanExpired_lookup (now : Time) (p : string) :
  left (CleanExpired fc now true locked fs) !! p
  = if existsb (fun e => String.eqb (getCacheFilePath fc (Name e)) p
                         && cleanKills fc now locked e (fs !! p))
               (ReadDir (cacheDir fc) fs)
    then None else fs !! p.
Proof.
  unfold CleanExpired.
  pose proof (sweep_lookup fc (cleanStep fc now locked) (cleanKills fc now locked)
                (cleanStep_files fc now locked)) as H.
  specialize (H ltac:(intros e; unfold cleanKills; now rewrite andb_false_r)).
  specialize (H (ReadDir (cacheDir fc) fs) O fs p).
  destruct (fold_left _ _ _) as [n fs']. exact H.
Qed.

(** The file of a listed name is found by the loop. *)
Lemma file_listed (name : string) (f : file) :
  plainName name -> fs !! getCacheFilePath fc name = Some f ->
  In {| Name := name; IsDir := false |} (ReadDir (cacheDir fc) fs).
Proof.
  intros Hp Hf. apply list_elem_of_In, ReadDir_file. split; [|exact Hp].
  unfold getCacheFilePath in Hf. eauto.
Qed.

Lemma Clear_removed (name : string) :
  plainName name -> Ext name = ".json" -> getCacheFilePath fc name ∉ locked ->
  left (Clear fc true locked fs) !! getCacheFilePath fc name = None.
Proof.
  intros Hp He Hl. rewrite Clear_lookup.
  destruct (fs !! getCacheFilePath fc name) as [f|] eqn:Hf; [|now destruct (existsb _ _)].
  replace (existsb _ _) with true; [reflexivity|]. symmetry. apply existsb_exists.
  exists {| Name := name; IsDir := false |}. split; [now apply (file_listed name f)|].
  cbn [Name]. rewrite String.eqb_refl. unfold clearKills, isJSON. cbn [Name IsDir negb andb].
  rewrite He, (bool_decide_eq_true_2 (is_Some (Some f))) by eauto.
  now rewrite bool_decide_eq_false_2.
Qed.

Lemma Clear_kept (p : string) :
  (forall name, p = getCacheFilePath fc name -> plainName name -> Ext name = ".json" ->
                p ∈ locked) ->
  left (Clear fc true locked fs) !! p = fs !! p.
Proof.
  intros H. rewrite Clear_lookup.
  replace (existsb _ _) with false; [reflexivity|]. symmetry. apply not_true_is_false.
  intros Hex. apply existsb_exists in Hex as ([name dir] & Hin & Hk).
  apply andb_true_iff in Hk as [Hp Hk]. apply String.eqb_eq in Hp. cbn [Name] in Hp.
  unfold clearKills, isJSON in Hk. cbn [Name IsDir] in Hk.
  rewrite !andb_true_iff in Hk. destruct Hk as [[[Hd Hj] _] Hl].
  destruct dir; [discriminate|]. apply String.eqb_eq in Hj.
  apply list_elem_of_In, ReadDir_file in Hin as [_ Hplain].
  specialize (H name (eq_sym Hp) Hplain Hj). subst p.
  now rewrite bool_decide_eq_true_2 in Hl.
Qed.

(** What [CleanExpired] removes was stale at the instant of the sweep. *)
Lemma CleanExpired_cases (now : Time) (p : string) :
  left (CleanExpired fc now true locked fs) !! p = fs !! p
  \/ (left (CleanExpired fc now true locked fs) !! p = None
      /\ exists f, fs !! p = Some f /\ stale now f = true).
Proof.
  rewrite CleanExpired_lookup. destruct (existsb _ _) eqn:Hex; [right | now left].
  split; [reflexivity|]. apply existsb_exists in Hex as (e & _ & Hk).
  apply andb_true_iff in Hk as [_ Hk]. unfold cleanKills in Hk.
  rewrite !andb_true_iff in Hk. destruct Hk as [[_ Hs] _].
  destruct (fs !! p) as [f|]; [eauto | discriminate].
Qed.

Lemma CleanExpired_removed (now : Time) (name : string) (f : file) :
  plainName name -> Ext name = ".json" -> getCacheFilePath fc name ∉ locked ->
  fs !! getCacheFilePath fc name = Some f -> stale now f = true ->
  left (CleanExpired fc now true locked fs) !! getCacheFilePath fc name = None.
Proof.
  intros Hp He Hl Hf Hs. rewrite CleanExpired_lookup.
  replace (existsb _ _) with true; [reflexivity|]. symmetry. apply existsb_exists.
  exists {| Name := name; IsDir := false |}. split; [now apply (file_listed name f)|].
  cbn [Name]. rewrite String.eqb_refl. unfold cleanKills, isJSON. cbn [Name IsDir negb andb].
  rewrite He, Hf, Hs. now rewrite bool_decide_eq_false_2.
Qed.

End Sweeps.

Section Answers.

Import GoTime GoStrings Cache CacheOps.

Variables (fc : FileCache) (key : string) (target : goType) (refused : gset string).

(** What [Get] answers depends on the file of the key only. *)
Lemma Get_answer_lookup (now : Time) (fs1 fs2 : gmap string file) :
  fs1 !! getCacheFilePath fc key = fs2 !! getCacheFilePath fc key ->
  answer (Get fc key target now refused fs1) = answer (Get fc key target now refused fs2).
Proof.
  intros H. unfold answer, Get. cbv zeta. rewrite H.
  destruct (fs2 !! getCacheFilePath fc key) as [f|]; [|reflexivity].
  destruct (accessible f); [|reflexivity]. cbn [negb].
  destruct (body f) as [entry|raw]; [|reflexivity].
  destruct (After now (ExpiresAt entry)); [reflexivity|].
  destruct (unmarshals target (Data entry)); reflexivity.
Qed.

Lemma Get_answer_absent (now : Time) (fs : gmap string file) :
  fs !! getCacheFilePath fc key = None ->
  answer (Get fc key target now refused fs) = (false, None, None).
Proof. intros H. unfold answer, Get. cbv zeta. now rewrite H. Qed.

Lemma Get_answer_stale (now now' : Time) (fs : gmap string file) (f : file) :
  fs !! getCacheFilePath fc key = Some f -> stale now f = true -> now <= now' ->
  answer (Get fc key target now' refused fs) = (false, None, None).
Proof.
  intros Hf Hs Hle. unfold answer, Get. cbv zeta. rewrite Hf.
  unfold stale in Hs. apply andb_true_iff in Hs as [-> Hs]. cbn [negb].
  destruct (body f) as [entry|raw]; [|reflexivity].
  unfold After in *. apply Z.ltb_lt in Hs.
  replace (ExpiresAt entry <? now') with true by (symmetry; apply Z.ltb_lt; lia).
  reflexivity.
Qed.

Lemma CleanExpired_answer (now now' : Time) (readable : bool) (locked : gset string)
    (fs : gmap string file) :
  now <= now' ->
  answer (Get fc key target now' refused (left (CleanExpired fc now readable locked fs)))
  = answer (Get fc key target now' refused fs).
Proof.
  intros Hle. destruct readable; [|reflexivity].
  destruct (CleanExpired_cases fc locked fs now (getCacheFilePath fc key))
    as [H | [H (f & Hf & Hs)]].
  - now apply Get_answer_lookup.
  - rewrite (Get_answer_absent _ _ H). symmetry. now apply (Get_answer_stale now now' fs f).
Qed.

End Answers.

Section SweepCounts.

Import GoTime GoStrings Cache CacheOps.

Variables (fc : FileCache) (locked : gset string).

Lemma clearStep_count (n : nat) (fs : gmap string file) (e : DirEntry) :
  let '(n', fs') := clearStep fc locked (n, fs) e in
  (n' + size fs' = n + size fs)%nat.
Proof.
  unfold clearStep. rewrite Remove_spec. cbv zeta.
  destruct (negb (IsDir e) && isJSON e); [|reflexivity].
  destruct (fs !! getCacheFilePath fc (Name e)) as [f|] eqn:Hf;
    [|now destruct (isDirectory _ fs)].
  destruct (bool_decide _); [reflexivity|].
  rewrite <- (insert_delete_id fs _ _ Hf) at 2.
  rewrite map_size_insert_None by apply lookup_delete_eq. lia.
Qed.

Lemma clear_count (entries : list DirEntry) :
  forall n fs,
    let '(n', fs') := fold_left (clearStep fc locked) entries (n, fs) in
    (n' + size fs' = n + size fs)%nat.
Proof.
  induction entries as [|e entries IH]; intros n fs; [reflexivity|].
  cbn [fold_left]. pose proof (clearStep_count n fs e) as H.
  destruct (clearStep fc locked (n, fs) e) as [n1 fs1].
  specialize (IH n1 fs1). destruct (fold_left _ _ _) as [n' fs']. lia.
Qed.

Lemma Clear_count (fs : gmap string file) :
  (count (Clear fc true locked fs) + size (left (Clear fc true locked fs)) = size fs)%nat.
Proof.
  unfold Clear. pose proof (clear_count (ReadDir (cacheDir fc) fs) O fs) as H.
  destruct (fold_left _ _ _) as [n' fs']. exact H.
Qed.

End SweepCounts.

Section Statistics.

Import GoTime GoStrings Cache CacheOps.

Variables (fc : FileCache) (now : Time) (size : file -> Z).

Lemma stats_bounds (fs : gmap string file) (entries : list DirEntry) :
  forall t s x,
    0 <= x <= t ->
    let '(t', _, x') := fold_left (statsStep fc now size fs) entries (t, s, x) in
    0 <= x' <= t'.
Proof.
  induction entries as [|e entries IH]; intros t s x Hx; [exact Hx|].
  cbn [fold_left].
  assert (let '(t1, _, x1) := statsStep fc now size fs (t, s, x) e in 0 <= x1 <= t1) as H1.
  { unfold statsStep. cbv zeta. destruct (IsDir e || negb (isJSON e)); [exact Hx|].
    destruct (fs !! getCacheFilePath fc (Name e)) as [f|]; [|lia].
    destruct (negb (accessible f)); [lia|].
    destruct (body f) as [c|raw]; [|lia]. destruct (After now (ExpiresAt c)); lia. }
  destruct (statsStep fc now size fs (t, s, x) e) as [[t1 s1] x1]. now apply IH.
Qed.

(** An entry that [GetStats] does not count as expired. *)
Lemma stats_none_expired (fs : gmap string file) (entries : list DirEntry) :
  (forall e f, In e entries -> IsDir e = false -> isJSON e = true ->
               fs !! getCacheFilePath fc (Name e) = Some f -> stale now f = false) ->
  forall t s,
    snd (fold_left (statsStep fc now size fs) entries (t, s, 0)) = 0.
Proof.
  induction entries as [|e entries IH]; intros H t s; [reflexivity|].
  cbn [fold_left].
  assert (snd (statsStep fc now size fs (t, s, 0) e) = 0) as H1.
  { unfold statsStep. cbv zeta. destruct (IsDir e) eqn:Hd; [reflexivity|].
    destruct (isJSON e) eqn:Hj; [|reflexivity]. cbn [orb negb].
    destruct (fs !! getCacheFilePath fc (Name e)) as [f|] eqn:Hf; [|reflexivity].
    specialize (H e f (or_introl eq_refl) Hd Hj Hf). unfold stale in H.
    destruct (accessible f); [|reflexivity]. cbn [negb andb] in *.
    destruct (body f) as [c|raw]; [|reflexivity]. now rewrite H. }
  destruct (statsStep fc now size fs (t, s, 0) e) as [[t1 s1] x1]. cbn [snd] in H1. subst x1.
  apply IH. intros e' f Hin. apply H. now right.
Qed.

Lemma swept_not_stale (fs : gmap string file) (e : DirEntry) (f : file) :
  In e (ReadDir (cacheDir fc) (left (CleanExpired fc now true ∅ fs))) ->
  IsDir e = false -> isJSON e = true ->
  left (CleanExpired fc now true ∅ fs) !! getCacheFilePath fc (Name e) = Some f ->
  stale now f = false.
Proof.
  intros Hin Hd Hj Hf. destruct e as [name dir]. cbn [Name IsDir] in *. subst dir.
  apply list_elem_of_In, ReadDir_file in Hin as [_ Hp].
  destruct (stale now f) eqn:Hs; [|reflexivity]. exfalso.
  destruct (CleanExpired_cases fc ∅ fs now (getCacheFilePath fc name)) as [H | [H _]];
    [|congruence].
  rewrite Hf in H. symmetry in H.
  unfold isJSON in Hj. cbn [Name] in Hj. apply String.eqb_eq in Hj.
  pose proof (CleanExpired_removed fc ∅ fs now name f Hp Hj ltac:(set_solver) H Hs) as Hn.
  congruence.
Qed.

End Statistics.

(** X3: for a key that is a plain file name, [Delete] returns an error
    exactly when the file of the key exists and the system refuses to remove
    it, or the key names a directory (which has files below it, so that its
    removal fails).  After a [Delete] without error [Get] of the key is a
    miss without error; a [Delete] of a key that has no file changes nothing,
    and no [Delete] touches the file of another path. *)
Theorem Delete_then_Get (fc : Cache.FileCache) (key : string) (target : Cache.goType)
    (now : GoTime.Time) (locked refused : gset string) (fs : gmap string Cache.file) :
  fileKey key ->
  let path := Cache.getCacheFilePath fc key in
  let r := CacheOps.Delete fc key locked fs in
  (fst r <> None <->
   (is_Some (fs !! path) /\ path ∈ locked)
   \/ (fs !! path = None /\ Cache.isDirectory path fs = true))
  /\ (fst r <> None -> fst r = Some (CacheOps.ErrDelete path) /\ snd r = fs)
  /\ (fst r = None ->
      snd r !! path = None
      /\ answer (Cache.Get fc key target now refused (snd r)) = (false, None, None))
  /\ (fs !! path = None -> snd r = fs)
  /\ (forall p, p <> path -> snd r !! p = fs !! p).
Proof.
  intros _. cbv zeta. unfold CacheOps.Delete. rewrite Remove_spec. cbv zeta.
  destruct (fs !! Cache.getCacheFilePath fc key) as [f|] eqn:Hf.
  - destruct (bool_decide _) eqn:Hl; cbn [fst snd].
    + apply bool_decide_eq_true_1 in Hl.
      split; [split; [intros _; left; eauto | discriminate]|].
      split; [auto|]. split; [discriminate|]. split; [discriminate | reflexivity].
    + apply bool_decide_eq_false_1 in Hl.
      split; [split; [now intros H | intros [[_ H] | [H _]]; [contradiction | discriminate]]|].
      split; [now intros H|].
      split; [intros _; split; [apply lookup_delete_eq|apply Get_answer_absent, lookup_delete_eq]|].
      split; [discriminate|]. intros p Hp. now apply lookup_delete_ne.
  - destruct (Cache.isDirectory _ fs) eqn:Hd; cbn [fst snd].
    + split; [split; [intros _; right; auto | discriminate]|].
      split; [auto|]. split; [discriminate|]. split; reflexivity.
    + split; [split; [now intros H | intros [[[? [=]] _] | [_ [=]]]]|].
      split; [now intros H|].
      split; [intros _; split; [exact Hf | now apply Get_answer_absent]|]. split; reflexivity.
Qed.

(** X4: when the cache directory can be read, [Clear] returns no error and
    removes every file of the directory whose name ends in the extension
    .json, unless the system refuses the removal; afterwards [Get] of such a
    name is a miss.  Every other file stays as it is: a file whose name has
    another extension, a file in a subdirectory, a file outside the
    directory.  The number [Clear] logs is the number of files that are
    gone.  When the directory cannot be read, [Clear] returns an error and
    changes nothing. *)
Theorem Clear_removes_json_files (fc : Cache.FileCache) (target : Cache.goType)
    (now : GoTime.Time) (locked refused : gset string) (fs : gmap string Cache.file) :
  let r := CacheOps.Clear fc true locked fs in
  CacheOps.sweepErr r = None
  /\ (forall name,
        plainName name -> CacheOps.Ext name = ".json" ->
        Cache.getCacheFilePath fc name ∉ locked ->
        CacheOps.left r !! Cache.getCacheFilePath fc name = None
        /\ answer (Cache.Get fc name target now refused (CacheOps.left r))
           = (false, None, None))
  /\ (forall p,
        (forall name, plainName name -> CacheOps.Ext name = ".json" ->
                      p <> Cache.getCacheFilePath fc name) ->
        CacheOps.left r !! p = fs !! p)
  /\ (forall p, p ∈ locked -> CacheOps.left r !! p = fs !! p)
  /\ (CacheOps.count r + size (CacheOps.left r) = size fs)%nat
  /\ CacheOps.Clear fc false locked fs
     = {| CacheOps.sweepErr := Some CacheOps.ErrReadDir; CacheOps.count := O;
          CacheOps.left := fs |}.
Proof.
  cbv zeta. split; [unfold CacheOps.Clear; now destruct (fold_left _ _ _)|].
  split.
  { intros name Hp He Hl. pose proof (Clear_removed fc locked fs name Hp He Hl) as H.
    split; [exact H | now apply Get_answer_absent]. }
  split.
  { intros p H. apply Clear_kept. intros name -> Hp He. now elim (H name Hp He). }
  split; [intros p Hl; apply Clear_kept; auto|].
  split; [apply Clear_count | reflexivity].
Qed.

(** X5: a [CleanExpired] does not change what a [Get] at the same or a later
    instant answers, for any key and target.  What it removes are files that
    open and that do not decode or have expired; it removes every such file
    of the directory with the extension .json unless the system refuses; when
    the directory cannot be read it returns an error and changes nothing. *)
Theorem CleanExpired_keeps_answers (fc : Cache.FileCache) (now : GoTime.Time)
    (locked : gset string) (fs : gmap string Cache.file) :
  let r := CacheOps.CleanExpired fc now true locked fs in
  (forall key target now' readable refused,
      now <= now' ->
      answer (Cache.Get fc key target now' refused
                (CacheOps.left (CacheOps.CleanExpired fc now readable locked fs)))
      = answer (Cache.Get fc key target now' refused fs))
  /\ (forall p,
        CacheOps.left r !! p = fs !! p
        \/ (CacheOps.left r !! p = None /\ exists f, fs !! p = Some f /\ stale now f = true))
  /\ (forall name f,
        plainName name -> CacheOps.Ext name = ".json" ->
        Cache.getCacheFilePath fc name ∉ locked ->
        fs !! Cache.getCacheFilePath fc name = Some f -> stale now f = true ->
        CacheOps.left r !! Cache.getCacheFilePath fc name = None)
  /\ CacheOps.sweepErr r = None
  /\ CacheOps.CleanExpired fc now false locked fs
     = {| CacheOps.sweepErr := Some CacheOps.ErrReadDir; CacheOps.count := O;
          CacheOps.left := fs |}.
Proof.
  cbv zeta. split; [intros key target now' readable refused; apply CleanExpired_answer|].
  split; [apply CleanExpired_cases|]. split; [apply CleanExpired_removed|].
  split; [unfold CacheOps.CleanExpired; now destruct (fold_left _ _ _) | reflexivity].
Qed.

(** X6: [GetStats] on a readable directory returns statistics in which the
    expired entries are at most the total entries; right after a
    [CleanExpired] at the same instant, with no removal refused, it reports
    no expired entry.  On a directory that cannot be read it returns an
    error. *)
Theorem GetStats_expired_entries (fc : Cache.FileCache) (now : GoTime.Time)
    (size : Cache.file -> Z) (fs : gmap string Cache.file) :
  (exists st, CacheOps.GetStats fc now true size fs = Some st
              /\ 0 <= CacheOps.expiredEntries st <= CacheOps.totalEntries st)
  /\ (exists st,
        CacheOps.GetStats fc now true size
          (CacheOps.left (CacheOps.CleanExpired fc now true ∅ fs)) = Some st
        /\ CacheOps.expiredEntries st = 0)
  /\ CacheOps.GetStats fc now false size fs = None.
Proof.
  split; [|split; [|reflexivity]].
  - unfold CacheOps.GetStats.
    pose proof (stats_bounds fc now size fs (CacheOps.ReadDir (Cache.cacheDir fc) fs) 0 0 0
                  ltac:(lia)) as H.
    destruct (fold_left _ _ _) as [[t s] x]. eexists. split; [reflexivity|]. exact H.
  - unfold CacheOps.GetStats.
    set (fs' := CacheOps.left (CacheOps.CleanExpired fc now true ∅ fs)).
    pose proof (stats_none_expired fc now size fs' (CacheOps.ReadDir (Cache.cacheDir fc) fs')
                  (fun e f => swept_not_stale fc now fs e f) 0 0) as H.
    destruct (fold_left _ _ _) as [[t s] x]. eexists. split; [reflexivity|]. exact H.
Qed.

Section Metadata.

Import GoTime GoStrings Cache CacheOps.

Lemma unmarshals_any (j : json) : unmarshals TAny j = true.
Proof. now destruct j. Qed.

Lemma Set_then_Get (fc : FileCache) (key : string) (target : goType) (data : json)
    (now now' : Time) (refused : gset string) (fs : gmap string file) :
  fst (Set_ fc key data now fs) = None -> now' <= now + ttl fc ->
  unmarshals target data = true ->
  answer (Get fc key target now' refused (snd (Set_ fc key data now fs)))
  = (true, None, Some data).
Proof.
  intros Hs Hle Hu. pose proof (Set_stores fc key data now fs Hs) as Hf.
  assert (After now' (now + ttl fc) = false) as Ha by (unfold After; apply Z.ltb_ge; exact Hle).
  unfold answer. now rewrite (Get_hit fc key target now' refused _ _ _ Hf eq_refl eq_refl Ha Hu).
Qed.

Lemma Set_other (fc : FileCache) (key : string) (data : json) (now : Time)
    (fs : gmap string file) (p : string) :
  p <> getCacheFilePath fc key -> snd (Set_ fc key data now fs) !! p = fs !! p.
Proof.
  intros Hp. unfold Set_. cbv zeta.
  destruct (match fs !! getCacheFilePath fc key with Some f => accessible f | None => true end);
    [|reflexivity].
  destruct (dataEncodes data && timeEncodes _ && timeEncodes _); cbn [snd];
    now apply lookup_insert_ne.
Qed.

Lemma Delete_absent (fc : FileCache) (key : string) (locked : gset string)
    (fs : gmap string file) :
  getCacheFilePath fc key ∉ locked ->
  snd (Delete fc key locked fs) !! getCacheFilePath fc key = None.
Proof.
  intros Hl. unfold Delete. rewrite Remove_spec. cbv zeta.
  destruct (fs !! getCacheFilePath fc key) eqn:Hf;
    [|now destruct (isDirectory _ fs)].
  rewrite bool_decide_eq_false_2 by exact Hl. apply lookup_delete_eq.
Qed.

(** The extension is a suffix of the name. *)
Lemma Ext_suffix (name : string) : exists pre, name = pre +:+ Ext name.
Proof.
  induction name as [|c name [pre IH]]; [now exists ""|]. cbn [Ext].
  destruct (String.eqb (Ext name) "") eqn:E.
  - destruct (Ascii.eqb c "."); [now exists ""|].
    exists (String c name). clear. induction (String c name) as [|a s IHs]; [reflexivity|].
    change (String a s = String a (s +:+ "")). now f_equal.
  - exists (String c pre). change (String c name = String c (pre +:+ Ext name)). now f_equal.
Qed.

Lemma lastByte_app (a b : string) : b <> "" -> lastByte (a +:+ b) = lastByte b.
Proof.
  intros Hb. induction a as [|c a IH]; [reflexivity|].
  change (lastByte (String c (a +:+ b)) = lastByte b). cbn [lastByte].
  destruct (a +:+ b) eqn:E; [|exact IH].
  destruct a; [now elim Hb | discriminate E].
Qed.

Lemma numeral_bytes (d : Decimal.uint) :
  NilEmpty.string_of_uint d = ""
  \/ exists c, lastByte (NilEmpty.string_of_uint d) = Some c /\ numeralByte c = true.
Proof.
  induction d as [|d IH|d IH|d IH|d IH|d IH|d IH|d IH|d IH|d IH|d IH]; [now left|..];
    right; cbn [NilEmpty.string_of_uint lastByte];
    (destruct IH as [-> | (c & Hc & Hn)];
     [eexists; split; reflexivity
     | exists c; split; [|exact Hn]; destruct (NilEmpty.string_of_uint d);
       [discriminate Hc | exact Hc]]).
Qed.

Lemma decimal_lastByte (n : Z) :
  exists c, lastByte (Api.decimal n) = Some c /\ numeralByte c = true.
Proof.
  unfold Api.decimal, NilZero.string_of_int.
  assert (forall d, exists c, lastByte (NilZero.string_of_uint d) = Some c
                              /\ numeralByte c = true) as H.
  { intros d. unfold NilZero.string_of_uint.
    destruct (numeral_bytes d) as [E | H]; [|now destruct d; try exact H; exists "0"%char].
    destruct d; try discriminate E. now exists "0"%char. }
  destruct (Z.to_int n) as [d|d]; [apply H|].
  destruct (H d) as (c & Hc & Hn). exists c. split; [|exact Hn].
  cbn [lastByte]. destruct (NilZero.string_of_uint d); [discriminate Hc | exact Hc].
Qed.

(** No key of a dividend history has the extension .json. *)
Lemma historyCacheKey_Ext (symbol : string) (years : Z) :
  Ext (FMPClient.historyCacheKey symbol years) <> ".json".
Proof.
  intros He. destruct (Ext_suffix (FMPClient.historyCacheKey symbol years)) as [pre Hpre].
  rewrite He in Hpre. apply (f_equal lastByte) in Hpre.
  rewrite (lastByte_app pre ".json") in Hpre by discriminate.
  unfold FMPClient.historyCacheKey in Hpre.
  destruct (decimal_lastByte years) as (c & Hc & Hn).
  assert (Api.decimal years <> "") as Hne by (intros E; rewrite E in Hc; discriminate).
  rewrite !lastByte_app in Hpre;
    [| exact Hne | destruct (Api.decimal years); discriminate
     | destruct symbol; discriminate ].
  rewrite Hc in Hpre. cbn in Hpre. injection Hpre as ->. discriminate Hn.
Qed.

End Metadata.

(** X7: what [SetETFMetadata] stores for a symbol, [GetETFMetadata] of that
    symbol returns until the TTL has passed.  [InvalidateETF] of the symbol
    then makes it a miss without error, and storing for one symbol leaves the
    answer for a symbol with another key as it was. *)
Theorem ETFMetadata_round_trip (emc : Cache.FileCache) (symbol : string)
    (metadata : Cache.json) (now now' : GoTime.Time) (refused : gset string)
    (fs : gmap string Cache.file) :
  let stored := CacheOps.SetETFMetadata emc symbol metadata now fs in
  fst stored = None -> now' <= now + Cache.ttl emc ->
  answer (CacheOps.GetETFMetadata emc symbol now' refused (snd stored))
  = (true, None, Some metadata)
  /\ (forall locked,
        Cache.getCacheFilePath emc (CacheOps.metadataKey symbol) ∉ locked ->
        fst (CacheOps.InvalidateETF emc symbol locked (snd stored)) = None
        /\ answer (CacheOps.GetETFMetadata emc symbol now' refused
                     (snd (CacheOps.InvalidateETF emc symbol locked (snd stored))))
           = (false, None, None))
  /\ (forall other,
        CacheOps.metadataKey other <> CacheOps.metadataKey symbol ->
        answer (CacheOps.GetETFMetadata emc other now' refused (snd stored))
        = answer (CacheOps.GetETFMetadata emc other now' refused fs)).
Proof.
  cbv zeta. unfold CacheOps.SetETFMetadata, CacheOps.GetETFMetadata, CacheOps.InvalidateETF.
  intros Hs Hle. split; [apply Set_then_Get; auto using unmarshals_any|]. split.
  - intros locked Hl. split.
    + unfold CacheOps.Delete. rewrite Remove_spec. cbv zeta.
      rewrite (Set_stores emc (CacheOps.metadataKey symbol) metadata now fs Hs).
      now rewrite bool_decide_eq_false_2.
    + now apply Get_answer_absent, Delete_absent.
  - intros other Hk. apply Get_answer_lookup, Set_other.
    intros H. now apply getCacheFilePath_inj in H.
Qed.

Lemma ETFMetadata_round_trip_witness :
  answer (CacheOps.GetETFMetadata AlphaVantageClient.cache "SPY" (noon0601 + hour) ∅
            (snd (CacheOps.SetETFMetadata AlphaVantageClient.cache "SPY" spyMetadata noon0601 ∅)))
  = (true, None, Some spyMetadata).
Proof.
  refine (proj1 (ETFMetadata_round_trip AlphaVantageClient.cache "SPY" spyMetadata noon0601
                   (noon0601 + hour) ∅ ∅ _ _)).
  - vm_compute. reflexivity.
  - vm_compute. discriminate.
Defined.

(** X8: [FMPClient.ClearCache] removes no cached dividend history.  The file
    [GetDividendHistory] caches a history in is named by the key, which has no
    .json extension, so [Clear] passes it by: the file and what [Get] of the
    key answers are the same before and after, for every symbol and number
    of years. *)
Theorem FMP_ClearCache_keeps_histories (symbol : string) (years : Z) (readable : bool)
    (locked refused : gset string) (target : Cache.goType) (now : GoTime.Time)
    (fs : gmap string Cache.file) :
  let key := FMPClient.historyCacheKey symbol years in
  let fs' := CacheOps.left (FMPClient.ClearCache readable locked fs) in
  fs' !! Cache.getCacheFilePath FMPClient.cache key
  = fs !! Cache.getCacheFilePath FMPClient.cache key
  /\ answer (Cache.Get FMPClient.cache key target now refused fs')
     = answer (Cache.Get FMPClient.cache key target now refused fs)
  /\ fst (Api.GetDividendHistory now symbol years None Api.TransportError)
     = [Api.CacheGet key;
        Api.Request Api.fmpURL "/historical-price-full/stock_dividend/" symbol].
Proof.
  cbv zeta.
  assert (CacheOps.left (FMPClient.ClearCache readable locked fs)
            !! Cache.getCacheFilePath FMPClient.cache (FMPClient.historyCacheKey symbol years)
          = fs !! Cache.getCacheFilePath FMPClient.cache (FMPClient.historyCacheKey symbol years))
    as H.
  { unfold FMPClient.ClearCache. destruct readable; [|reflexivity].
    apply Clear_kept. intros name Hn _ He. apply getCacheFilePath_inj in Hn. subst name.
    now elim (historyCacheKey_Ext symbol years). }
  split; [exact H|]. split; [now apply Get_answer_lookup | reflexivity].
Qed.

(** X9: [AlphaVantageClient.ClearCache] keeps every entry that has not
    expired.  Metadata stored for a symbol is still returned by
    [GetETFMetadata] after a [ClearCache], as long as the TTL of 24 hours has
    not passed since it was stored. *)
Theorem AlphaVantage_ClearCache_keeps_fresh (symbol : string) (metadata : Cache.json)
    (written cleared now : GoTime.Time) (readable : bool) (locked refused : gset string)
    (fs : gmap string Cache.file) :
  let stored := CacheOps.SetETFMetadata AlphaVantageClient.cache symbol metadata written fs in
  fst stored = None -> cleared <= now -> now <= written + 24 * CacheOps.Hour ->
  answer (CacheOps.GetETFMetadata AlphaVantageClient.cache symbol now refused
            (CacheOps.left (AlphaVantageClient.ClearCache cleared readable locked (snd stored))))
  = (true, None, Some metadata).
Proof.
  cbv zeta. unfold CacheOps.SetETFMetadata, CacheOps.GetETFMetadata, AlphaVantageClient.ClearCache.
  intros Hs Hc Hn. rewrite CleanExpired_answer by exact Hc.
  apply Set_then_Get; [exact Hs | exact Hn | apply unmarshals_any].
Qed.

Lemma AlphaVantage_ClearCache_keeps_fresh_witness :
  answer (CacheOps.GetETFMetadata AlphaVantageClient.cache "SPY" (noon0601 + 2 * hour) ∅
            (CacheOps.left
               (AlphaVantageClient.ClearCache (noon0601 + hour) true ∅
                  (snd (CacheOps.SetETFMetadata AlphaVantageClient.cache "SPY" spyMetadata
                          noon0601 ∅)))))
  = (true, None, Some spyMetadata).
Proof.
  refine (AlphaVantage_ClearCache_keeps_fresh "SPY" spyMetadata noon0601 (noon0601 + hour)
            (noon0601 + 2 * hour) true ∅ ∅ ∅ _ _ _).
  - vm_compute. reflexivity.
  - vm_compute. discriminate.
  - vm_compute. discriminate.
Defined.

Lemma Delete_then_Get_witness :
  fileKey (CacheOps.metadataKey "SPY")
  /\ answer (Cache.Get AlphaVantageClient.cache (CacheOps.metadataKey "SPY") Cache.TAny
               noon0601 ∅ metadataDir)
     = (true, None, Some spyMetadata)
  /\ answer (Cache.Get AlphaVantageClient.cache (CacheOps.metadataKey "SPY") Cache.TAny
               noon0601 ∅
               (snd (CacheOps.Delete AlphaVantageClient.cache (CacheOps.metadataKey "SPY") ∅
                       metadataDir)))
     = (false, None, None)
  /\ fst (CacheOps.Delete AlphaVantageClient.cache "old" ∅ metadataDir)
     = Some (CacheOps.ErrDelete "cache/etf_metadata/old").
Proof.
  assert (fileKey (CacheOps.metadataKey "SPY")) as Hkey.
  { split; [split; [vm_compute; reflexivity | vm_compute; discriminate]|].
    split; vm_compute; discriminate. }
  assert (fileKey "old") as Hold.
  { split; [split; [reflexivity | discriminate]|]. split; discriminate. }
  split; [exact Hkey|]. split; [vm_compute; reflexivity|]. split.
  - refine (proj2 (proj1 (proj2 (proj2 (Delete_then_Get AlphaVantageClient.cache
                                          (CacheOps.metadataKey "SPY") Cache.TAny noon0601
                                          ∅ ∅ metadataDir Hkey))) _)).
    vm_compute. reflexivity.
  - refine (proj1 (proj1 (proj2 (Delete_then_Get AlphaVantageClient.cache "old" Cache.TAny
                                   noon0601 ∅ ∅ metadataDir Hold)) _)).
    vm_compute. discriminate.
Defined.

Lemma Clear_removes_json_files_witness :
  CacheOps.left (CacheOps.Clear AlphaVantageClient.cache true ∅ metadataDir)
    !! "cache/etf_metadata/broken.json" = None
  /\ CacheOps.count (CacheOps.Clear AlphaVantageClient.cache true ∅ metadataDir) = 3%nat
  /\ CacheOps.left (CacheOps.Clear AlphaVantageClient.cache true ∅ metadataDir)
       !! "cache/etf_metadata/notes.txt"
     = Some {| Cache.body := Cache.Undecodable "to do"; Cache.accessible := true |}.
Proof.
  split; [|split; vm_compute; reflexivity].
  refine (proj1 (proj1 (proj2 (Clear_removes_json_files AlphaVantageClient.cache Cache.TAny
                                 noon0601 ∅ ∅ metadataDir))
                   "broken.json" _ _ _)).
  - split; [reflexivity | discriminate].
  - reflexivity.
  - apply not_elem_of_empty.
Defined.

Lemma CleanExpired_keeps_answers_witness :
  answer (Cache.Get AlphaVantageClient.cache (CacheOps.metadataKey "SPY") Cache.TAny
            (noon0601 + hour) ∅
            (CacheOps.left (CacheOps.CleanExpired AlphaVantageClient.cache noon0601 true ∅
                              metadataDir)))
  = (true, None, Some spyMetadata)
  /\ CacheOps.count (CacheOps.CleanExpired AlphaVantageClient.cache noon0601 true ∅ metadataDir)
     = 2%nat.
Proof.
  split; [|vm_compute; reflexivity].
  rewrite (proj1 (CleanExpired_keeps_answers AlphaVantageClient.cache noon0601 ∅ metadataDir)
             (CacheOps.metadataKey "SPY") Cache.TAny (noon0601 + hour) true ∅);
    [vm_compute; reflexivity | vm_compute; discriminate].
Defined.

(** ** The order of the symbols *)

Section StringOrder.

Lemma ascii_compare_N (a b : ascii) :
  Ascii.compare a b = (N_of_ascii a ?= N_of_ascii b)%N.
Proof. reflexivity. Qed.

Lemma string_compare_cons (x y : ascii) (a b : string) :
  String.compare (String x a) (String y b)
  = match Ascii.compare x y with Eq => String.compare a b | Lt => Lt | Gt => Gt end.
Proof. reflexivity. Qed.

Lemma stringLe_trans (a b c : string) : stringLe a b -> stringLe b c -> stringLe a c.
Proof.
  unfold stringLe, String.leb. revert b c.
  induction a as [|x a IH]; intros [|y b] [|z c]; try (cbn; congruence).
  rewrite !string_compare_cons, !ascii_compare_N.
  destruct (N.compare_spec (N_of_ascii x) (N_of_ascii y)) as [Hxy|Hxy|Hxy];
    destruct (N.compare_spec (N_of_ascii y) (N_of_ascii z)) as [Hyz|Hyz|Hyz];
    destruct (N.compare_spec (N_of_ascii x) (N_of_ascii z)) as [Hxz|Hxz|Hxz];
    try congruence; try lia.
  apply IH.
Qed.

Lemma stringLe_antisym (a b : string) : stringLe a b -> stringLe b a -> a = b.
Proof. apply String.leb_antisym. Qed.

Lemma not_ltb_le (x y : string) : String.ltb y x = false -> stringLe x y.
Proof.
  unfold stringLe, String.ltb, String.leb. rewrite (String.compare_antisym x y).
  now destruct (String.compare y x).
Qed.

Lemma ltb_le (x y : string) : String.ltb y x = true -> stringLe y x.
Proof. unfold stringLe, String.ltb, String.leb. now destruct (String.compare y x). Qed.

End StringOrder.

Section SelectionSort.

Import BatchSetup.

(** One pass leaves the least element first. *)
Lemma scan_spec (todo : list string) :
  forall x done,
    Forall (stringLe x) done ->
    let '(x', rest') := scan x done todo in
    Forall (stringLe x') rest' /\ x' :: rest' ≡ₚ x :: done ++ todo.
Proof.
  induction todo as [|y todo IH]; intros x done Hd; cbn [scan].
  - split; [exact Hd|]. rewrite app_nil_r. reflexivity.
  - destruct (String.ltb y x) eqn:E.
    + specialize (IH y (done ++ [x])).
      destruct (scan y (done ++ [x]) todo) as [x' rest'].
      destruct IH as [H1 H2].
      { apply Forall_app. split; [|repeat constructor; now apply ltb_le].
        eapply Forall_impl; [exact Hd|]. intros d Hx.
        exact (stringLe_trans y x d (ltb_le x y E) Hx). }
      split; [exact H1|]. rewrite H2. rewrite <- app_assoc. cbn [app].
      rewrite <- (Permutation_middle done todo x), <- (Permutation_middle done todo y).
      apply perm_swap.
    + specialize (IH x (done ++ [y])).
      destruct (scan x (done ++ [y]) todo) as [x' rest'].
      destruct IH as [H1 H2].
      { apply Forall_app. split; [exact Hd|]. repeat constructor. now apply not_ltb_le. }
      split; [exact H1|]. rewrite H2, <- app_assoc. reflexivity.
Qed.

Lemma selection_spec (n : nat) :
  forall l, length l = n ->
            StronglySorted stringLe (selection n l) /\ selection n l ≡ₚ l.
Proof.
  induction n as [|n IH]; intros l Hl.
  - destruct l; [|discriminate]. split; [constructor | reflexivity].
  - destruct l as [|x rest]; [discriminate|]. cbn [selection].
    pose proof (scan_spec rest x [] (List.Forall_nil _)) as Hs.
    destruct (scan x [] rest) as [x' rest']. destruct Hs as [H1 H2]. cbn [app] in H2.
    assert (length rest' = n) as Hn.
    { apply Permutation_length in H2. cbn in H2, Hl. lia. }
    destruct (IH rest' Hn) as [H3 H4]. split.
    + constructor; [exact H3|]. now rewrite H4.
    + now rewrite H4.
Qed.

Lemma insert_middle (l1 l2 : list string) (x y : string) :
  <[length l1 := y]> (l1 ++ x :: l2) = l1 ++ y :: l2.
Proof. induction l1 as [|a l1 IH]; [reflexivity|]. cbn. f_equal. exact IH. Qed.

Lemma swap_middle (pre done todo : list string) (x y : string) (i j : nat) :
  i = length pre -> j = S (length pre + length done) ->
  <[i := y]> (<[j := x]> (pre ++ x :: done ++ y :: todo)) = pre ++ y :: done ++ x :: todo.
Proof.
  intros -> ->.
  assert (S (length pre + length done) = length (pre ++ x :: done)) as ->
    by (rewrite length_app; cbn; lia).
  assert (pre ++ x :: done ++ y :: todo = (pre ++ x :: done) ++ y :: todo) as ->
    by (now rewrite <- app_assoc).
  rewrite insert_middle, <- app_assoc. cbn [app]. apply insert_middle.
Qed.

(** The inner loop, on a slice split at the two indices. *)
Lemma innerLoop_scan (pre : list string) (todo : list string) :
  forall x done,
    innerLoop (length todo) (length pre) (S (length pre + length done))
              (pre ++ x :: done ++ todo)
    = let '(x', rest') := scan x done todo in pre ++ x' :: rest'.
Proof.
  induction todo as [|y todo IH]; intros x done; cbn [length innerLoop scan].
  - now rewrite app_nil_r.
  - rewrite (list_lookup_middle pre (done ++ y :: todo) x) by reflexivity.
    assert ((pre ++ x :: done ++ y :: todo) !! S (length pre + length done) = Some y) as ->.
    { replace (pre ++ x :: done ++ y :: todo) with ((pre ++ x :: done) ++ y :: todo)
        by (now rewrite <- app_assoc).
      apply list_lookup_middle. rewrite length_app. cbn. lia. }
    destruct (String.ltb y x).
    + rewrite (swap_middle pre done todo x y) by reflexivity.
      specialize (IH y (done ++ [x])).
      rewrite length_app in IH. cbn [length] in IH.
      replace (S (S (length pre + length done))) with (S (length pre + (length done + 1)))
        by lia.
      rewrite <- app_assoc in IH. cbn [app] in IH. exact IH.
    + specialize (IH x (done ++ [y])).
      rewrite length_app in IH. cbn [length] in IH.
      replace (S (S (length pre + length done))) with (S (length pre + (length done + 1)))
        by lia.
      rewrite <- app_assoc in IH. cbn [app] in IH. exact IH.
Qed.

Lemma outerLoop_selection (n : nat) :
  forall pre l, length l = n ->
                outerLoop n (length pre) (pre ++ l) = pre ++ selection n l.
Proof.
  induction n as [|n IH]; intros pre l Hl; [now destruct l|].
  destruct l as [|x rest]; [discriminate|]. cbn [outerLoop selection].
  replace (length (pre ++ x :: rest) - S (length pre))%nat with (length rest)
    by (rewrite length_app; cbn; lia).
  pose proof (innerLoop_scan pre rest x []) as Hi. cbn [app length] in Hi.
  rewrite Nat.add_0_r in Hi. rewrite Hi.
  pose proof (scan_spec rest x [] (List.Forall_nil _)) as Hs.
  destruct (scan x [] rest) as [x' rest']. destruct Hs as [_ Hp]. cbn [app] in Hp.
  assert (length rest' = n) as Hn.
  { apply Permutation_length in Hp. cbn in Hp, Hl. lia. }
  specialize (IH (pre ++ [x']) rest' Hn).
  rewrite length_app in IH. cbn [length] in IH.
  replace (S (length pre)) with (length pre + 1)%nat by lia.
  rewrite <- !app_assoc in IH. cbn [app] in IH. exact IH.
Qed.

Lemma getSortedETFSymbols_selection (keys : list string) :
  getSortedETFSymbols keys = selection (length keys) keys.
Proof. exact (outerLoop_selection (length keys) [] keys eq_refl). Qed.

End SelectionSort.

(** X10: [getSortedETFSymbols] returns the keys of the map in ascending order
    of their bytes, each key once for each time the iteration yields it.  The
    result does not depend on the order in which the iteration over the map
    yields the keys. *)
Theorem getSortedETFSymbols_sorted (keys : list string) :
  StronglySorted stringLe (BatchSetup.getSortedETFSymbols keys)
  /\ BatchSetup.getSortedETFSymbols keys ≡ₚ keys
  /\ (forall keys', keys' ≡ₚ keys ->
                   BatchSetup.getSortedETFSymbols keys' = BatchSetup.getSortedETFSymbols keys).
Proof.
  assert (forall l, StronglySorted stringLe (BatchSetup.getSortedETFSymbols l)
                    /\ BatchSetup.getSortedETFSymbols l ≡ₚ l) as H.
  { intros l. rewrite getSortedETFSymbols_selection. now apply selection_spec. }
  split; [apply H|]. split; [apply H|]. intros keys' Hp.
  apply (StronglySorted_unique_strong stringLe); [|apply H|apply H|].
  - intros x1 x2 _ _. apply stringLe_antisym.
  - now rewrite (proj2 (H keys')), (proj2 (H keys)).
Qed.

Lemma getSortedETFSymbols_sorted_witness :
  BatchSetup.getSortedETFSymbols ["TSLY"; "CONY"; "NVDY"; "AMZY"]
  = BatchSetup.getSortedETFSymbols ["AMZY"; "NVDY"; "CONY"; "TSLY"].
Proof.
  apply (proj2 (proj2 (getSortedETFSymbols_sorted ["AMZY"; "NVDY"; "CONY"; "TSLY"]))).
  change ["TSLY"; "CONY"; "NVDY"; "AMZY"] with (List.rev ["AMZY"; "NVDY"; "CONY"; "TSLY"]).
  symmetry. apply Permutation_rev.
Defined.

(** ** The ETFs picked for enrichment *)

Section TopETFs.

Import ETFModels Crawler.

Variables (etfs : list ETF) (count : Z).

Lemma symbolMap_lookup (l : list ETF) :
  forall (m : gmap string ETF) s e,
    fold_left (fun m etf => <[Symbol etf := etf]> m) l m !! s = Some e ->
    m !! s = Some e \/ (In e l /\ Symbol e = s).
Proof.
  induction l as [|a l IH]; intros m s e H; [now left|].
  cbn [fold_left] in H. apply IH in H as [H | [H1 H2]]; [|right; split; [now right | exact H2]].
  destruct (decide (Symbol a = s)) as [Heq | Hne].
  - subst s. rewrite lookup_insert_eq in H. injection H as <-. right. split; [now left | reflexivity].
  - rewrite lookup_insert_ne in H by exact Hne. now left.
Qed.

Lemma symbolMapOf_lookup (s : string) (e : ETF) :
  symbolMapOf etfs !! s = Some e -> In e etfs /\ Symbol e = s.
Proof.
  intros H. apply symbolMap_lookup in H as [H | H]; [|exact H].
  rewrite lookup_empty in H. discriminate.
Qed.

Lemma picked_snoc (topETFs : list ETF) (e : ETF) :
  picked etfs topETFs -> In e etfs -> ~ In (Symbol e) (map Symbol topETFs) ->
  picked etfs (topETFs ++ [e]).
Proof.
  intros [Hn Hi] He Hs. split.
  - rewrite map_app. cbn [map]. apply List.NoDup_app; [exact Hn | repeat constructor; auto|].
    intros s Hin [<-|[]]. contradiction.
  - intros e' Hin. apply in_app_or in Hin as [Hin | [<-|[]]]; auto.
Qed.

Lemma addPriority_spec (symbols : list string) :
  forall topETFs,
    picked etfs topETFs ->
    List.NoDup symbols ->
    (forall s, In s (map Symbol topETFs) -> ~ In s symbols) ->
    topETFs = [] \/ Z.of_nat (length topETFs) < count ->
    let r := addPriority (symbolMapOf etfs) count symbols topETFs in
    picked etfs r /\ Z.of_nat (length r) <= Z.max count 1.
Proof.
  induction symbols as [|s symbols IH]; intros topETFs Hp Hn Hd Hl; cbn [addPriority].
  - split; [exact Hp|]. destruct Hl as [-> | Hl]; cbn [length]; lia.
  - inversion Hn as [|? ? Hs Hn']; subst.
    destruct (symbolMapOf etfs !! s) as [etf|] eqn:E.
    + apply symbolMapOf_lookup in E as [He Hsym].
      assert (picked etfs (topETFs ++ [etf])) as Hp'.
      { apply picked_snoc; [exact Hp | exact He|]. rewrite Hsym. intros Hin.
        apply (Hd s Hin). now left. }
      assert (length (topETFs ++ [etf]) = S (length topETFs)) as Hlen
          by (rewrite length_app; cbn; lia).
      destruct (count <=? Z.of_nat (length (topETFs ++ [etf]))) eqn:Hc.
      * split; [exact Hp'|]. rewrite Hlen. destruct Hl as [-> | Hl]; cbn [length]; lia.
      * apply Z.leb_gt in Hc. apply IH; [exact Hp' | exact Hn' | | now right].
        intros s' Hin. rewrite map_app in Hin. apply in_app_or in Hin as [Hin | [<-|[]]].
        -- intros H. apply (Hd s' Hin). now right.
        -- now rewrite Hsym.
    + apply IH; [exact Hp | exact Hn' | | exact Hl].
      intros s' Hin H. apply (Hd s' Hin). now right.
Qed.

Lemma existsb_symbol (topETFs : list ETF) (etf : ETF) :
  existsb (fun selected => String.eqb (Symbol selected) (Symbol etf)) topETFs = true
  <-> In (Symbol etf) (map Symbol topETFs).
Proof.
  rewrite existsb_exists, in_map_iff. split.
  - intros (x & Hx & E). apply String.eqb_eq in E. eauto.
  - intros (x & E & Hx). exists x. split; [exact Hx | now apply String.eqb_eq].
Qed.

Lemma fill_spec (l : list ETF) :
  forall topETFs,
    picked etfs topETFs -> (forall e, In e l -> In e etfs) ->
    Z.of_nat (length topETFs) < count ->
    let r := fill count l topETFs in
    picked etfs r /\ Z.of_nat (length r) <= count
    /\ (forall e, In e topETFs -> In e r)
    /\ (Z.of_nat (length r) < count -> forall e, In e l -> In (Symbol e) (map Symbol r)).
Proof.
  induction l as [|etf l IH]; intros topETFs Hp Hi Hl; cbn [fill].
  - split; [exact Hp|]. split; [lia|]. split; [auto|]. intros _ e [].
  - destruct (existsb _ topETFs) eqn:Hf; cbn [negb].
    + destruct (IH topETFs Hp (fun e H => Hi e (or_intror H)) Hl) as (H1 & H2 & H3 & H4).
      split; [exact H1|]. split; [exact H2|]. split; [exact H3|].
      intros Hlt e [<- | Hin]; [|now apply H4].
      apply existsb_symbol in Hf. apply in_map_iff in Hf as (x & Ex & Hx).
      apply in_map_iff. exists x. split; [exact Ex | now apply H3].
    + assert (picked etfs (topETFs ++ [etf])) as Hp'.
      { apply picked_snoc; [exact Hp | apply Hi; now left|].
        intros Hin. apply existsb_symbol in Hin. congruence. }
      assert (length (topETFs ++ [etf]) = S (length topETFs)) as Hlen
          by (rewrite length_app; cbn; lia).
      destruct (count <=? Z.of_nat (length (topETFs ++ [etf]))) eqn:Hc.
      * apply Z.leb_le in Hc. split; [exact Hp'|]. split; [lia|].
        split; [intros e Hin; apply in_or_app; now left | lia].
      * apply Z.leb_gt in Hc.
        destruct (IH (topETFs ++ [etf]) Hp' (fun e H => Hi e (or_intror H)) Hc)
          as (H1 & H2 & H3 & H4).
        split; [exact H1|]. split; [exact H2|].
        split; [intros e Hin; apply H3, in_or_app; now left|].
        intros Hlt e [<- | Hin]; [|now apply H4].
        apply in_map, H3, in_or_app. right. now left.
Qed.

End TopETFs.

(** X11: [getTopETFs(etfs, count)] returns ETFs of [etfs] with distinct
    symbols, at most [count] of them when [count] is at least 1.  With a
    [count] below 1 it still returns one ETF when [etfs] has a priority
    symbol, never more.  When it returns fewer than [count], every symbol of
    [etfs] is among the symbols returned. *)
Theorem getTopETFs_spec (etfs : list ETFModels.ETF) (count : Z) :
  let top := Crawler.getTopETFs etfs count in
  List.NoDup (map ETFModels.Symbol top)
  /\ (forall e, In e top -> In e etfs)
  /\ Z.of_nat (length top) <= Z.max count 1
  /\ (Z.of_nat (length top) < count ->
      forall e, In e etfs -> In (ETFModels.Symbol e) (map ETFModels.Symbol top)).
Proof.
  cbv zeta. unfold Crawler.getTopETFs. fold (symbolMapOf etfs). cbv zeta.
  assert (picked etfs [] ) as H0 by (split; [constructor | intros e []]).
  pose proof (addPriority_spec etfs count Crawler.prioritySymbols [] H0) as Hp.
  specialize (Hp ltac:(unfold Crawler.prioritySymbols;
                       repeat (constructor; [cbn; intuition discriminate|]); constructor)).
  specialize (Hp ltac:(intros s []) ltac:(now left)). cbv zeta in Hp.
  destruct Hp as [[Hn Hi] Hl].
  destruct (Z.of_nat (length _) <? count) eqn:Hc.
  - apply Z.ltb_lt in Hc.
    destruct (fill_spec etfs count etfs _ (conj Hn Hi) (fun e H => H) Hc)
      as ([H1 H1'] & H2 & H3 & H4).
    split; [exact H1|]. split; [exact H1'|]. split; [lia | exact H4].
  - apply Z.ltb_ge in Hc. split; [exact Hn|]. split; [exact Hi|]. split; [exact Hl | lia].
Qed.

Lemma getTopETFs_spec_witness :
  In "FIAT" (map ETFModels.Symbol (Crawler.getTopETFs [fiatETF; conyETF] 10)).
Proof.
  apply (proj2 (proj2 (proj2 (getTopETFs_spec [fiatETF; conyETF] 10))) ltac:(reflexivity) fiatETF).
  now left.
Defined.

(** With a count of zero the first loop still picks an ETF. *)
Example getTopETFs_count_zero : Crawler.getTopETFs [fiatETF; conyETF] 0 = [conyETF].
Proof. vm_compute. reflexivity. Qed.

Example getTopETFs_priority_first :
  Crawler.getTopETFs [fiatETF; conyETF] 2 = [conyETF; fiatETF].
Proof. vm_compute. reflexivity. Qed.

Section Enrichment.

Import ETFModels Crawler.

Lemma enrich_same (metadataMap : gmap string ETFMetadata) (etf : ETF) :
  sameETF etf (enrich metadataMap etf)
  /\ (String.length (Description etf) <= String.length (Description (enrich metadataMap etf)))%nat
  /\ (Name (enrich metadataMap etf) = "" -> Name etf = "").
Proof.
  unfold enrich, sameETF. destruct (metadataMap !! Symbol etf) as [md|]; [|repeat split; auto].
  cbv zeta.
  destruct (negb (String.eqb (mDescription md) "")
            && (String.length (Description etf) <? String.length (mDescription md))%nat) eqn:Ed;
    destruct (negb (String.eqb (mName md) "") && negb (String.eqb (mName md) (Name etf))) eqn:En;
    cbn [setName setDescription Symbol Group Frequency NextExDate NextPayDate Description Name];
    repeat split; auto;
    try (apply andb_true_iff in Ed as [_ Ed]; apply Nat.ltb_lt in Ed; lia);
    intros H; apply andb_true_iff in En as [En _]; rewrite H in En; discriminate.
Qed.

End Enrichment.

(** X12: [enrichETFsWithMetadata] returns one ETF for each ETF of the list,
    in order, with the same symbol, group, frequency and next dates; a
    description is only replaced by a longer one, and a name is never
    replaced by an empty one.  Without metadata (a nil or empty map) it
    returns the list as it is. *)
Theorem enrichETFsWithMetadata_spec (etfs : list ETFModels.ETF)
    (metadataMap : gmap string ETFModels.ETFMetadata) :
  Forall2 (fun e e' =>
             sameETF e e'
             /\ (String.length (ETFModels.Description e)
                 <= String.length (ETFModels.Description e'))%nat
             /\ (ETFModels.Name e' = "" -> ETFModels.Name e = ""))
          etfs (Crawler.enrichETFsWithMetadata etfs metadataMap)
  /\ Crawler.enrichETFsWithMetadata etfs ∅ = etfs.
Proof.
  unfold Crawler.enrichETFsWithMetadata. split.
  - induction etfs as [|e l IH]; cbn [map]; constructor; [apply enrich_same | exact IH].
  - induction etfs as [|e l IH]; [reflexivity|]. cbn [map]. rewrite IH. f_equal.
    all: unfold Crawler.enrich; now rewrite lookup_empty.
Qed.

(** ** The generated dividend history *)

Section EnhancedHistory.

Import ETFModels Crawler.

Lemma enhancedAmount_floor (group : string) (i : Z) :
  0 <= i ->
  let '(_, baseAmount, volatility) := groupPattern group in
  GoFloat.lt (enhancedAmount baseAmount volatility i) 0.05%float = false
  /\ GoFloat.gt (enhancedAmount baseAmount volatility i) GoFloat.zero = true.
Proof.
  intros Hi. pose proof (Z.rem_bound_pos i 5 Hi ltac:(lia)) as Hr.
  unfold groupPattern, enhancedAmount.
  assert (Z.rem i 5 = 0 \/ Z.rem i 5 = 1 \/ Z.rem i 5 = 2 \/ Z.rem i 5 = 3 \/ Z.rem i 5 = 4)
    as Hc by lia.
  destruct (String.eqb group "Weekly"); [|destruct (String.eqb group "Target12")];
    destruct Hc as [-> | [-> | [-> | [-> | ->]]]]; vm_compute; split; reflexivity.
Qed.

Lemma nth_error_offsets (n k : nat) :
  (k < n)%nat -> nth_error (map Z.of_nat (seq 0 n)) k = Some (Z.of_nat k).
Proof.
  intros Hk. rewrite nth_error_map, nth_error_seq.
  destruct (Nat.ltb_spec k n); [reflexivity | lia].
Qed.

Lemma addUp_fold (yearStart : GoTime.Time) (events : list Models.DividendEvent) :
  forall total ytd,
    fold_left (addUp yearStart) events (total, ytd)
    = (fold_left PrimFloat.add (map Models.Amount events) total,
       fold_left PrimFloat.add
         (map Models.Amount
              (List.filter (fun e => GoTime.After (Models.PayDate e) yearStart) events)) ytd).
Proof.
  induction events as [|e events IH]; intros total ytd; [reflexivity|].
  cbn [fold_left map List.filter addUp]. rewrite IH.
  destruct (GoTime.After (Models.PayDate e) yearStart); reflexivity.
Qed.

End EnhancedHistory.

(** X18: [generateEnhancedHistory] writes 12 events for an ETF of the group
    Weekly, 48 for one of the group Target12 and 24 for any other.  The
    events go back in time from the current instant: event number k is paid
    7 k days before it (28 k days for Target12, so that the 48 events reach
    back 1316 days), goes ex-dividend two days before its pay date and is
    declared five days before it.  Every amount is at least 0.05.  The
    statistics count the events, take the amount of the first event as the
    last amount, add up all amounts for the trailing total, and add up for
    the year-to-date total the amounts of the events whose pay date is after
    January 1 of the current year. *)
Theorem generateEnhancedHistory_spec (now : GoTime.Time) (etf : ETFModels.ETF) :
  let h := Crawler.generateEnhancedHistory now etf in
  let events := Models.Events h in
  let group := ETFModels.Group etf in
  length events = enhancedCount group
  /\ (forall k e,
        nth_error events k = Some e ->
        Models.PayDate e = now - 7 * enhancedStep group * Z.of_nat k * GoTime.nsPerDay
        /\ Models.ExDate e = Models.PayDate e - 2 * GoTime.nsPerDay
        /\ Models.DeclareDate e = Models.PayDate e - 5 * GoTime.nsPerDay
        /\ Models.Symbol e = ETFModels.Symbol etf
        /\ Models.Group e = group
        /\ Models.Frequency e = ETFModels.Frequency etf
        /\ GoFloat.lt (Models.Amount e) 0.05%float = false
        /\ GoFloat.gt (Models.Amount e) GoFloat.zero = true)
  /\ Models.TotalPayments (Models.Stats h) = Z.of_nat (length events)
  /\ Models.LastAmount (Models.Stats h)
     = match events with e :: _ => Models.Amount e | [] => GoFloat.zero end
  /\ Models.TrailingYearTotal (Models.Stats h) = sumAmounts events
  /\ Models.YearToDateTotal (Models.Stats h)
     = sumAmounts
         (List.filter
            (fun e => GoTime.After (Models.PayDate e)
                        (GoTime.Date (GoTime.Year now) 1 1 0 0 0 0))
            events)
  /\ Models.AverageAmount (Models.Stats h)
     = PrimFloat.div (sumAmounts events) (TableScraper.float64_of_len events).
Proof.
  cbv zeta. unfold Crawler.generateEnhancedHistory.
  pose proof (fun i => enhancedAmount_floor (ETFModels.Group etf) i) as Hamount.
  assert (Z.to_nat (fst (fst (Crawler.groupPattern (ETFModels.Group etf))) * 4)
          = enhancedCount (ETFModels.Group etf)) as Hcount.
  { unfold Crawler.groupPattern, enhancedCount.
    destruct (String.eqb (ETFModels.Group etf) "Weekly"); [reflexivity|].
    destruct (String.eqb (ETFModels.Group etf) "Target12"); reflexivity. }
  destruct (Crawler.groupPattern (ETFModels.Group etf)) as [[monthsBack baseAmount] volatility].
  cbn [fst] in Hcount. rewrite addUp_fold. cbn [Models.Events Models.Stats Models.TotalPayments
    Models.LastAmount Models.TrailingYearTotal Models.YearToDateTotal Models.AverageAmount].
  split; [now rewrite !length_map, length_seq|].
  split; [|unfold sumAmounts; repeat split].
  intros k e He. rewrite nth_error_map in He.
  destruct (nth_error (map Z.of_nat (seq 0 (Z.to_nat (monthsBack * 4)))) k) as [i|] eqn:Ei;
    [|discriminate].
  assert (k < Z.to_nat (monthsBack * 4))%nat as Hk.
  { assert (nth_error (map Z.of_nat (seq 0 (Z.to_nat (monthsBack * 4)))) k <> None) as H
      by congruence.
    apply nth_error_Some in H. now rewrite length_map, length_seq in H. }
  rewrite nth_error_offsets in Ei by exact Hk. injection Ei as <-. injection He as <-.
  unfold Crawler.enhancedEvent, enhancedStep. cbv zeta.
  cbn [Models.PayDate Models.ExDate Models.DeclareDate Models.Symbol Models.Group
       Models.Frequency Models.Amount].
  rewrite !AddDate_days. specialize (Hamount (Z.of_nat k) ltac:(lia)).
  destruct (String.eqb (ETFModels.Group etf) "Target12"); repeat split; try lia;
    apply Hamount.
Qed.

Lemma generateEnhancedHistory_spec_witness :
  exists e,
    nth_error (Models.Events (Crawler.generateEnhancedHistory noon0601 conyETF)) 1 = Some e
    /\ Models.PayDate e = noon0601 - 7 * GoTime.nsPerDay.
Proof.
  eexists. split; [vm_compute; reflexivity|].
  refine (eq_trans
            (proj1 (proj1 (proj2 (generateEnhancedHistory_spec noon0601 conyETF)) 1%nat _ _)) _).
  - vm_compute. reflexivity.
  - reflexivity.
Defined.

(** ** The FMP client: filtering and enriching events *)

Section FilterEvents.

Import Models FMPClient.

Lemma symbolSet_lookup (symbols : list string) :
  forall (m : gmap string bool) s,
    default false (fold_left (fun m symbol => <[symbol := true]> m) symbols m !! s)
    = listed symbols s || default false (m !! s).
Proof.
  induction symbols as [|a l IH]; intros m s; [reflexivity|].
  cbn [fold_left]. rewrite IH. unfold listed. cbn [existsb].
  destruct (String.eqb s a) eqn:E.
  - apply String.eqb_eq in E. subst a. rewrite lookup_insert_eq. cbn. now rewrite orb_true_r.
  - apply String.eqb_neq in E. rewrite lookup_insert_ne by congruence. reflexivity.
Qed.

Lemma filter_loop (keep : DividendEvent -> bool) (events : list DividendEvent) :
  forall filtered,
    fold_left (fun filtered event => if keep event then filtered ++ [event] else filtered)
              events filtered
    = filtered ++ List.filter keep events.
Proof.
  induction events as [|e l IH]; intros filtered; cbn [fold_left List.filter].
  - now rewrite app_nil_r.
  - rewrite IH. destruct (keep e); [|reflexivity]. now rewrite <- app_assoc.
Qed.

Lemma FilterYieldMaxSymbols_filter (events : list DividendEvent) (symbols : list string) :
  FilterYieldMaxSymbols events symbols
  = List.filter (fun e => listed symbols (Symbol e)) events.
Proof.
  unfold FilterYieldMaxSymbols. cbv zeta.
  rewrite (filter_loop (fun event => default false (_ !! Symbol event))). cbn [app].
  apply filter_ext. intros e. rewrite symbolSet_lookup, lookup_empty. cbn. apply orb_false_r.
Qed.

End FilterEvents.

(** X13: [FilterYieldMaxSymbols] returns, in their order, exactly the events
    whose symbol is in the list of symbols: an event is in the result if and
    only if it is among the events and its symbol is in the list.  With an
    empty list nothing is left, filtering again by the same list changes
    nothing, and two filters give the same result in either order. *)
Theorem FilterYieldMaxSymbols_spec (events : list Models.DividendEvent)
    (symbols others : list string) :
  let result := FMPClient.FilterYieldMaxSymbols events symbols in
  result = List.filter (fun e => listed symbols (Models.Symbol e)) events
  /\ (forall e, In e result <-> In e events /\ In (Models.Symbol e) symbols)
  /\ FMPClient.FilterYieldMaxSymbols events [] = []
  /\ FMPClient.FilterYieldMaxSymbols result symbols = result
  /\ FMPClient.FilterYieldMaxSymbols result others
     = FMPClient.FilterYieldMaxSymbols (FMPClient.FilterYieldMaxSymbols events others) symbols.
Proof.
  cbv zeta. rewrite !FilterYieldMaxSymbols_filter. split; [reflexivity|]. split.
  - intros e. rewrite filter_In. unfold listed. rewrite existsb_exists. split.
    + intros [H (s & Hs & E)]. apply String.eqb_eq in E. subst s. auto.
    + intros [H Hs]. split; [exact H|]. exists (Models.Symbol e). split; [exact Hs|].
      apply String.eqb_refl.
  - split; [induction events as [|e l IH]; [reflexivity | exact IH]|]. split.
    + induction events as [|e l IH]; [reflexivity|]. cbn [List.filter].
      destruct (listed symbols (Models.Symbol e)) eqn:E; [|exact IH].
      cbn [List.filter]. rewrite E. now f_equal.
    + induction events as [|e l IH]; [reflexivity|]. cbn [List.filter].
      destruct (listed symbols (Models.Symbol e)) eqn:E1;
        destruct (listed others (Models.Symbol e)) eqn:E2;
        cbn [List.filter]; rewrite ?E1, ?E2; now rewrite IH.
Qed.

Lemma FilterYieldMaxSymbols_spec_witness :
  In juneEvent (FMPClient.FilterYieldMaxSymbols [juneEvent] ["CONY"; "TSLY"]).
Proof.
  apply (proj2 (proj1 (proj2 (FilterYieldMaxSymbols_spec [juneEvent] ["CONY"; "TSLY"] []))
                  juneEvent)).
  split; [now left | right; now left].
Defined.

(** X14: [EnrichWithGroupInfo] returns one event for each event of the
    slice, in order, with the same symbol, dates, amount and yield.  An event
    whose symbol the map holds gets the group and the frequency of that ETF;
    every other event is left as it is, and enriching a second time changes
    nothing. *)
Theorem EnrichWithGroupInfo_spec (events : list Models.DividendEvent)
    (etfMap : gmap string ETFModels.ETF) :
  let result := FMPClient.EnrichWithGroupInfo events etfMap in
  Forall2 (fun e e' =>
             sameDividend e e'
             /\ match etfMap !! Models.Symbol e with
                | Some etf => Models.Group e' = ETFModels.Group etf
                              /\ Models.Frequency e' = ETFModels.Frequency etf
                | None => e' = e
                end)
          events result
  /\ FMPClient.EnrichWithGroupInfo result etfMap = result
  /\ FMPClient.EnrichWithGroupInfo events ∅ = events.
Proof.
  cbv zeta. unfold FMPClient.EnrichWithGroupInfo. split; [|split].
  - induction events as [|e l IH]; cbn [map]; constructor; [|exact IH].
    unfold sameDividend. destruct (etfMap !! Models.Symbol e); cbn; repeat split.
  - induction events as [|e l IH]; [reflexivity|]. cbn [map]. rewrite IH. f_equal.
    destruct (etfMap !! Models.Symbol e) as [etf|] eqn:E; cbn [FMPClient.setGroupInfo Models.Symbol];
      now rewrite E.
  - induction events as [|e l IH]; [reflexivity|]. cbn [map]. rewrite IH. f_equal.
Qed.

(** ** The next dividend date of a group *)

Section NextDate.

Import GoTime GoTime2 FixData.

Lemma weekday_cases (t : Time) :
  Weekday t = 0 \/ Weekday t = 1 \/ Weekday t = 2 \/ Weekday t = 3 \/ Weekday t = 4
  \/ Weekday t = 5 \/ Weekday t = 6.
Proof. pose proof (Weekday_range t). lia. Qed.

Lemma Weekday_next (t : Time) : Weekday (AddDate t 0 0 1) = (Weekday t + 1) mod 7.
Proof. rewrite AddDate_days. apply Weekday_add_days. Qed.

(** The loop stops at the first day on the weekday it looks for, less than
    a week away. *)
Lemma nextWeekday_spec (day : Z) :
  0 <= day < 7 ->
  forall fuel d,
    (Z.to_nat ((day - Weekday d) mod 7) < fuel)%nat ->
    nextWeekday fuel day d = Some (d + ((day - Weekday d) mod 7) * nsPerDay).
Proof.
  intros Hday. induction fuel as [|fuel IH]; intros d Hf; [lia|].
  cbn [nextWeekday]. pose proof (Weekday_range d) as Hw.
  destruct (Weekday d =? day) eqn:E.
  - apply Z.eqb_eq in E. rewrite E, Z.sub_diag. change (0 mod 7) with 0. f_equal. lia.
  - apply Z.eqb_neq in E.
    assert ((day - Weekday (AddDate d 0 0 1)) mod 7 = (day - Weekday d) mod 7 - 1
            /\ 1 <= (day - Weekday d) mod 7) as [Hk Hpos].
    { rewrite Weekday_next.
      assert (day = 0 \/ day = 1 \/ day = 2 \/ day = 3 \/ day = 4 \/ day = 5 \/ day = 6)
        as Hd by lia.
      destruct (weekday_cases d) as [H|[H|[H|[H|[H|[H|H]]]]]]; rewrite H in *;
        destruct Hd as [->|[->|[->|[->|[->|[->| ->]]]]]]; try (now elim E); split;
        (reflexivity || (cbv; discriminate)). }
    rewrite IH by lia. rewrite Hk, AddDate_days. f_equal. lia.
Qed.

Lemma daysIn_ge_28 (m y : Z) : 1 <= m <= 12 -> 28 <= daysIn m y.
Proof.
  intros Hm. unfold daysIn.
  assert (m = 1 \/ m = 2 \/ m = 3 \/ m = 4 \/ m = 5 \/ m = 6 \/ m = 7 \/ m = 8 \/ m = 9
          \/ m = 10 \/ m = 11 \/ m = 12) as Hc by lia.
  destruct (isLeap y); repeat (destruct Hc as [-> | Hc]); try subst m; cbn;
    repeat match goal with
           | |- context [daysBefore ?a] =>
               let v := eval vm_compute in (daysBefore a) in change (daysBefore a) with v
           end; lia.
Qed.

Lemma Date_add_days (y m d k : Z) :
  Date y m d 0 0 0 0 + k * nsPerDay = Date y m (d + k) 0 0 0 0.
Proof. rewrite !Date_midnight_clock, dateDays_add_day. lia. Qed.

(** The loop over a month stops at its first day on the weekday it looks
    for, which is among the first seven. *)
Lemma firstInMonth_spec (day y m : Z) :
  0 <= day < 7 -> 1 <= m <= 12 ->
  forall fuel j,
    0 <= j ->
    j + (day - Weekday (Date y m (1 + j) 0 0 0 0)) mod 7 <= 27 ->
    (Z.to_nat ((day - Weekday (Date y m (1 + j) 0 0 0 0)) mod 7) < fuel)%nat ->
    firstInMonth fuel day m (Date y m (1 + j) 0 0 0 0)
    = Returned (Date y m (1 + j + (day - Weekday (Date y m (1 + j) 0 0 0 0)) mod 7) 0 0 0 0).
Proof.
  intros Hday Hm. induction fuel as [|fuel IH]; intros j Hj Hin Hf; [lia|].
  cbn [firstInMonth]. set (d := Date y m (1 + j) 0 0 0 0) in *.
  pose proof (Z.mod_pos_bound (day - Weekday d) 7 ltac:(lia)) as Hk.
  pose proof (daysIn_ge_28 m y Hm) as H28.
  assert (Month d = m) as ->.
  { unfold Month, d. rewrite civil_Date; [reflexivity | exact Hm | lia | ].
    pose proof nsPerDay_pos. lia. }
  rewrite Z.eqb_refl. pose proof (Weekday_range d) as Hw.
  destruct (Weekday d =? day) eqn:E.
  - apply Z.eqb_eq in E. rewrite E, Z.sub_diag. change (0 mod 7) with 0. f_equal. unfold d.
    f_equal. lia.
  - apply Z.eqb_neq in E.
    assert (AddDate d 0 0 1 = Date y m (1 + (j + 1)) 0 0 0 0) as Hn.
    { rewrite AddDate_days. unfold d. rewrite Date_add_days. f_equal. lia. }
    assert ((day - Weekday (AddDate d 0 0 1)) mod 7 = (day - Weekday d) mod 7 - 1
            /\ 1 <= (day - Weekday d) mod 7) as [Hk' Hpos].
    { rewrite Weekday_next.
      assert (day = 0 \/ day = 1 \/ day = 2 \/ day = 3 \/ day = 4 \/ day = 5 \/ day = 6)
        as Hd by lia.
      destruct (weekday_cases d) as [H|[H|[H|[H|[H|[H|H]]]]]]; rewrite H in *;
        destruct Hd as [->|[->|[->|[->|[->|[->| ->]]]]]]; try (now elim E); split;
        (reflexivity || (cbv; discriminate)). }
    rewrite Hn in *. rewrite IH by lia. rewrite Hk'. f_equal. f_equal. lia.
Qed.

End NextDate.

Section NextDateResult.

Import GoTime GoTime2 FixData.

Lemma nextWeekday_result (fuel : nat) (day : Z) (d : Time) :
  0 <= day < 7 -> (7 <= fuel)%nat ->
  exists k, 0 <= k <= 6
            /\ nextWeekday fuel day d = Some (d + k * nsPerDay)
            /\ Weekday (d + k * nsPerDay) = day.
Proof.
  intros Hday Hf. pose proof (Z.mod_pos_bound (day - Weekday d) 7 ltac:(lia)) as Hk.
  exists ((day - Weekday d) mod 7). split; [lia|].
  split; [apply nextWeekday_spec; [exact Hday | lia]|].
  rewrite Weekday_add_days.
  assert (day = 0 \/ day = 1 \/ day = 2 \/ day = 3 \/ day = 4 \/ day = 5 \/ day = 6)
    as Hd by lia.
  destruct (weekday_cases d) as [H|[H|[H|[H|[H|[H|H]]]]]]; rewrite H;
    destruct Hd as [->|[->|[->|[->|[->|[->| ->]]]]]]; reflexivity.
Qed.

Lemma firstInMonth_result (fuel : nat) (day y m : Z) :
  0 <= day < 7 -> 1 <= m <= 12 -> (7 <= fuel)%nat ->
  exists dd, 1 <= dd <= 7
             /\ firstInMonth fuel day m (Date y m 1 0 0 0 0) = Returned (Date y m dd 0 0 0 0)
             /\ Weekday (Date y m dd 0 0 0 0) = day.
Proof.
  intros Hday Hm Hf.
  pose proof (firstInMonth_spec day y m Hday Hm fuel 0 ltac:(lia)) as H.
  change (1 + 0) with 1 in H.
  pose proof (Z.mod_pos_bound (day - Weekday (Date y m 1 0 0 0 0)) 7 ltac:(lia)) as Hk.
  specialize (H ltac:(lia) ltac:(lia)).
  exists (1 + 0 + (day - Weekday (Date y m 1 0 0 0 0)) mod 7). split; [lia|].
  split; [exact H|].
  rewrite <- Date_add_days, <- Date_add_days, Z.mul_0_l, Z.add_0_r, Weekday_add_days.
  assert (day = 0 \/ day = 1 \/ day = 2 \/ day = 3 \/ day = 4 \/ day = 5 \/ day = 6)
    as Hd by lia.
  destruct (weekday_cases (Date y m 1 0 0 0 0)) as [E|[E|[E|[E|[E|[E|E]]]]]]; rewrite E;
    destruct Hd as [->|[->|[->|[->|[->|[->| ->]]]]]]; reflexivity.
Qed.

End NextDateResult.

(** X16: [getNextDividendDate] returns, once each loop may run seven
    iterations: for the groups A to D the first Wednesday at or after the
    current instant, less than a week away and at the same time of day; for
    the weekly payers the first Thursday likewise; for the Target 12 group
    the first Wednesday of the month a month from now, at midnight, which is
    one of the first seven days of that month; for any other group the
    instant a week from now. *)
Theorem getNextDividendDate_spec (fuel : nat) (now : GoTime.Time) (group : string) :
  (7 <= fuel)%nat ->
  exists d,
    FixData.getNextDividendDate fuel now group = Some d
    /\ (In group ["GroupA"; "GroupB"; "GroupC"; "GroupD"] ->
        GoTime2.Weekday d = GoTime2.Wednesday
        /\ exists k, 0 <= k <= 6 /\ d = now + k * GoTime.nsPerDay)
    /\ (group = "Weekly" ->
        GoTime2.Weekday d = GoTime2.Thursday
        /\ exists k, 0 <= k <= 6 /\ d = now + k * GoTime.nsPerDay)
    /\ (group = "Target12" ->
        GoTime2.Weekday d = GoTime2.Wednesday
        /\ exists day,
            1 <= day <= 7
            /\ d = GoTime.Date (GoTime.Year (GoTime.AddDate now 0 1 0))
                     (GoTime.Month (GoTime.AddDate now 0 1 0)) day 0 0 0 0)
    /\ (~ In group ["GroupA"; "GroupB"; "GroupC"; "GroupD"; "Weekly"; "Target12"] ->
        d = now + 7 * GoTime.nsPerDay).
Proof.
  intros Hf. unfold FixData.getNextDividendDate.
  destruct (nextWeekday_result fuel GoTime2.Wednesday now ltac:(cbv; split; congruence) Hf)
    as (k3 & Hk3 & E3 & W3).
  destruct (nextWeekday_result fuel GoTime2.Thursday now ltac:(cbv; split; congruence) Hf)
    as (k4 & Hk4 & E4 & W4).
  assert (forall g, g <> group -> String.eqb group g = false) as Hne
      by (intros g Hg; apply String.eqb_neq; congruence).
  destruct (String.eqb group "GroupA") eqn:EA; [apply String.eqb_eq in EA; subst group|];
  [|destruct (String.eqb group "GroupB") eqn:EB; [apply String.eqb_eq in EB; subst group|]];
  [| |destruct (String.eqb group "GroupC") eqn:EC; [apply String.eqb_eq in EC; subst group|]];
  [| | |destruct (String.eqb group "GroupD") eqn:ED; [apply String.eqb_eq in ED; subst group|]];
  [| | | |destruct (String.eqb group "Weekly") eqn:EW; [apply String.eqb_eq in EW; subst group|]];
  [| | | | |destruct (String.eqb group "Target12") eqn:ET;
            [apply String.eqb_eq in ET; subst group|]].
  1-4: (exists (now + k3 * GoTime.nsPerDay); split; [exact E3|];
        split; [intros _; split; [exact W3 | eauto]|];
        split; [discriminate|]; split; [discriminate|];
        intros H; elim H; cbn; tauto).
  - exists (now + k4 * GoTime.nsPerDay). split; [exact E4|].
    split; [intros [H|[H|[H|[H|[]]]]]; discriminate H|].
    split; [intros _; split; [exact W4 | eauto]|].
    split; [discriminate|]. intros H; elim H; cbn; tauto.
  - cbv zeta.
    pose proof (civil_valid (GoTime.AddDate now 0 1 0)) as Hv.
    unfold GoTime.Year, GoTime.Month. destruct (GoTime.civil (GoTime.AddDate now 0 1 0))
      as [[y m] dd0]. cbn [fst snd]. destruct Hv as (Hm & _ & _).
    destruct (firstInMonth_result fuel GoTime2.Wednesday y m ltac:(cbv; split; congruence) Hm Hf)
      as (dd & Hdd & E & W).
    rewrite E. exists (GoTime.Date y m dd 0 0 0 0). split; [reflexivity|].
    split; [intros [H|[H|[H|[H|[]]]]]; discriminate H|].
    split; [discriminate|]. split; [intros _; split; [exact W | eauto]|].
    intros H; elim H; cbn; tauto.
  - exists (now + 7 * GoTime.nsPerDay). split; [now rewrite AddDate_days|].
    apply String.eqb_neq in EA, EB, EC, ED, EW, ET.
    split; [intros [H|[H|[H|[H|[]]]]]; congruence|].
    split; [congruence|]. split; [congruence | reflexivity].
Qed.

Lemma getNextDividendDate_spec_witness :
  exists d, FixData.getNextDividendDate 7 noon0601 "Weekly" = Some d
            /\ GoTime2.Weekday d = GoTime2.Thursday.
Proof.
  destruct (getNextDividendDate_spec 7 noon0601 "Weekly" ltac:(lia)) as (d & E & _ & H & _).
  exists d. split; [exact E | exact (proj1 (H eq_refl))].
Defined.

Example getNextDividendDate_target12 :
  FixData.getNextDividendDate 7 noon0601 "Target12" = Some (GoTime.Date 2025 7 2 0 0 0 0).
Proof. vm_compute. reflexivity. Qed.

Example getNextDividendDate_groupA :
  FixData.getNextDividendDate 7 noon0601 "GroupA" = Some (GoTime.Date 2025 6 4 12 0 0 0).
Proof. vm_compute. reflexivity. Qed.

(** ** The weekly schedule the improved scraper generates *)

Section WeeklySchedule.

Import GoTime GoTime2 ImprovedDates.

Lemma advanceTo_spec (day : Z) :
  0 <= day < 7 ->
  forall fuel d,
    (Z.to_nat ((day - Weekday d) mod 7) <= fuel)%nat ->
    advanceTo fuel day d = Some (d + ((day - Weekday d) mod 7) * nsPerDay).
Proof.
  intros Hday. induction fuel as [|fuel IH]; intros d Hf;
    cbn [advanceTo]; pose proof (Weekday_range d) as Hw;
    pose proof (Z.mod_pos_bound (day - Weekday d) 7 ltac:(lia)) as Hk;
    (destruct (Weekday d =? day) eqn:E;
     [apply Z.eqb_eq in E; rewrite E, Z.sub_diag; change (0 mod 7) with 0; f_equal; lia|]);
    apply Z.eqb_neq in E;
    (assert ((day - Weekday (AddDate d 0 0 1)) mod 7 = (day - Weekday d) mod 7 - 1
             /\ 1 <= (day - Weekday d) mod 7) as [Hk' Hpos];
     [rewrite Weekday_next;
      assert (day = 0 \/ day = 1 \/ day = 2 \/ day = 3 \/ day = 4 \/ day = 5 \/ day = 6)
        as Hd by lia;
      destruct (weekday_cases d) as [H|[H|[H|[H|[H|[H|H]]]]]]; rewrite H in *;
      destruct Hd as [->|[->|[->|[->|[->|[->| ->]]]]]]; try (now elim E); split;
      (reflexivity || (cbv; discriminate))|]).
  - lia.
  - rewrite IH by lia. rewrite Hk', AddDate_days. f_equal. lia.
Qed.

Lemma weekEvent_spec (fuel : nat) (now : Time) (day : Z) (group : string)
    (amount : GoFloat.float64) (k : Z) :
  0 <= day < 7 -> (6 <= fuel)%nat ->
  weekEvent fuel now day group amount k
  = Some (eventInWeek (now + ((day - Weekday now) mod 7) * nsPerDay) group amount k).
Proof.
  intros Hday Hf. unfold weekEvent. rewrite AddDate_days.
  assert (Weekday (now + k * 7 * nsPerDay) = Weekday now) as Hw.
  { rewrite Weekday_add_days. replace (Weekday now + k * 7) with (Weekday now + k * 7) by lia.
    rewrite Z.mod_add by lia. apply Z.mod_small, Weekday_range. }
  pose proof (Z.mod_pos_bound (day - Weekday now) 7 ltac:(lia)) as Hk.
  rewrite advanceTo_spec; [|exact Hday | rewrite Hw; lia].
  rewrite Hw, !AddDate_days. unfold eventInWeek. f_equal. f_equal; lia.
Qed.

End WeeklySchedule.

(** X17: [parseWeeklyGroupsTableImproved] appends sixteen events to the
    slice, once each of its loops may run six iterations.  The first eight
    have their ex-dates on the first Wednesday at or after the current
    instant and on the seven Wednesdays that follow, at the time of day of
    the current instant, for the groups B, C, D, A, B, C, D, A in this order;
    the last eight have theirs on the first Thursday and the seven Thursdays
    that follow, for the group Weekly.  Every event is paid a day after its
    ex-date and declared a day before it. *)
Theorem parseWeeklyGroupsTableImproved_spec (fuel : nat) (now : GoTime.Time)
    (events : list Models.DividendEvent) :
  (6 <= fuel)%nat ->
  exists wednesday thursday,
    GoTime2.Weekday wednesday = GoTime2.Wednesday
    /\ GoTime2.Weekday thursday = GoTime2.Thursday
    /\ now <= wednesday < now + 7 * GoTime.nsPerDay
    /\ now <= thursday < now + 7 * GoTime.nsPerDay
    /\ wednesday mod GoTime.nsPerDay = now mod GoTime.nsPerDay
    /\ thursday mod GoTime.nsPerDay = now mod GoTime.nsPerDay
    /\ ImprovedDates.parseWeeklyGroupsTableImproved fuel now events
       = Some (events
               ++ map (fun k => eventInWeek wednesday
                                  (nth (Z.to_nat (k mod 4)) ImprovedDates.groupRotation "")
                                  (ImprovedDates.groupAmount k) k)
                      ImprovedDates.weekOffsets
               ++ map (fun k => eventInWeek thursday "Weekly" (ImprovedDates.weeklyAmount k) k)
                      ImprovedDates.weekOffsets).
Proof.
  intros Hf.
  set (j3 := (GoTime2.Wednesday - GoTime2.Weekday now) mod 7).
  set (j4 := (GoTime2.Thursday - GoTime2.Weekday now) mod 7).
  pose proof (Z.mod_pos_bound (GoTime2.Wednesday - GoTime2.Weekday now) 7 ltac:(lia)) as H3.
  pose proof (Z.mod_pos_bound (GoTime2.Thursday - GoTime2.Weekday now) 7 ltac:(lia)) as H4.
  pose proof nsPerDay_pos as Hpos.
  exists (now + j3 * GoTime.nsPerDay), (now + j4 * GoTime.nsPerDay).
  split; [|split].
  - rewrite Weekday_add_days. unfold j3.
    destruct (weekday_cases now) as [H|[H|[H|[H|[H|[H|H]]]]]]; rewrite H; reflexivity.
  - rewrite Weekday_add_days. unfold j4.
    destruct (weekday_cases now) as [H|[H|[H|[H|[H|[H|H]]]]]]; rewrite H; reflexivity.
  - fold j3 in H3. fold j4 in H4.
    split; [nia|]. split; [nia|].
    split; [now rewrite Z.mod_add by lia|]. split; [now rewrite Z.mod_add by lia|].
    unfold ImprovedDates.parseWeeklyGroupsTableImproved, ImprovedDates.weekOffsets.
    cbv zeta. cbn [map].
    rewrite !(weekEvent_spec fuel now GoTime2.Wednesday) by (try exact Hf; cbv; split; congruence).
    rewrite !(weekEvent_spec fuel now GoTime2.Thursday) by (try exact Hf; cbv; split; congruence).
    reflexivity.
Qed.

Lemma parseWeeklyGroupsTableImproved_spec_witness :
  exists wednesday thursday,
    ImprovedDates.parseWeeklyGroupsTableImproved 6 noon0601 []
    = Some (map (fun k => eventInWeek wednesday
                            (nth (Z.to_nat (k mod 4)) ImprovedDates.groupRotation "")
                            (ImprovedDates.groupAmount k) k)
                ImprovedDates.weekOffsets
            ++ map (fun k => eventInWeek thursday "Weekly" (ImprovedDates.weeklyAmount k) k)
                   ImprovedDates.weekOffsets).
Proof.
  destruct (parseWeeklyGroupsTableImproved_spec 6 noon0601 [] ltac:(lia))
    as (w & t & _ & _ & _ & _ & _ & _ & E).
  exists w, t. exact E.
Defined.

Example parseWeeklyGroupsTableImproved_first :
  option_map (fun l => map Models.ExDate (firstn 2 l))
             (ImprovedDates.parseWeeklyGroupsTableImproved 6 noon0601 [])
  = Some [GoTime.Date 2025 6 4 12 0 0 0; GoTime.Date 2025 6 11 12 0 0 0].
Proof. vm_compute. reflexivity. Qed.

(** ** The rows of the schedule tables *)

Section ScheduleRows.

Import YieldMaxScraper.

Lemma forEachRow_spec
    (callback : list string -> list Models.DividendEvent -> option (list Models.DividendEvent))
    (n : nat) (events : list string -> list Models.DividendEvent) :
  (forall cells upcoming,
      length cells = n -> callback cells upcoming = None) ->
  (forall cells upcoming,
      (length cells < n)%nat -> callback cells upcoming = Some upcoming) ->
  (forall cells upcoming,
      (n < length cells)%nat -> callback cells upcoming = Some (upcoming ++ events cells)) ->
  forall rows upcoming,
    (existsb (cellCount n) rows = true -> forEachRow callback rows upcoming = None)
    /\ (existsb (cellCount n) rows = false ->
        forEachRow callback rows upcoming
        = Some (upcoming ++ flat_map events (List.filter (moreCells n) rows))).
Proof.
  intros Hpanic Hskip Hrow rows.
  induction rows as [|cells rows IH]; intros upcoming; cbn [existsb forEachRow].
  - split; [discriminate|]. intros _. cbn. now rewrite app_nil_r.
  - unfold cellCount at 1 3. cbn [List.filter]. unfold moreCells at 1.
    destruct (Nat.eqb_spec (length cells) n) as [E|E].
    + split; [|discriminate]. intros _. now rewrite Hpanic.
    + cbn [orb]. destruct (Nat.ltb_spec n (length cells)) as [L|L].
      * rewrite Hrow by exact L. split; intros H.
        -- now apply IH.
        -- rewrite (proj2 (IH _) H). cbn [flat_map]. now rewrite <- app_assoc.
      * rewrite Hskip by lia. apply IH.
Qed.

Lemma target12Row_cases (cells : list string) (upcoming : list Models.DividendEvent) :
  (length cells = 3%nat -> target12Row cells upcoming = None)
  /\ ((length cells < 3)%nat -> target12Row cells upcoming = Some upcoming)
  /\ ((3 < length cells)%nat ->
      target12Row cells upcoming = Some (upcoming ++ target12Events cells)).
Proof.
  unfold target12Row, target12Events, cell.
  destruct cells as [|c0 [|c1 [|c2 [|c3 cells]]]]; cbn [length]; repeat split;
    intros H; try lia; try reflexivity.
  replace (3 <=? Z.of_nat (S (S (S (S (length cells)))))) with true
    by (symmetry; apply Z.leb_le; lia).
  cbn. now rewrite <- !app_assoc.
Qed.

Lemma groupsRow_cases (cells : list string) (upcoming : list Models.DividendEvent) :
  (length cells = 4%nat -> groupsRow cells upcoming = None)
  /\ ((length cells < 4)%nat -> groupsRow cells upcoming = Some upcoming)
  /\ ((4 < length cells)%nat ->
      groupsRow cells upcoming = Some (upcoming ++ [groupsEvent cells])).
Proof.
  unfold groupsRow, groupsEvent, cell.
  destruct cells as [|c0 [|c1 [|c2 [|c3 [|c4 cells]]]]]; cbn [length]; repeat split;
    intros H; try lia; try reflexivity.
  replace (4 <=? Z.of_nat (S (S (S (S (S (length cells))))))) with true
    by (symmetry; apply Z.leb_le; lia).
  reflexivity.
Qed.

Lemma isGroupLetter_cases (l : ascii) :
  isGroupLetter l = true -> In ("Group" +:+ String l "") groupNames.
Proof.
  unfold isGroupLetter. intros H. apply andb_true_iff in H as [H1 H2].
  apply N.leb_le in H1, H2.
  assert (N_of_ascii l = 65 \/ N_of_ascii l = 66 \/ N_of_ascii l = 67 \/ N_of_ascii l = 68)%N
    as Hc by lia.
  rewrite <- (ascii_N_embedding l).
  destruct Hc as [-> | [-> | [-> | ->]]]; cbn; auto.
Qed.

Lemma findGroup_letter (s : string) (l : ascii) :
  findGroup s = Some l -> isGroupLetter l = true.
Proof.
  induction s as [|c s IH]; cbn [findGroup].
  - unfold groupAt. cbn. discriminate.
  - destruct (groupAt (String c s)) as [l'|] eqn:E; [|exact IH].
    intros [= ->]. unfold groupAt in E.
    destruct (GoStrings.stripPrefix "Group" (String c s)) as [rest|]; [|discriminate].
    unfold spacesThenLetter in E. destruct rest as [|c' rest]; [discriminate|].
    destruct (isRegexSpace c'); [|discriminate].
    destruct (skipSpaces rest) as [|l' ?]; [discriminate|].
    destruct (isGroupLetter l') eqn:El; [|discriminate]. now injection E as <-.
Qed.

Lemma extractGroup_names (text : string) : In (extractGroup text) groupNames.
Proof.
  unfold extractGroup. destruct (findGroup text) as [l|] eqn:E.
  - apply isGroupLetter_cases. now apply findGroup_letter with text.
  - destruct (GoStrings.Contains text "Weekly"); cbn; auto 10.
Qed.

End ScheduleRows.

(** X19: [parseTarget12Table] reads the cell at index 3 of every row that
    has at least three cells.  So a row with exactly three cells among the
    rows after the header makes it panic with an index out of range; when
    there is none, the rows with fewer cells are skipped and every row with
    four cells or more appends three events, for BIGY, SOXY and RNTY, of the
    group Target12 and monthly, declared on the date of cell 1, ex-dividend
    on the date of cell 2 and paid on the date of cell 3. *)
Theorem parseTarget12Table_spec (rows : list (list string))
    (upcoming : list Models.DividendEvent) :
  (existsb (cellCount 3) rows = true ->
   YieldMaxScraper.parseTarget12Table rows upcoming = None)
  /\ (existsb (cellCount 3) rows = false ->
      YieldMaxScraper.parseTarget12Table rows upcoming
      = Some (upcoming ++ flat_map target12Events (List.filter (moreCells 3) rows))).
Proof.
  apply forEachRow_spec; intros cells up H; now apply target12Row_cases.
Qed.

Lemma parseTarget12Table_spec_witness :
  YieldMaxScraper.parseTarget12Table [["June"; "6/3/25"; "6/4/25"]] [] = None
  /\ YieldMaxScraper.parseTarget12Table [["June"; "6/3/25"; "6/4/25"; "6/5/25"]] []
     = Some (target12Events ["June"; "6/3/25"; "6/4/25"; "6/5/25"]).
Proof.
  split.
  - apply (proj1 (parseTarget12Table_spec [["June"; "6/3/25"; "6/4/25"]] [])). reflexivity.
  - apply (proj2 (parseTarget12Table_spec [["June"; "6/3/25"; "6/4/25"; "6/5/25"]] [])).
    reflexivity.
Defined.

(** X20: [parseGroupsTable] reads the cell at index 4 of every row that has
    at least four cells.  So a row with exactly four cells makes it panic
    with an index out of range; when there is none, the rows with fewer
    cells are skipped and every row with five cells or more appends one
    event without a symbol, with the dates of the cells 2 (declared), 3
    (ex-dividend) and 4 (paid), monthly when cell 0 contains Monthly and
    weekly otherwise.  The group of an event is always one of GroupA,
    GroupB, GroupC, GroupD, Weekly and Unknown. *)
Theorem parseGroupsTable_spec (rows : list (list string))
    (upcoming : list Models.DividendEvent) :
  (existsb (cellCount 4) rows = true ->
   YieldMaxScraper.parseGroupsTable rows upcoming = None)
  /\ (existsb (cellCount 4) rows = false ->
      YieldMaxScraper.parseGroupsTable rows upcoming
      = Some (upcoming ++ map groupsEvent (List.filter (moreCells 4) rows)))
  /\ (forall cells, In (Models.Group (groupsEvent cells)) groupNames).
Proof.
  pose proof (forEachRow_spec YieldMaxScraper.groupsRow 4 (fun cells => [groupsEvent cells]))
    as H.
  assert (forall rows', flat_map (fun cells => [groupsEvent cells]) rows' = map groupsEvent rows')
    as Hm by (intros rows'; induction rows' as [|? ? IH]; cbn; [|rewrite IH]; reflexivity).
  rewrite <- Hm. split; [|split].
  - apply H; intros cells up Hc; now apply groupsRow_cases.
  - apply H; intros cells up Hc; now apply groupsRow_cases.
  - intros cells. apply extractGroup_names.
Qed.

Example parseGroupsTable_row :
  YieldMaxScraper.parseGroupsTable
    [["Weekly Payers & Group A ETFs"; "CONY"; "6/3/25"; "6/4/25"; "6/5/25"]] []
  = Some [{| Models.Symbol := "";
             Models.ExDate := GoTime.Date 2025 6 4 0 0 0 0;
             Models.PayDate := GoTime.Date 2025 6 5 0 0 0 0;
             Models.DeclareDate := GoTime.Date 2025 6 3 0 0 0 0;
             Models.Amount := GoFloat.zero;
             Models.Group := "GroupA";
             Models.Frequency := "weekly";
             Models.Yield := GoFloat.zero |}].
Proof. vm_compute. reflexivity. Qed.

Lemma parseGroupsTable_spec_witness :
  YieldMaxScraper.parseGroupsTable [["Group B ETFs"; "6/10/25"; "6/11/25"; "6/12/25"]] []
  = None.
Proof.
  apply (proj1 (parseGroupsTable_spec [["Group B ETFs"; "6/10/25"; "6/11/25"; "6/12/25"]] [])).
  reflexivity.
Defined.
